(** * Biotite: hydrogen-bond detection and the PDBx/mmCIF text store

    A shallow embedding of [src/biotite/structure/hbond.py] and
    [src/biopython/structure/io/pdbx/file.py], with the properties the
    specification states about them.

    Conventions.
    - Python exceptions are values of [exn]; a computation that may raise
      returns a [result].
    - numpy arrays of rank 1 are lists, arrays of rank 2 are lists of rows.
      Indices produced by [np.where] are natural numbers.
    - Floating-point quantities (distances, angles, cutoffs, frequencies)
      are idealised as rationals [Q]; the geometry primitives themselves
      are an interface ([Geometry]).
    - A Python [dict] is an insertion-ordered association list ([PyDict]). *)

From Stdlib Require Import ZArith QArith Qabs String Ascii List Bool Lia.
From stdpp Require Import base list strings.

Close Scope Q_scope.
Open Scope string_scope.
Open Scope list_scope.
Open Scope nat_scope.

(* ================================================================== *)
(** * Part I: definitions                                               *)
(* ================================================================== *)

(** ** Python exceptions and results *)

Inductive exn : Type :=
| ValueError
| IndexError
| KeyError
| TypeError
| NameError
| UnboundLocalError
| ZeroDivisionError.

Inductive result (A : Type) : Type :=
| Ok (a : A)
| Raise (e : exn).

Arguments Ok {A} a.
Arguments Raise {A} e.

Definition bind {A B : Type} (r : result A) (k : A -> result B) : result B :=
  match r with
  | Ok a => k a
  | Raise e => Raise e
  end.

Notation "'let*' x ':=' r 'in' k" := (bind r (fun x => k))
  (at level 10, x pattern, r at level 100, k at level 200).

Definition result_map {A B : Type} (f : A -> B) (r : result A) : result B :=
  let* a := r in Ok (f a).

Definition to_option {A : Type} (r : result A) : option A :=
  match r with
  | Ok a => Some a
  | Raise _ => None
  end.

(** [seq[i]] for a natural index: [IndexError] out of range. *)
Definition getitem {A : Type} (l : list A) (i : nat) : result A :=
  match l !! i with
  | Some a => Ok a
  | None => Raise IndexError
  end.

(** ** numpy on lists *)

Module np.

(** [np.full(n, v)] *)
Definition full {A : Type} (n : nat) (v : A) : list A := replicate n v.

(** [np.where(mask)[0]]: the indices of the true entries, ascending. *)
Fixpoint where_from (i : nat) (mask : list bool) : list nat :=
  match mask with
  | [] => []
  | b :: mask' =>
      if b then i :: where_from (S i) mask' else where_from (S i) mask'
  end.

Definition where_ (mask : list bool) : list nat := where_from 0 mask.

(** [np.isin(xs, elems)] on strings. *)
Definition isin (xs : list string) (elems : list string) : list bool :=
  (fun x => existsb (String.eqb x) elems) <$> xs.

(** [a & b] on rank-1 boolean arrays, with numpy's broadcasting rule:
    equal lengths, or one operand of length 1; anything else is a
    [ValueError]. *)
Definition and_ (a b : list bool) : result (list bool) :=
  if length a =? length b then Ok (zip_with andb a b)
  else match a, b with
       | [x], _ => Ok (andb x <$> b)
       | _, [y] => Ok ((fun x => andb x y) <$> a)
       | _, _ => Raise ValueError
       end.

(** [np.array_equal(a, b)]: same shape and same entries. *)
Definition array_equal (a b : list bool) : bool := bool_decide (a = b).

(** [np.repeat(xs, counts)]: [xs[i]] repeated [counts[i]] times. *)
Definition repeat_counts {A : Type} (xs : list A) (counts : list nat) : list A :=
  concat (zip_with (fun x c => replicate c x) xs counts).

(** [np.repeat(xs, n, axis=0)]: every row repeated [n] times in place. *)
Definition repeat_each {A : Type} (xs : list A) (n : nat) : list A :=
  concat ((fun x => replicate n x) <$> xs).

(** [np.tile(col, (n, 1))] for a column: the whole column [n] times. *)
Definition tile {A : Type} (xs : list A) (n : nat) : list A :=
  concat (replicate n xs).

(** [arr[mask] = vals] : the values are written, in order, at the true
    positions of the mask. *)
Fixpoint put_mask {A : Type} (arr : list A) (mask : list bool) (vals : list A)
  : list A :=
  match arr, mask with
  | a :: arr', true :: mask' =>
      match vals with
      | v :: vals' => v :: put_mask arr' mask' vals'
      | [] => a :: arr'
      end
  | a :: arr', false :: mask' => a :: put_mask arr' mask' vals
  | _, _ => arr
  end.

(** [xs[mask]] for a boolean mask of the same length. *)
Fixpoint take_mask {A : Type} (xs : list A) (mask : list bool) : list A :=
  match xs, mask with
  | x :: xs', b :: mask' =>
      if b then x :: take_mask xs' mask' else take_mask xs' mask'
  | _, _ => []
  end.

(** Column [t] of a rank-2 array given as a list of rows. *)
Definition column {A : Type} (m : list (list A)) (t : nat) : list A :=
  omap (fun row => row !! t) m.

(** [m.any(axis=0)] for an array with [ncols] columns. *)
Definition any_axis0 (ncols : nat) (m : list (list bool)) : list bool :=
  (fun t => existsb (fun row => default false (row !! t)) m) <$> seq 0 ncols.

(** [m[:, mask]] for a boolean mask over the columns. *)
Definition take_columns_mask {A : Type} (m : list (list A)) (mask : list bool)
  : list (list A) :=
  (fun row => take_mask row mask) <$> m.

(** [m[:, idx]] for integer indices that are in range. *)
Definition take_columns {A : Type} (m : list (list A)) (idx : list nat)
  : list (list A) :=
  (fun row => omap (fun i => row !! i) idx) <$> m.

(** [np.concatenate((a, b), axis=1)] for arrays with the same number of
    rows. *)
Definition concatenate_axis1 {A : Type} (a b : list (list A)) : list (list A) :=
  zip_with app a b.

(** [np.empty((m, n), dtype=bool)]: an [m]×[n] array whose entries are
    whatever the allocated memory holds; [mem] is that content. *)
Definition empty (mem : nat -> nat -> bool) (m n : nat) : list (list bool) :=
  (fun i => (fun j => mem i j) <$> seq 0 n) <$> seq 0 m.

(** The cast numpy applies when a float is stored into an integer array:
    truncation toward zero. *)
Definition float_to_int (q : Q) : Z := Z.quot (Qnum q) (Z.pos (Qden q)).

End np.

(** Strict comparison of rationals as a boolean ([x > y]). *)
Definition Qgt_bool (x y : Q) : bool :=
  match Qcompare x y with
  | Gt => true
  | _ => false
  end.

(** ** Atoms, ensembles and the geometry interface *)

(** The geometry primitives of [biotite.structure.geometry] and numpy's
    [deg2rad], on single points.  Angles are in radians. *)
Class Geometry : Type := {
  point : Type;
  distance : point -> point -> Q;
  angle : point -> point -> point -> Q;
  deg2rad : Q -> Q
}.

(** The annotations of one atom; they are shared by all models. *)
Record Annot : Type := { element : string; res_id : Z }.

(** A triplet (donor index, hydrogen index, acceptor index). *)
Definition triplet : Type := nat * nat * nat.

Definition D_index (t : triplet) : nat := t.1.1.
Definition H_index (t : triplet) : nat := t.1.2.
Definition A_index (t : triplet) : nat := t.2.

Module np_unique.

(** Lexicographic comparison of two rows. *)
Definition row_compare (a b : triplet) : comparison :=
  match Nat.compare (D_index a) (D_index b) with
  | Eq =>
      match Nat.compare (H_index a) (H_index b) with
      | Eq => Nat.compare (A_index a) (A_index b)
      | c => c
      end
  | c => c
  end.

Fixpoint insert_row (x : triplet * nat) (l : list (triplet * nat))
  : list (triplet * nat) :=
  match l with
  | [] => [x]
  | y :: l' =>
      match row_compare x.1 y.1 with
      | Gt => y :: insert_row x l'
      | _ => x :: l
      end
  end.

(** Stable sort of the rows, each paired with its position. *)
Definition sort_rows (l : list (triplet * nat)) : list (triplet * nat) :=
  foldr insert_row [] l.

(** Keep the first row of every run of equal rows of a sorted array. *)
Fixpoint drop_repeats (prev : triplet) (l : list (triplet * nat))
  : list (triplet * nat) :=
  match l with
  | [] => []
  | y :: l' =>
      match row_compare prev y.1 with
      | Eq => drop_repeats prev l'
      | _ => y :: drop_repeats y.1 l'
      end
  end.

Definition first_of_runs (l : list (triplet * nat)) : list (triplet * nat) :=
  match l with
  | [] => []
  | x :: l' => x :: drop_repeats x.1 l'
  end.

(** [np.unique(rows, axis=0, return_index=True)]: the sorted distinct
    rows, and for each the index of its first occurrence. *)
Definition unique_rows (rows : list triplet) : list triplet * list nat :=
  let u := first_of_runs (sort_rows (imap (fun i r => (r, i)) rows)) in
  (fst <$> u, snd <$> u).

End np_unique.

(** ** hbond.py *)

Section HbondDefinitions.
Context `{G : Geometry}.

(** One model: the annotation arrays and the coordinate of every atom. *)
Record AtomArray : Type := {
  array_annots : list Annot;
  array_coord : nat -> point
}.

(** An ensemble: [stack_depth] models over the same atoms;
    [stack_coord m n] is the coordinate of atom [n] in model [m], so the
    coordinate array is rectangular by construction. *)
Record AtomArrayStack : Type := {
  stack_depth : nat;
  stack_annots : list Annot;
  stack_coord : nat -> nat -> point
}.

Definition array_length (atoms : AtomArray) : nat :=
  length (array_annots atoms).

Definition stack_array_length (atoms : AtomArrayStack) : nat :=
  length (stack_annots atoms).

(** [stack([atoms])] *)
Definition stack1 (atoms : AtomArray) : AtomArrayStack :=
  {| stack_depth := 1;
     stack_annots := array_annots atoms;
     stack_coord := fun _ n => array_coord atoms n |}.

(** [atoms[m]] for a stack: the model [m]. *)
Definition stack_getitem (atoms : AtomArrayStack) (m : nat) : result AtomArray :=
  if m <? stack_depth atoms
  then Ok {| array_annots := stack_annots atoms;
             array_coord := stack_coord atoms m |}
  else Raise IndexError.

(** The coordinates of [atoms[frame, idx]]: integer indexing along the
    atom axis raises [IndexError] when an index is out of bounds. *)
Definition frame_take (atoms : AtomArrayStack) (frame : nat) (idx : list nat)
  : result (list point) :=
  if forallb (fun i => i <? stack_array_length atoms) idx
  then Ok (stack_coord atoms frame <$> idx)
  else Raise IndexError.

(** The coordinates of [atoms[:, idx]], one row per model. *)
Definition stack_take (atoms : AtomArrayStack) (idx : list nat)
  : result (list (list point)) :=
  if forallb (fun i => i <? stack_array_length atoms) idx
  then Ok ((fun m => stack_coord atoms m <$> idx) <$> seq 0 (stack_depth atoms))
  else Raise IndexError.

(** Modelled from the spec: the geometry primitives applied to arrays of
    points (one model) work entry by entry, and applied to an ensemble they
    broadcast over the leading model axis.  [biotite.structure.geometry]
    itself is not part of the sources. *)
Definition distance_array (a b : list point) : list Q :=
  zip_with distance a b.

Definition angle_array (a b c : list point) : list Q :=
  zip_with (fun ab c => angle ab.1 ab.2 c) (zip a b) c.

Definition distance_stack (a b : list (list point)) : list (list Q) :=
  zip_with distance_array a b.

Definition angle_stack (a b c : list (list point)) : list (list Q) :=
  zip_with (fun ab c => angle_array ab.1 ab.2 c) (zip a b) c.

(** [_is_hbond] on three arrays of N points: a boolean per entry. *)
Definition _is_hbond (donor donor_h acceptor : list point)
    (cutoff_dist cutoff_angle : Q) : list bool :=
  let cutoff_angle_rad := deg2rad cutoff_angle in
  let theta := angle_array donor donor_h acceptor in
  let dist := distance_array donor_h acceptor in
  zip_with andb
    ((fun t => Qgt_bool t cutoff_angle_rad) <$> theta)
    ((fun d => Qle_bool d cutoff_dist) <$> dist).

(** [_is_hbond] on three M×N ensembles: an M×N boolean matrix. *)
Definition _is_hbond_stack (donor donor_h acceptor : list (list point))
    (cutoff_dist cutoff_angle : Q) : list (list bool) :=
  let cutoff_angle_rad := deg2rad cutoff_angle in
  let theta := angle_stack donor donor_h acceptor in
  let dist := distance_stack donor_h acceptor in
  zip_with (zip_with andb)
    ((fun row : list Q => (fun t => Qgt_bool t cutoff_angle_rad) <$> row) <$> theta)
    ((fun row : list Q => (fun d => Qle_bool d cutoff_dist) <$> row) <$> dist).

(** [_get_bonded_hydrogen(atoms, donor_mask, cutoff=1.5)]: for every donor
    of [atoms[donor_mask]], the indices of the hydrogens of its residue
    within the cutoff.  [distances] is an integer array (it is created by
    [np.full(n, -1)]), so each candidate distance is truncated when it is
    stored. *)
Definition _get_bonded_hydrogen (atoms : AtomArray) (donor_mask : list bool)
  : result (list (list nat)) :=
  let cutoff : Q := (3 # 2)%Q in
  let annots := array_annots atoms in
  let hydrogens_mask := (fun a => String.eqb (element a) "H") <$> annots in
  if negb (length donor_mask =? array_length atoms) then Raise IndexError
  else
    let donors := np.take_mask (imap (fun i a => (i, a)) annots) donor_mask in
    Ok ((fun donor : nat * Annot =>
           let candidate_mask :=
             zip_with andb hydrogens_mask
               ((fun a => Z.eqb (res_id a) (res_id donor.2)) <$> annots) in
           let selected := zip_with andb candidate_mask hydrogens_mask in
           let candidate_distance :=
             (fun j => distance (array_coord atoms donor.1) (array_coord atoms j))
               <$> np.where_ selected in
           let distances :=
             np.put_mask (np.full (array_length atoms) (-1)%Z) selected
               (np.float_to_int <$> candidate_distance) in
           let donor_h_mask :=
             zip_with andb
               (zip_with andb candidate_mask
                  ((fun d => Qle_bool (inject_Z d) cutoff) <$> distances))
               ((fun d => (0 <=? d)%Z) <$> distances) in
           np.where_ donor_h_mask) <$> donors).

(** [_get_triplets]: the D-H..A triplets of every combination. *)
Definition _get_triplets (donor_i : list nat) (donor_hs_i : list (list nat))
    (acceptor_i : list nat) : result (list triplet) :=
  let donor_i := np.repeat_counts donor_i (length <$> donor_hs_i) in
  let donor_hs_i := concat donor_hs_i in
  let doublets := zip donor_i donor_hs_i in
  if length doublets =? 0 then Ok []
  else
    let doublets := np.repeat_each doublets (length acceptor_i) in
    if length acceptor_i =? 0 then Raise ZeroDivisionError
    else
      let acceptor_i :=
        np.tile acceptor_i (length doublets / length acceptor_i) in
      let triplets : list triplet :=
        zip_with (fun dh a => (dh.1, dh.2, a)) doublets acceptor_i in
      Ok (filter (fun t : triplet => D_index t <> A_index t) triplets).

(** The M×T matrix of the geometric test, all models at once. *)
Definition hbond_mask_vectorized (atoms : AtomArrayStack)
    (triplets : list triplet) (cutoff_dist cutoff_angle : Q)
  : result (list (list bool)) :=
  let* donor_atoms := stack_take atoms (D_index <$> triplets) in
  let* donor_h_atoms := stack_take atoms (H_index <$> triplets) in
  let* acceptor_atoms := stack_take atoms (A_index <$> triplets) in
  Ok (_is_hbond_stack donor_atoms donor_h_atoms acceptor_atoms
        cutoff_dist cutoff_angle).

(** The row of one frame: the body of the loop over the frames. *)
Definition frame_mask_of (atoms : AtomArrayStack) (triplets : list triplet)
    (cutoff_dist cutoff_angle : Q) (frame : nat) : result (list bool) :=
  let* donor_atoms := frame_take atoms frame (D_index <$> triplets) in
  let* donor_h_atoms := frame_take atoms frame (H_index <$> triplets) in
  let* acceptor_atoms := frame_take atoms frame (A_index <$> triplets) in
  Ok (_is_hbond donor_atoms donor_h_atoms acceptor_atoms
        cutoff_dist cutoff_angle).

(** The M×T matrix of the geometric test, filled row by row. *)
Definition hbond_mask_frames (atoms : AtomArrayStack)
    (triplets : list triplet) (cutoff_dist cutoff_angle : Q)
  : result (list (list bool)) :=
  foldl
    (fun acc frame =>
       let* hbond_mask := acc in
       let* frame_mask :=
         frame_mask_of atoms triplets cutoff_dist cutoff_angle frame in
       Ok (<[frame := frame_mask]> hbond_mask))
    (Ok (np.full (stack_depth atoms) (np.full (length triplets) false)))
    (seq 0 (stack_depth atoms)).

(** [_hbond]: one directional search.  [mem] is the content of the array
    that [np.empty] allocates on the path without candidates. *)
Definition _hbond (mem : nat -> nat -> bool) (atoms : AtomArrayStack)
    (donor_selection acceptor_selection : list bool)
    (cutoff_dist cutoff_angle : Q)
    (donor_elements acceptor_elements : list string) (vectorized : bool)
  : result (list triplet * list (list bool)) :=
  let elements := element <$> stack_annots atoms in
  let* donor_selection :=
    np.and_ donor_selection (np.isin elements donor_elements) in
  let* acceptor_selection :=
    np.and_ acceptor_selection (np.isin elements acceptor_elements) in
  let donor_i := np.where_ donor_selection in
  let acceptor_i := np.where_ acceptor_selection in
  let* atoms0 := stack_getitem atoms 0 in
  let* donor_hs_i := _get_bonded_hydrogen atoms0 donor_selection in
  let* triplets := _get_triplets donor_i donor_hs_i acceptor_i in
  if length triplets =? 0
  then Ok (triplets, np.empty mem (stack_depth atoms) 3)
  else
    let* hbond_mask :=
      if vectorized
      then hbond_mask_vectorized atoms triplets cutoff_dist cutoff_angle
      else hbond_mask_frames atoms triplets cutoff_dist cutoff_angle in
    let is_counted := np.any_axis0 (length triplets) hbond_mask in
    Ok (np.take_mask triplets is_counted,
        np.take_columns_mask hbond_mask is_counted).

(** The argument of [hbond]: a single model or an ensemble. *)
Inductive Structure : Type :=
| Single (atoms : AtomArray)
| Stack (atoms : AtomArrayStack).

(** What [hbond] returns: the triplets alone for a single model, the
    triplets and the presence mask for an ensemble. *)
Inductive HbondResult : Type :=
| Triplets (triplets : list triplet)
| TripletsMask (triplets : list triplet) (mask : list (list bool)).

Definition result_triplets (r : HbondResult) : list triplet :=
  match r with
  | Triplets t => t
  | TripletsMask t _ => t
  end.

(** The inner function of [hbond]. *)
Definition build_donor_acceptor_selections (n : nat)
    (selection : option (list bool)) (selection_type : string)
  : list bool * list bool :=
  let selection :=
    match selection with
    | None => np.full n true
    | Some s => s
    end in
  let donor_selection :=
    if existsb (String.eqb selection_type) ["both"; "donor"]
    then selection else np.full n false in
  let acceptor_selection :=
    if existsb (String.eqb selection_type) ["both"; "acceptor"]
    then selection else np.full n false in
  (donor_selection, acceptor_selection).

(** [hbond].  [mem k] is the content of the array [np.empty] allocates in
    the [k]-th directional search. *)
Definition hbond (mem : nat -> nat -> nat -> bool) (atoms : Structure)
    (selection1 selection2 : option (list bool)) (selection1_type : string)
    (cutoff_dist cutoff_angle : Q)
    (donor_elements acceptor_elements : list string) (vectorized : bool)
  : result HbondResult :=
  let '(atoms, single_model) :=
    match atoms with
    | Single a => (stack1 a, true)
    | Stack s => (s, false)
    end in
  let* selection2_type :=
    if String.eqb selection1_type "both" then Ok selection1_type
    else if String.eqb selection1_type "acceptor" then Ok "donor"
    else if String.eqb selection1_type "donor" then Ok "acceptor"
    else Raise ValueError in
  let n := stack_array_length atoms in
  let '(donor1_selection, acceptor1_selection) :=
    build_donor_acceptor_selections n selection1 selection1_type in
  let '(donor2_selection, acceptor2_selection) :=
    build_donor_acceptor_selections n selection2 selection2_type in
  let* (triplets, mask) :=
    _hbond (mem 0) atoms donor1_selection acceptor2_selection
      cutoff_dist cutoff_angle donor_elements acceptor_elements vectorized in
  let* (triplets, mask) :=
    if negb (np.array_equal donor1_selection donor2_selection
             && np.array_equal acceptor1_selection acceptor2_selection)
    then
      let* (triplets2, mask2) :=
        _hbond (mem 1) atoms donor2_selection acceptor1_selection
          cutoff_dist cutoff_angle donor_elements acceptor_elements
          vectorized in
      let triplets := triplets ++ triplets2 in
      let mask := np.concatenate_axis1 mask mask2 in
      if 0 <? length triplets
      then
        let '(triplets, unique_indices) := np_unique.unique_rows triplets in
        Ok (triplets, np.take_columns mask unique_indices)
      else Ok (triplets, mask)
    else Ok (triplets, mask) in
  if single_model then Ok (Triplets triplets)
  else Ok (TripletsMask triplets mask).

(** [hbond_frequency(mask)]: [mask.sum(axis=0) / len(mask)].  The column
    sums are folded over the rows; the true division gives rationals. *)
Definition sum_axis0 (mask : list (list bool)) : list Z :=
  match mask with
  | [] => []
  | row :: rows =>
      foldl (fun acc r => zip_with Z.add acc (Z.b2z <$> r)) (Z.b2z <$> row) rows
  end.

Definition hbond_frequency (mask : list (list bool)) : list Q :=
  (fun s => (inject_Z s / inject_Z (Z.of_nat (length mask)))%Q) <$> sum_axis0 mask.

End HbondDefinitions.

(** ** Python strings, slices and dictionaries *)

Module pystr.

(** [s[i]] for a string: [IndexError] out of range. *)
Definition getitem (s : string) (i : nat) : result ascii :=
  match String.get i s with
  | Some c => Ok c
  | None => Raise IndexError
  end.

(** [s.startswith(p)] *)
Definition startswith (s p : string) : bool := String.prefix p s.

(** [s[n:]] *)
Definition slice_from (s : string) (n : nat) : string :=
  String.substring n (String.length s - n) s.

(** [s.find(sub)]: the first position of [sub], or -1. *)
Definition find (s sub : string) : Z :=
  match String.index 0 sub s with
  | Some i => Z.of_nat i
  | None => (-1)%Z
  end.

(** The position a slice bound denotes in a sequence of length [len]:
    a negative bound counts from the end, and the result is clamped. *)
Definition slice_index (len : nat) (i : Z) : nat :=
  let i := if (i <? 0)%Z then (i + Z.of_nat len)%Z else i in
  Z.to_nat (Z.min (Z.max i 0) (Z.of_nat len)).

(** [s[a:b]] *)
Definition slice (s : string) (a b : Z) : string :=
  let a := slice_index (String.length s) a in
  let b := slice_index (String.length s) b in
  String.substring a (b - a) s.

(** [s.split(sep)] for a separator of one character. *)
Fixpoint split_chars (sep : ascii) (cs : list ascii) (cur : list ascii)
  : list string :=
  match cs with
  | [] => [string_of_list_ascii (rev cur)]
  | c :: cs' =>
      if Ascii.eqb c sep
      then string_of_list_ascii (rev cur) :: split_chars sep cs' []
      else split_chars sep cs' (c :: cur)
  end.

Definition split (s : string) (sep : ascii) : list string :=
  split_chars sep (list_ascii_of_string s) [].

(** The characters [str.strip()] removes: those [str.isspace] accepts.
    Among the code points below 256 these are the blank, the controls 9
    to 13 (tab, line feed, vertical tab, form feed, carriage return), the
    separators 28 to 31, the next-line control 133 and the no-break
    space 160. *)
Definition is_space (c : ascii) : bool :=
  let n := nat_of_ascii c in
  (n =? 32) || ((9 <=? n) && (n <=? 13)) || ((28 <=? n) && (n <=? 31))
  || (n =? 133) || (n =? 160).

Fixpoint lstrip_chars (cs : list ascii) : list ascii :=
  match cs with
  | [] => []
  | c :: cs' => if is_space c then lstrip_chars cs' else cs
  end.

(** [s.strip()] *)
Definition strip (s : string) : string :=
  string_of_list_ascii
    (rev (lstrip_chars (rev (lstrip_chars (list_ascii_of_string s))))).

(** [c * n] for a string [c]. *)
Fixpoint repeat (c : string) (n : nat) : string :=
  match n with
  | 0 => ""
  | S n' => c ++ repeat c n'
  end.

End pystr.

Module pylist.

(** [l[a:b]] *)
Definition slice {A : Type} (l : list A) (a b : Z) : list A :=
  let a := pystr.slice_index (length l) a in
  let b := pystr.slice_index (length l) b in
  take (b - a) (drop a l).

(** [del l[a:b]] *)
Definition del_slice {A : Type} (l : list A) (a b : Z) : list A :=
  let a := pystr.slice_index (length l) a in
  let b := pystr.slice_index (length l) b in
  take a l ++ drop (Nat.max a b) l.

(** [l[a:a] = new] *)
Definition insert_slice {A : Type} (l : list A) (a : Z) (new : list A) : list A :=
  let a := pystr.slice_index (length l) a in
  take a l ++ new ++ drop a l.

End pylist.

(** A Python dictionary: the keys in insertion order, each with its value. *)
Module PyDict.
Section Dict.
Context {K V : Type} `{EqDecision K}.

Fixpoint get (d : list (K * V)) (k : K) : option V :=
  match d with
  | [] => None
  | (k', v) :: d' => if decide (k' = k) then Some v else get d' k
  end.

(** [d[k] = v]: an existing key keeps its place. *)
Fixpoint set (d : list (K * V)) (k : K) (v : V) : list (K * V) :=
  match d with
  | [] => [(k, v)]
  | (k', v') :: d' =>
      if decide (k' = k) then (k, v) :: d' else (k', v') :: set d' k v
  end.

Definition keys (d : list (K * V)) : list K := fst <$> d.

Definition values (d : list (K * V)) : list V := snd <$> d.

(** Apply [f] to every value, as a loop over [d.values()] that mutates
    each value in place does. *)
Definition map_values (f : V -> V) (d : list (K * V)) : list (K * V) :=
  (fun kv => (kv.1, f kv.2)) <$> d.

End Dict.
End PyDict.

(** ** pdbx/file.py *)

(** The two functions of Python's [shlex] module the file uses.
    [shlex.split] raises [ValueError] on an unterminated quotation. *)
Class Shlex : Type := {
  shlex_split : string -> result (list string);
  shlex_quote : string -> string
}.

(** The double quote character. *)
Definition dquote : ascii := ascii_of_nat 34.

(** The value of [self._categories[(block, category)]]. *)
Record CategoryInfo : Type := {
  start : Z;
  stop : Z;
  loop : bool;
  multiline : bool
}.

Record PDBxFile : Type := {
  _lines : list string;
  _categories : list ((string * string) * CategoryInfo)
}.

(** [PDBxFile()] *)
Definition new_PDBxFile : PDBxFile := {| _lines := []; _categories := [] |}.

(** A method that may mutate [self]: the object after the call, and what
    the call returned or raised.  What a call changed before it raised
    stays changed. *)
Definition method (A : Type) : Type := PDBxFile -> PDBxFile * result A.

(** An entry of a materialised loop column: [np.zeros(n, dtype=object)]
    starts with the integer 0 everywhere. *)
Inductive cell : Type :=
| Zero
| Str (s : string).

(** What [get_category] returns. *)
Inductive Category : Type :=
| SingleCategory (d : list (string * string))
| LoopCategory (d : list (string * list cell)).

(** What [set_category] accepts: strings, or arrays of strings. *)
Inductive CategoryDict : Type :=
| SingleDict (d : list (string * string))
| LoopDict (d : list (string * list string)).

Definition _is_empty (line : string) : bool :=
  (String.length line =? 0) || bool_decide (String.get 0 line = Some "#"%char).

Definition _data_block_name (line : string) : option string :=
  if pystr.startswith line "data_" then Some (pystr.slice_from line 5)
  else None.

Definition _is_loop_start (line : string) : bool :=
  pystr.startswith line "loop_".

Definition _is_multi (line : string) (is_loop : bool) : result bool :=
  let* c := pystr.getitem line 0 in
  if is_loop then Ok (bool_decide (c = ";"%char))
  else Ok (bool_decide (c ∈ [";"%char; "'"%char; dquote])).

Definition _get_category_name (line : string) : result (option string) :=
  let* c := pystr.getitem line 0 in
  if negb (bool_decide (c = "_"%char)) then Ok None
  else Ok (Some (pystr.slice line 1 (pystr.find line "."))).

(** [_add_category] on the dictionary. *)
Definition _add_category (categories : list ((string * string) * CategoryInfo))
    (block : string) (category_name : option string)
    (start stop : Z) (is_loop is_multilined : bool)
  : list ((string * string) * CategoryInfo) :=
  match category_name with
  | Some name =>
      PyDict.set categories (block, name)
        {| start := start; stop := stop;
           loop := is_loop; multiline := is_multilined |}
  | None => categories
  end.

(** The local variables of [read], and the dictionary it fills.
    [data_block] is [None] as long as the local variable of that name is
    not bound. *)
Record ReadState : Type := {
  rs_categories : list ((string * string) * CategoryInfo);
  data_block : option string;
  current_category : option string;
  rs_start : Z;
  rs_stop : Z;
  is_loop : bool;
  has_multiline_values : bool
}.

(** Reading a local variable that may be unbound. *)
Definition read_local {A : Type} (v : option A) : result A :=
  match v with
  | Some a => Ok a
  | None => Raise UnboundLocalError
  end.

(** One iteration of the loop of [read], on line [i].  The state comes
    back also when the iteration raises: the dictionary keeps what was
    added before. *)
Definition read_line (lines : list string) (i : nat) (line : string)
    (s : ReadState) : ReadState * result unit :=
  if _is_empty line then (s, Ok tt)
  else
    let s :=
      match _data_block_name line with
      | Some data_block_name =>
          {| rs_categories := rs_categories s;
             data_block := Some data_block_name;
             current_category := None;
             rs_start := (-1)%Z; rs_stop := (-1)%Z;
             is_loop := false; has_multiline_values := false |}
      | None => s
      end in
    let is_loop_in_line := _is_loop_start line in
    match _get_category_name line with
    | Raise e => (s, Raise e)
    | Ok category_in_line =>
        let step :=
          if is_loop_in_line
             || (negb (bool_decide (category_in_line = current_category s))
                 && bool_decide (category_in_line <> None))
          then
            let stop := Z.of_nat i in
            match read_local (data_block s) with
            | Raise e => (s, Raise e)
            | Ok block =>
                let categories :=
                  _add_category (rs_categories s) block (current_category s)
                    (rs_start s) stop (is_loop s) (has_multiline_values s) in
                let s :=
                  {| rs_categories := categories;
                     data_block := data_block s;
                     current_category := current_category s;
                     rs_start := rs_start s; rs_stop := stop;
                     is_loop := is_loop s;
                     has_multiline_values := has_multiline_values s |} in
                let next_category :=
                  if is_loop_in_line
                  then let* next := getitem lines (i + 1) in
                       _get_category_name next
                  else Ok category_in_line in
                match next_category with
                | Raise e => (s, Raise e)
                | Ok category_in_line =>
                    ({| rs_categories := categories;
                        data_block := data_block s;
                        current_category := category_in_line;
                        rs_start := Z.of_nat i; rs_stop := stop;
                        is_loop := is_loop_in_line;
                        has_multiline_values := false |}, Ok tt)
                end
            end
          else (s, Ok tt) in
        match step with
        | (s, Raise e) => (s, Raise e)
        | (s, Ok _) =>
            match _is_multi line (is_loop s) with
            | Raise e => (s, Raise e)
            | Ok multiline =>
                if multiline
                then ({| rs_categories := rs_categories s;
                         data_block := data_block s;
                         current_category := current_category s;
                         rs_start := rs_start s; rs_stop := rs_stop s;
                         is_loop := is_loop s;
                         has_multiline_values := true |}, Ok tt)
                else (s, Ok tt)
            end
        end
    end.

(** The loop [for i, line in enumerate(self._lines)]. *)
Fixpoint read_loop (lines : list string) (i : nat) (rest : list string)
    (s : ReadState) : ReadState * result unit :=
  match rest with
  | [] => (s, Ok tt)
  | line :: rest' =>
      match read_line lines i line s with
      | (s, Ok _) => read_loop lines (S i) rest' s
      | (s, Raise e) => (s, Raise e)
      end
  end.

(** [read], given the content [str_data] of the file. *)
Definition read (str_data : string) : method unit :=
  fun self =>
    let lines := pystr.split str_data (ascii_of_nat 10) in
    let lines :=
      if bool_decide (last lines = Some "") then removelast lines else lines in
    let s0 :=
      {| rs_categories := _categories self;
         data_block := None;
         current_category := None;
         rs_start := (-1)%Z; rs_stop := (-1)%Z;
         is_loop := false; has_multiline_values := false |} in
    match read_loop lines 0 lines s0 with
    | (s, Raise e) =>
        ({| _lines := lines; _categories := rs_categories s |}, Raise e)
    | (s, Ok _) =>
        let stop := Z.of_nat (length lines) in
        match read_local (data_block s) with
        | Raise e =>
            ({| _lines := lines; _categories := rs_categories s |}, Raise e)
        | Ok block =>
            ({| _lines := lines;
                _categories :=
                  _add_category (rs_categories s) block (current_category s)
                    (rs_start s) stop (is_loop s) (has_multiline_values s) |},
             Ok tt)
        end
    end.

Definition get_block_names (self : PDBxFile) : list string :=
  foldl
    (fun blocks (category_tuple : string * string) =>
       let block := category_tuple.1 in
       if bool_decide (block ∈ blocks) then blocks else blocks ++ [block])
    [] (PyDict.keys (_categories self)).

(** [if block is None: block = self.get_block_names()[0]] *)
Definition default_block (self : PDBxFile) (block : option string)
  : result string :=
  match block with
  | Some b => Ok b
  | None => getitem (get_block_names self) 0
  end.

Section PdbxDefinitions.
Context `{Sh : Shlex}.

(** [lines[k-1] += text], where [lines] holds the [k] entries filled so
    far: with [k = 0] the entry read is the last one of the preallocated
    list, which is [None], and the addition raises [TypeError]. *)
Definition add_to_last (lines : list string) (text : string)
  : result (list string) :=
  match last lines with
  | Some l => Ok (removelast lines ++ [(l ++ text)%string])
  | None => Raise TypeError
  end.

(** The loop of [get_category] that turns multiline values into single
    lines.  [lines] holds the entries filled so far; [inside] tells that
    the walk is in the inner loop, between the line that opens a
    semicolon block and the [";"] that closes it.  Running out of lines
    there is the [IndexError] of [pre_lines[j]]. *)
Fixpoint merge_multiline (is_loop : bool) (pre_lines : list string)
    (lines : list string) (inside : bool) : result (list string) :=
  match pre_lines with
  | [] => if inside then Raise IndexError else Ok lines
  | line :: rest =>
      if inside then
        if String.eqb line ";"
        then let* lines := add_to_last lines "'" in
             merge_multiline is_loop rest lines false
        else let* lines := add_to_last lines line in
             merge_multiline is_loop rest lines true
      else
        let* c := pystr.getitem line 0 in
        if bool_decide (c = ";"%char)
        then let* lines := add_to_last lines (" '" ++ pystr.slice_from line 1) in
             merge_multiline is_loop rest lines true
        else if negb is_loop && bool_decide (c ∈ ["'"%char; dquote])
        then let* lines := add_to_last lines (" " ++ line) in
             merge_multiline is_loop rest lines false
        else merge_multiline is_loop rest (lines ++ [line]) false
  end.

Definition _process_singlevalued (lines : list string)
  : result (list (string * string)) :=
  foldl
    (fun acc line =>
       let* category_dict := acc in
       let* parts := shlex_split line in
       let* part0 := getitem parts 0 in
       let* key := getitem (pystr.split part0 "."%char) 1 in
       let* value := getitem parts 1 in
       Ok (PyDict.set category_dict key value))
    (Ok []) lines.

(** The local variables of [_process_looped]. *)
Record LoopState : Type := {
  category_dict : list (string * list cell);
  keys : list string;
  row : nat;     (* i, the array index *)
  col : nat      (* j, the dictionary key index *)
}.

(** [category_dict[keys[j]][i] = value], then the two counters. *)
Definition store_value (s : LoopState) (value : string) : result LoopState :=
  let* key := getitem (keys s) (col s) in
  let* column :=
    match PyDict.get (category_dict s) key with
    | Some c => Ok c
    | None => Raise KeyError
    end in
  if negb (row s <? length column) then Raise IndexError
  else
    let d := PyDict.set (category_dict s) key (<[row s := Str value]> column) in
    let j := col s + 1 in
    if j =? length (keys s)
    then Ok {| category_dict := d; keys := keys s; row := row s + 1; col := 0 |}
    else Ok {| category_dict := d; keys := keys s; row := row s; col := j |}.

Definition process_line (n_lines : nat) (s : LoopState) (line : string)
  : result LoopState :=
  let* c := pystr.getitem line 0 in
  let in_key_lines := bool_decide (c = "_"%char) in
  if in_key_lines then
    let* key := getitem (pystr.split line "."%char) 1 in
    Ok {| category_dict :=
            PyDict.set (category_dict s) key (replicate n_lines Zero);
          keys := keys s ++ [key];
          row := row s; col := col s |}
  else
    let* values := shlex_split line in
    foldl (fun acc value => let* s := acc in store_value s value) (Ok s) values.

Definition _process_looped (lines : list string)
  : result (list (string * list cell)) :=
  let* s :=
    foldl (fun acc line => let* s := acc in process_line (length lines) s line)
      (Ok {| category_dict := []; keys := []; row := 0; col := 0 |}) lines in
  Ok (PyDict.map_values (take (row s)) (category_dict s)).

Definition get_category (self : PDBxFile) (category : string)
    (block : option string) : result Category :=
  let* block := default_block self block in
  let* category_info :=
    match PyDict.get (_categories self) (block, category) with
    | Some info => Ok info
    | None => Raise KeyError
    end in
  let is_loop := loop category_info in
  let is_multilined := multiline category_info in
  let pre_lines :=
    pystr.strip <$>
      List.filter (fun line => negb (_is_empty line) && negb (_is_loop_start line))
        (pylist.slice (_lines self) (start category_info) (stop category_info)) in
  let* lines :=
    if is_multilined then merge_multiline is_loop pre_lines [] false
    else Ok pre_lines in
  if is_loop
  then result_map LoopCategory (_process_looped lines)
  else result_map SingleCategory (_process_singlevalued lines).

(** The lines [set_category] writes for a looped category. *)
Definition render_looped (category : string) (d : list (string * list string))
  : result (list string) :=
  let key_lines := (fun key => ("_" ++ category ++ "." ++ key)%string) <$> PyDict.keys d in
  let value_arr := PyDict.values d in
  let col_lens :=
    (fun column =>
       foldl (fun col_len value =>
                if col_len <? String.length value then String.length value
                else col_len) 0 column + 1) <$> value_arr in
  let* first := getitem value_arr 0 in
  let arr_len := length first in
  let* value_lines :=
    foldr
      (fun i acc =>
         let* rest := acc in
         let* value_line :=
           foldl
             (fun acc (arr_len : list string * nat) =>
                let* text := acc in
                let* v := getitem arr_len.1 i in
                Ok (text ++ v
                    ++ pystr.repeat " " (arr_len.2 - String.length v))%string)
             (Ok "") (zip value_arr col_lens) in
         Ok (value_line :: rest))
      (Ok []) (seq 0 arr_len) in
  Ok (["loop_"] ++ key_lines ++ value_lines).

(** The lines [set_category] writes for a single-valued category. *)
Definition render_single (category : string) (d : list (string * string))
  : list string :=
  let max_len :=
    foldl (fun max_len key =>
             if max_len <? String.length key then String.length key
             else max_len) 0 (PyDict.keys d) in
  let req_len := max_len + 3 in
  (fun kv : string * string =>
     ("_" ++ category ++ "." ++ kv.1
      ++ pystr.repeat " " (req_len - String.length kv.1) ++ kv.2)%string) <$> d.

(** The largest [stop] among the categories [keep] selects, from 0. *)
Definition last_stop_of (keep : string * string -> bool)
    (categories : list ((string * string) * CategoryInfo)) : Z :=
  foldl
    (fun last_stop (entry : (string * string) * CategoryInfo) =>
       if keep entry.1 && (last_stop <? stop entry.2)%Z
       then stop entry.2 else last_stop)
    0%Z categories.

(** The last loop of [set_category]. *)
Definition shift_after (category_start len_diff : Z)
    (categories : list ((string * string) * CategoryInfo))
  : list ((string * string) * CategoryInfo) :=
  PyDict.map_values
    (fun category_info =>
       if (category_start <? start category_info)%Z
       then {| start := start category_info + len_diff;
               stop := stop category_info + len_diff;
               loop := loop category_info;
               multiline := multiline category_info |}
       else category_info)
    categories.

Definition set_category (category : string) (category_dict : CategoryDict)
    (block : option string) (quote : bool) : method unit :=
  fun self =>
    let computed :=
      let* block := default_block self block in
      (* list(category_dict.values())[0] *)
      let* is_looped :=
        match category_dict with
        | SingleDict d => let* _ := getitem d 0 in Ok false
        | LoopDict d => let* _ := getitem d 0 in Ok true
        end in
      let category_dict :=
        if quote then
          match category_dict with
          | SingleDict d => SingleDict (PyDict.map_values shlex_quote d)
          | LoopDict d => LoopDict (PyDict.map_values (fmap shlex_quote) d)
          end
        else category_dict in
      let* new_lines :=
        match category_dict with
        | LoopDict d => render_looped category d
        | SingleDict d => Ok (render_single category d)
        end in
      Ok (block, is_looped, new_lines ++ ["#"]) in
    match computed with
    | Raise e => (self, Raise e)
    | Ok (block, is_looped, new_lines) =>
        let n_new := Z.of_nat (length new_lines) in
        let '(lines, categories, category_start, len_diff) :=
          match PyDict.get (_categories self) (block, category) with
          | Some category_info =>
              let old_category_start := start category_info in
              let old_category_stop := stop category_info in
              let category_start := old_category_start in
              let len_diff :=
                (n_new - (old_category_stop - old_category_start))%Z in
              let lines :=
                pylist.del_slice (_lines self)
                  old_category_start old_category_stop in
              let lines := pylist.insert_slice lines category_start new_lines in
              (lines,
               PyDict.set (_categories self) (block, category)
                 {| start := category_start;
                    stop := category_start + n_new;
                    loop := is_looped;
                    multiline := false |},
               category_start, len_diff)
          | None =>
              if bool_decide (block ∈ get_block_names self) then
                let last_stop :=
                  last_stop_of (fun key => bool_decide (block = key.1))
                    (_categories self) in
                let category_start := last_stop in
                let category_stop := (category_start + n_new)%Z in
                let len_diff := n_new in
                (pylist.insert_slice (_lines self) category_start new_lines,
                 _add_category (_categories self) block (Some category)
                   category_start category_stop is_looped false,
                 category_start, len_diff)
              else
                let new_lines := [("data_" ++ block)%string; "#"] ++ new_lines in
                let n_new := Z.of_nat (length new_lines) in
                let last_stop :=
                  last_stop_of (fun _ => true) (_categories self) in
                let category_start := (last_stop + 2)%Z in
                let category_stop := (last_stop + n_new)%Z in
                let len_diff := (n_new - 2)%Z in
                (pylist.insert_slice (_lines self) last_stop new_lines,
                 _add_category (_categories self) block (Some category)
                   category_start category_stop is_looped false,
                 category_start, len_diff)
          end in
        ({| _lines := lines;
            _categories := shift_after category_start len_diff categories |},
         Ok tt)
    end.

End PdbxDefinitions.

(** The names bound at the top level of [file.py]: the attributes every
    module has, its imports, its class and its functions. *)
Definition module_globals : list string :=
  ["__name__"; "__doc__"; "__package__"; "__loader__"; "__spec__";
   "__file__"; "__cached__"; "__builtins__";
   "shlex"; "np"; "File"; "PDBxFile"; "_is_empty"; "_data_block_name";
   "_is_loop_start"; "_is_multi"; "_get_category_name"].

(** Python's built-in functions and constants, with the names the [site]
    module adds; the remaining names of the [builtins] module are its
    exception classes. *)
Definition builtins : list string :=
  ["abs"; "all"; "any"; "ascii"; "bin"; "bool"; "bytearray"; "bytes";
   "callable"; "chr"; "classmethod"; "compile"; "complex"; "delattr";
   "dict"; "dir"; "divmod"; "enumerate"; "eval"; "exec"; "filter"; "float";
   "format"; "frozenset"; "getattr"; "globals"; "hasattr"; "hash"; "help";
   "hex"; "id"; "input"; "int"; "isinstance"; "issubclass"; "iter"; "len";
   "list"; "locals"; "map"; "max"; "memoryview"; "min"; "next"; "object";
   "oct"; "open"; "ord"; "pow"; "print"; "property"; "range"; "repr";
   "reversed"; "round"; "set"; "setattr"; "slice"; "sorted"; "staticmethod";
   "str"; "sum"; "super"; "tuple"; "type"; "vars"; "zip"; "__import__";
   "True"; "False"; "None"; "Ellipsis"; "NotImplemented"; "__debug__";
   "copyright"; "credits"; "license"; "exit"; "quit"].

(** Looking up a name that is not local to a function: the module's
    globals, then the built-ins, else [NameError]. *)
Definition resolve_global (name : string) : result unit :=
  if existsb (String.eqb name) (module_globals ++ builtins) then Ok tt
  else Raise NameError.

(** [copy]: the new object is a local variable; the method has no
    [return] statement. *)
Definition copy : method unit :=
  fun self =>
    let pdbx_file := new_PDBxFile in
    match resolve_global "copy" with
    | Raise e => (self, Raise e)
    | Ok _ =>
        let pdbx_file :=
          {| _lines := _lines self; _categories := _categories self |} in
        (self, Ok tt)
    end.

(** ** Concrete inputs *)

(** A geometry for atoms placed on a line: a point is its abscissa, the
    distance is exact, and the angle at [h] is the straight angle when [h]
    lies strictly between the two other points and 0 otherwise.  The
    straight angle and [deg2rad] use the same rational value of pi. *)
Definition pi_q : Q := (355 # 113)%Q.

Definition line_geometry : Geometry :=
  {| point := Q;
     distance := fun a b => Qabs (a - b)%Q;
     angle := fun d h a =>
       if (Qgt_bool h d && Qgt_bool a h) || (Qgt_bool d h && Qgt_bool h a)
       then pi_q else 0%Q;
     deg2rad := fun x => (x * pi_q / 180)%Q |}.

(** The default arguments of [hbond]. *)
Definition default_cutoff_dist : Q := (5 # 2)%Q.
Definition default_cutoff_angle : Q := 120%Q.
Definition default_elements : list string := ["O"; "N"; "S"].

(** Two models of a single carbon atom. *)
Definition carbon_stack `{G : Geometry} (p : point) : AtomArrayStack :=
  {| stack_depth := 2;
     stack_annots := [{| element := "C"; res_id := 1 |}];
     stack_coord := fun _ _ => p |}.

(** Two models of N-H...O on a line: N at 0 and H at 1 in residue 1, O in
    residue 2 at 3 in the first model and at 4 in the second.  The
    hydrogen bond is present in the first model only. *)
Definition nho_stack : @AtomArrayStack line_geometry :=
  @Build_AtomArrayStack line_geometry 2
    [{| element := "N"; res_id := 1 |};
     {| element := "H"; res_id := 1 |};
     {| element := "O"; res_id := 2 |}]
    (fun m n =>
       match n return Q with
       | 0 => 0%Q
       | 1 => 1%Q
       | _ => (3 + inject_Z (Z.of_nat m))%Q
       end).

(** Freshly allocated memory that reads as [False] everywhere. *)
Definition zero_memory : nat -> nat -> nat -> bool := fun _ _ _ => false.

(** Freshly allocated memory that reads as [True] everywhere. *)
Definition one_memory : nat -> nat -> nat -> bool := fun _ _ _ => true.

(** [shlex] on text without quotes or escapes: [split] cuts at blanks and
    [quote] leaves a token of safe characters as it is. *)
Definition words (s : string) : list string :=
  List.filter (fun w => negb (String.eqb w "")) (pystr.split s " "%char).

Definition plain_shlex : Shlex :=
  {| shlex_split := fun s => Ok (words s); shlex_quote := fun s => s |}.

(** A document of the given lines, each ended by a newline. *)
Definition newline : string := String (ascii_of_nat 10) "".

Definition document (lines : list string) : string :=
  (String.concat newline lines ++ newline)%string.

(** The geometric criterion as the specification states it: the angle at
    the hydrogen is strictly above the angle cutoff (in radians) and the
    distance hydrogen-acceptor is at most the distance cutoff. *)
Definition hbond_criterion `{G : Geometry} (d h a : point)
    (cutoff_dist cutoff_angle : Q) : Prop :=
  (deg2rad cutoff_angle < angle d h a)%Q /\ (distance h a <= cutoff_dist)%Q.

(** The test of [_is_hbond] on one donor, hydrogen and acceptor. *)
Definition is_hbond_at `{G : Geometry} (d h a : point)
    (cutoff_dist cutoff_angle : Q) : bool :=
  Qgt_bool (angle d h a) (deg2rad cutoff_angle)
  && Qle_bool (distance h a) cutoff_dist.

(** The triplets of a call of [hbond], if it returned. *)
Definition hbond_triplets `{G : Geometry} (r : result HbondResult)
  : option (list triplet) :=
  to_option (result_map result_triplets r).

(** The number of true entries of a boolean array. *)
Definition count_true (l : list bool) : Z :=
  Z.of_nat (length (List.filter (fun b => b) l)).

(** A point of [line_geometry]. *)
Definition on_line (x : Q) : @point line_geometry := x.

(** Two data blocks with one category each. *)
Definition two_block_document : string :=
  document ["data_A"; "_cat1.x 1"; "data_B"; "_cat2.y 2"].

(** One data block with a loop category of one column whose three rows
    stand on one line. *)
Definition dense_loop_document : string :=
  document ["data_x"; "loop_"; "_c.a"; "1 2 3"].

(** The line at which [set_category] edits the file: the start of the
    category it replaces, else the end of the last category of the block,
    else the end of the last category of the file. *)
Definition edit_start (self : PDBxFile) (block category : string) : Z :=
  match PyDict.get (_categories self) (block, category) with
  | Some category_info => start category_info
  | None =>
      if bool_decide (block ∈ get_block_names self)
      then last_stop_of (fun key => bool_decide (block = key.1)) (_categories self)
      else last_stop_of (fun _ => true) (_categories self)
  end.

(** A category moved by [delta] lines. *)
Definition shifted (delta : Z) (info : CategoryInfo) : CategoryInfo :=
  {| start := start info + delta;
     stop := stop info + delta;
     loop := loop info;
     multiline := multiline info |}.

(** Every stored category spans a non-empty range of the stored lines. *)
Definition index_consistent (self : PDBxFile) : Prop :=
  Forall
    (fun entry : (string * string) * CategoryInfo =>
       (0 <= start entry.2 < stop entry.2)%Z
       /\ (stop entry.2 <= Z.of_nat (length (_lines self)))%Z)
    (_categories self).

(** A parsed document: block A with the categories cat1 and cat2, block B
    with the category cat3. *)
Definition three_category_file : PDBxFile :=
  (read
     (document
        ["data_A"; "#"; "_cat1.x 1"; "_cat1.y 2"; "#"; "_cat2.z 3"; "#";
         "data_B"; "#"; "_cat3.z 5"; "#"])
     new_PDBxFile).1.

(** The table the specification describes for a loop category: with K
    keys, token [n] is the value of key [n mod K] in row [n / K]; the
    rows that are complete are kept. *)
Definition wrap_columns (ks tokens : list string) : list (string * list cell) :=
  imap
    (fun j key =>
       (key,
        omap (fun r => Str <$> tokens !! (r * length ks + j))
          (seq 0 (length tokens / length ks))))
    ks.

(** A line of a loop category that names the column [key]. *)
Definition is_key_line (line key : string) : Prop :=
  pystr.getitem line 0 = Ok "_"%char
  /\ getitem (pystr.split line "."%char) 1 = Ok key.

(** A line of a loop category that holds the values [values]. *)
Definition is_value_line `{Sh : Shlex} (line : string) (values : list string)
  : Prop :=
  (exists c, pystr.getitem line 0 = Ok c /\ c <> "_"%char)
  /\ shlex_split line = Ok values.

(** The entry of row [r] in the column of key [j] once [n] tokens are
    stored. *)
Definition cell_after (K : nat) (tokens : list string) (n j r : nat) : cell :=
  if r * K + j <? n
  then match tokens !! (r * K + j) with
       | Some v => Str v
       | None => Zero
       end
  else Zero.

(** The local variables of [_process_looped] once the key lines are read
    and [n] tokens are stored; [L] is the number of lines. *)
Definition loop_state_after (L : nat) (ks tokens : list string) (n : nat)
  : LoopState :=
  {| category_dict :=
       imap (fun j key => (key, cell_after (length ks) tokens n j <$> seq 0 L)) ks;
     keys := ks;
     row := n / length ks;
     col := n mod length ks |}.

(** What holds of the local variables of [read] before line [i]: the
    categories recorded so far span non-empty ranges that end at or
    before [i], and an open category started before [i]. *)
Definition read_invariant (i : Z) (s : ReadState) : Prop :=
  Forall
    (fun entry : (string * string) * CategoryInfo =>
       (0 <= start entry.2 < stop entry.2)%Z /\ (stop entry.2 <= i)%Z)
    (rs_categories s)
  /\ (current_category s <> None -> (0 <= rs_start s < i)%Z).

(** The candidates as nested loops: for every donor and each of its
    hydrogens, for every acceptor, the triplet, unless the donor is the
    acceptor. *)
Definition cross_triplets (donor_i : list nat) (donor_hs_i : list (list nat))
    (acceptor_i : list nat) : list triplet :=
  filter (fun t : triplet => D_index t <> A_index t)
    (dhs ← zip donor_i donor_hs_i;
     h ← dhs.2;
     (fun a => (dhs.1, h, a)) <$> acceptor_i).

(** Atom [j] counts as a hydrogen bonded to the donor [d]: it is a
    hydrogen of the residue of [d], and its distance to [d], truncated to
    an integer, is 0 or 1. *)
Definition bonded_hydrogen `{G : Geometry} (atoms : AtomArray) (d j : nat)
  : Prop :=
  exists ad aj,
    array_annots atoms !! d = Some ad
    /\ array_annots atoms !! j = Some aj
    /\ element aj = "H"
    /\ res_id aj = res_id ad
    /\ (0 <= np.float_to_int
               (distance (array_coord atoms d) (array_coord atoms j)) <= 1)%Z.

(** The first model of an ensemble, as [atoms[0]] returns it. *)
Definition first_model `{G : Geometry} (atoms : AtomArrayStack) : AtomArray :=
  {| array_annots := stack_annots atoms;
     array_coord := stack_coord atoms 0 |}.

(** Atom [i] is selected by the boolean mask and its element is one of
    [elements]. *)
Definition selected_atom `{G : Geometry} (atoms : AtomArrayStack)
    (selection : list bool) (elements : list string) (i : nat) : Prop :=
  selection !! i = Some true
  /\ exists a, stack_annots atoms !! i = Some a /\ element a ∈ elements.

(** A candidate of one directional search: a selected donor, a hydrogen
    bonded to it in the first model, and a selected acceptor other than
    the donor. *)
Definition candidate_triplet `{G : Geometry} (atoms : AtomArrayStack)
    (donor_selection acceptor_selection : list bool)
    (donor_elements acceptor_elements : list string) (t : triplet) : Prop :=
  selected_atom atoms donor_selection donor_elements (D_index t)
  /\ bonded_hydrogen (first_model atoms) (D_index t) (H_index t)
  /\ selected_atom atoms acceptor_selection acceptor_elements (A_index t)
  /\ D_index t <> A_index t.

(** The criterion holds for the triplet in model [m]. *)
Definition bond_in_model `{G : Geometry} (atoms : AtomArrayStack)
    (cutoff_dist cutoff_angle : Q) (m : nat) (t : triplet) : Prop :=
  hbond_criterion (stack_coord atoms m (D_index t))
    (stack_coord atoms m (H_index t)) (stack_coord atoms m (A_index t))
    cutoff_dist cutoff_angle.

(** [write]: the content of the file it writes, every stored line followed
    by a newline. *)
Definition write (self : PDBxFile) : string :=
  foldr (fun line rest => (line ++ newline ++ rest)%string) EmptyString
    (_lines self).

(** ** Text mode *)

Definition line_feed : ascii := ascii_of_nat 10.
Definition carriage_return : ascii := ascii_of_nat 13.

(** What a file opened with [open(file_name, "w")] receives for the
    text written to it: text mode replaces every line feed by the line
    separator of the platform, [os.linesep]. *)
Definition text_mode_write (linesep : list ascii) (text : list ascii)
  : list ascii :=
  c ← text; if Ascii.eqb c line_feed then linesep else [c].

(** What [f.read()] returns for a file opened with
    [open(file_name, "r")]: text mode with universal newlines returns the
    line endings carriage return + line feed and carriage return alone as
    a line feed. *)
Fixpoint text_mode_read (content : list ascii) : list ascii :=
  match content with
  | [] => []
  | c :: rest =>
      if Ascii.eqb c carriage_return
      then line_feed ::
           match rest with
           | c' :: rest' =>
               if Ascii.eqb c' line_feed then text_mode_read rest'
               else text_mode_read rest
           | [] => []
           end
      else c :: text_mode_read rest
  end.

(** What [f.read()] in [read] returns for the file [write] has written,
    on a platform whose line separator is [linesep]. *)
Definition read_back (linesep : list ascii) (self : PDBxFile) : string :=
  string_of_list_ascii
    (text_mode_read
       (text_mode_write linesep (list_ascii_of_string (write self)))).

(** The string holds no line break: neither a line feed nor a carriage
    return. *)
Definition one_line (s : string) : Prop :=
  (line_feed ∉ list_ascii_of_string s)
  /\ (carriage_return ∉ list_ascii_of_string s).

(** The dictionary holds arrays: [set_category] writes a loop. *)
Definition is_loop_dict (category_dict : CategoryDict) : bool :=
  match category_dict with
  | SingleDict _ => false
  | LoopDict _ => true
  end.

(** The lines [set_category] writes for the category, the closing
    comment line included. *)
Definition new_lines_of `{Sh : Shlex} (category : string)
    (category_dict : CategoryDict) (quote : bool) : result (list string) :=
  let* body :=
    match category_dict with
    | SingleDict d =>
        Ok (render_single category
              (if quote then PyDict.map_values shlex_quote d else d))
    | LoopDict d =>
        render_looped category
          (if quote then PyDict.map_values (fmap shlex_quote) d else d)
    end in
  Ok (body ++ ["#"]).

(** The string holds no dot. *)
Definition no_dot (s : string) : Prop := "."%char ∉ list_ascii_of_string s.

(** The lines of a list joined without a separator. *)
Definition join_lines (lines : list string) : string :=
  foldr String.append EmptyString lines.

(** The ensemble [hbond] works on: a single model is stacked. *)
Definition as_stack `{G : Geometry} (atoms : Structure) : AtomArrayStack :=
  match atoms with
  | Single a => stack1 a
  | Stack s => s
  end.

(** The atoms a selection argument of [hbond] selects: all of them when
    the argument is [None]. *)
Definition selection_mask (n : nat) (selection : option (list bool))
  : list bool :=
  match selection with
  | None => np.full n true
  | Some s => s
  end.

(** The selection argument, when given, has one entry per atom. *)
Definition selection_fits (n : nat) (selection : option (list bool)) : Prop :=
  length (selection_mask n selection) = n.

(* ================================================================== *)
(** * Part II: properties                                               *)
(* ================================================================== *)

(** ** Results and comparisons *)

Lemma foldl_bind_Raise {A B : Type} (f : A -> B -> result A) (e : exn)
    (l : list B) :
  foldl (fun acc x => let* a := acc in f a x) (Raise e) l = Raise e.
Proof. induction l as [|x l IH]; simpl; auto. Qed.

Lemma Qgt_bool_iff (x y : Q) : Qgt_bool x y = true <-> (y < x)%Q.
Proof.
  unfold Qgt_bool. rewrite Qgt_alt.
  destruct (x ?= y)%Q; split; congruence.
Qed.

Lemma Qgt_bool_eq_false (x y : Q) : (x == y)%Q -> Qgt_bool x y = false.
Proof.
  intros Heq. destruct (Qgt_bool x y) eqn:E; [|reflexivity].
  apply Qgt_bool_iff in E. rewrite Heq in E.
  exfalso. exact (Qlt_irrefl y E).
Qed.

Lemma Qle_bool_eq_true (x y : Q) : (x == y)%Q -> Qle_bool x y = true.
Proof. intros Heq. apply Qle_bool_iff. rewrite Heq. apply Qle_refl. Qed.

(** ** The geometric criterion (hbond.py, [_is_hbond]) *)

Section Criterion.
Context `{G : Geometry}.

Lemma is_hbond_at_iff d h a cutoff_dist cutoff_angle :
  is_hbond_at d h a cutoff_dist cutoff_angle = true
  <-> hbond_criterion d h a cutoff_dist cutoff_angle.
Proof.
  unfold is_hbond_at, hbond_criterion.
  rewrite andb_true_iff, Qgt_bool_iff, Qle_bool_iff. reflexivity.
Qed.

(** Entry [i] of [_is_hbond] is the test on the [i]-th points. *)
Lemma _is_hbond_lookup donor donor_h acceptor cutoff_dist cutoff_angle i :
  _is_hbond donor donor_h acceptor cutoff_dist cutoff_angle !! i
  = (d ← donor !! i; h ← donor_h !! i; a ← acceptor !! i;
     Some (is_hbond_at d h a cutoff_dist cutoff_angle)).
Proof.
  unfold _is_hbond, angle_array, distance_array, is_hbond_at.
  rewrite lookup_zip_with, !list_lookup_fmap, !lookup_zip_with.
  destruct (donor !! i) as [d|]; simpl; [|reflexivity].
  destruct (donor_h !! i) as [h|]; simpl; [|reflexivity].
  destruct (acceptor !! i) as [a|]; simpl; reflexivity.
Qed.

(** Row [m] of [_is_hbond] on ensembles is [_is_hbond] on the rows [m]. *)
Lemma _is_hbond_stack_lookup donor donor_h acceptor cutoff_dist cutoff_angle m :
  _is_hbond_stack donor donor_h acceptor cutoff_dist cutoff_angle !! m
  = (d ← donor !! m; h ← donor_h !! m; a ← acceptor !! m;
     Some (_is_hbond d h a cutoff_dist cutoff_angle)).
Proof.
  unfold _is_hbond_stack, angle_stack, distance_stack.
  rewrite lookup_zip_with, !list_lookup_fmap, !lookup_zip_with.
  destruct (donor !! m) as [d|]; simpl; [|reflexivity].
  destruct (donor_h !! m) as [h|]; simpl; [|reflexivity].
  destruct (acceptor !! m) as [a|]; simpl; reflexivity.
Qed.

(** C4.  For donor, hydrogen and acceptor coordinates batched over
    models, the entry of [_is_hbond] for model [m] and triplet [t] is true
    if and only if the angle at the hydrogen is strictly greater than the
    angle cutoff and the distance hydrogen-acceptor is at most the
    distance cutoff.  At exactly the angle cutoff the entry is false; at
    exactly the distance cutoff the distance test passes, so the entry is
    decided by the angle alone. *)
Theorem is_hbond_criterion
    (donor donor_h acceptor : list (list point)) (cutoff_dist cutoff_angle : Q)
    (m t : nat) (ds hs accs : list point) (d h a : point) :
  donor !! m = Some ds -> donor_h !! m = Some hs -> acceptor !! m = Some accs ->
  ds !! t = Some d -> hs !! t = Some h -> accs !! t = Some a ->
  exists row b,
    _is_hbond_stack donor donor_h acceptor cutoff_dist cutoff_angle !! m
      = Some row
    /\ row = _is_hbond ds hs accs cutoff_dist cutoff_angle
    /\ row !! t = Some b
    /\ (b = true <-> hbond_criterion d h a cutoff_dist cutoff_angle)
    /\ ((angle d h a == deg2rad cutoff_angle)%Q -> b = false)
    /\ ((distance h a == cutoff_dist)%Q ->
        b = Qgt_bool (angle d h a) (deg2rad cutoff_angle)).
Proof.
  intros Hd Hh Ha Hdt Hht Hat.
  exists (_is_hbond ds hs accs cutoff_dist cutoff_angle),
         (is_hbond_at d h a cutoff_dist cutoff_angle).
  split.
  { rewrite _is_hbond_stack_lookup, Hd, Hh, Ha. reflexivity. }
  split; [reflexivity|].
  split.
  { rewrite _is_hbond_lookup, Hdt, Hht, Hat. reflexivity. }
  split; [apply is_hbond_at_iff|].
  unfold is_hbond_at. split.
  - intros Heq. rewrite (Qgt_bool_eq_false _ _ Heq). reflexivity.
  - intros Heq. rewrite (Qle_bool_eq_true _ _ Heq), andb_true_r. reflexivity.
Qed.

End Criterion.

(** ** The two execution strategies (hbond.py, [_hbond]) *)

(** Writing the rows [g 0], [g 1], ... one after the other into an array
    of that many rows gives the array of these rows. *)
Lemma foldl_insert_rows {A : Type} (g : nat -> A) (n k : nat) (acc : list A) :
  length acc = k + n ->
  foldl (fun m i => <[i := g i]> m) acc (seq k n)
  = take k acc ++ (g <$> seq k n).
Proof.
  revert k acc. induction n as [|n IH]; intros k acc Hlen; simpl.
  - rewrite app_nil_r, take_ge; [reflexivity | lia].
  - rewrite IH by (rewrite length_insert; lia).
    assert (Hk : k < length acc) by lia.
    destruct (lookup_lt_is_Some_2 acc k Hk) as [x Hx].
    rewrite (take_S_r (<[k := g k]> acc) k (g k))
      by (apply list_lookup_insert_eq; exact Hk).
    rewrite take_insert_ge by lia.
    rewrite <- app_assoc. reflexivity.
Qed.

Lemma foldl_insert_all_rows {A : Type} (g : nat -> A) (n : nat) (x : A) :
  foldl (fun m i => <[i := g i]> m) (replicate n x) (seq 0 n) = g <$> seq 0 n.
Proof.
  rewrite foldl_insert_rows by (rewrite length_replicate; lia).
  reflexivity.
Qed.

(** A loop whose body never raises computes what the pure loop does. *)
Lemma foldl_bind_Ok {A B : Type} (f : A -> B -> A) (a : A) (l : list B) :
  foldl (fun acc x => let* a := acc in Ok (f a x)) (Ok a) l = Ok (foldl f a l).
Proof. revert a. induction l as [|x l IH]; intros a; simpl; auto. Qed.

Lemma foldl_ext_all {A B : Type} (f g : A -> B -> A) (a : A) (l : list B) :
  (forall a x, f a x = g a x) -> foldl f a l = foldl g a l.
Proof.
  intros Hfg. revert a. induction l as [|x l IH]; intros a; simpl;
    [reflexivity|]. rewrite Hfg. apply IH.
Qed.

Section Strategies.
Context `{G : Geometry}.

Lemma stack_take_Ok atoms idx :
  forallb (fun i => i <? stack_array_length atoms) idx = true ->
  stack_take atoms idx
  = Ok ((fun m => stack_coord atoms m <$> idx) <$> seq 0 (stack_depth atoms))
  /\ forall frame, frame_take atoms frame idx = Ok (stack_coord atoms frame <$> idx).
Proof. intros H. unfold stack_take, frame_take. rewrite H. auto. Qed.

Lemma stack_take_Raise atoms idx :
  forallb (fun i => i <? stack_array_length atoms) idx = false ->
  stack_take atoms idx = Raise IndexError
  /\ forall frame, frame_take atoms frame idx = Raise IndexError.
Proof. intros H. unfold stack_take, frame_take. rewrite H. auto. Qed.

(** The loop over the frames raises what its first frame raises. *)
Lemma hbond_mask_frames_Raise atoms triplets cutoff_dist cutoff_angle e :
  0 < stack_depth atoms ->
  frame_mask_of atoms triplets cutoff_dist cutoff_angle 0 = Raise e ->
  hbond_mask_frames atoms triplets cutoff_dist cutoff_angle = Raise e.
Proof.
  intros Hdepth Hbody. unfold hbond_mask_frames.
  destruct (stack_depth atoms) as [|n]; [lia|].
  simpl seq. simpl foldl. rewrite Hbody. simpl.
  apply foldl_bind_Raise.
Qed.

(** On an ensemble with at least one model, the row-by-row loop and the
    batched evaluation give the same matrix, or raise the same error. *)
Lemma hbond_mask_frames_vectorized atoms triplets cutoff_dist cutoff_angle :
  0 < stack_depth atoms ->
  hbond_mask_frames atoms triplets cutoff_dist cutoff_angle
  = hbond_mask_vectorized atoms triplets cutoff_dist cutoff_angle.
Proof.
  intros Hdepth.
  unfold hbond_mask_vectorized.
  destruct (forallb (fun i => i <? stack_array_length atoms) (D_index <$> triplets))
    eqn:HD.
  2:{ destruct (stack_take_Raise _ _ HD) as [-> HfD]. simpl.
      apply hbond_mask_frames_Raise; [exact Hdepth|].
      unfold frame_mask_of. rewrite HfD. reflexivity. }
  destruct (stack_take_Ok _ _ HD) as [-> HfD]. simpl.
  destruct (forallb (fun i => i <? stack_array_length atoms) (H_index <$> triplets))
    eqn:HH.
  2:{ destruct (stack_take_Raise _ _ HH) as [-> HfH]. simpl.
      apply hbond_mask_frames_Raise; [exact Hdepth|].
      unfold frame_mask_of. rewrite HfD, HfH. reflexivity. }
  destruct (stack_take_Ok _ _ HH) as [-> HfH]. simpl.
  destruct (forallb (fun i => i <? stack_array_length atoms) (A_index <$> triplets))
    eqn:HA.
  2:{ destruct (stack_take_Raise _ _ HA) as [-> HfA]. simpl.
      apply hbond_mask_frames_Raise; [exact Hdepth|].
      unfold frame_mask_of. rewrite HfD, HfH, HfA. reflexivity. }
  destruct (stack_take_Ok _ _ HA) as [-> HfA]. simpl.
  unfold hbond_mask_frames.
  set (g := fun frame =>
              _is_hbond (stack_coord atoms frame <$> (D_index <$> triplets))
                (stack_coord atoms frame <$> (H_index <$> triplets))
                (stack_coord atoms frame <$> (A_index <$> triplets))
                cutoff_dist cutoff_angle).
  transitivity
    (foldl (fun acc frame => let* m := acc in Ok (<[frame := g frame]> m))
       (Ok (np.full (stack_depth atoms) (np.full (length triplets) false)))
       (seq 0 (stack_depth atoms))).
  { apply foldl_ext_all.
    intros acc frame. destruct acc as [mask|e]; simpl; [|reflexivity].
    unfold frame_mask_of. rewrite HfD, HfH, HfA. reflexivity. }
  rewrite (foldl_bind_Ok (fun m frame => <[frame := g frame]> m)).
  unfold np.full. rewrite foldl_insert_all_rows. f_equal.
  apply list_eq. intros m.
  rewrite _is_hbond_stack_lookup, !list_lookup_fmap.
  destruct (seq 0 (stack_depth atoms) !! m) as [frame|]; reflexivity.
Qed.

Lemma _hbond_vectorized_irrelevant mem atoms donor_selection acceptor_selection
    cutoff_dist cutoff_angle donor_elements acceptor_elements :
  _hbond mem atoms donor_selection acceptor_selection cutoff_dist cutoff_angle
    donor_elements acceptor_elements true
  = _hbond mem atoms donor_selection acceptor_selection cutoff_dist cutoff_angle
      donor_elements acceptor_elements false.
Proof.
  unfold _hbond.
  destruct (np.and_ donor_selection _) as [ds|e]; simpl; [|reflexivity].
  destruct (np.and_ acceptor_selection _) as [acs|e]; simpl; [|reflexivity].
  unfold stack_getitem.
  destruct (0 <? stack_depth atoms) eqn:Hdepth; simpl; [|reflexivity].
  apply Nat.ltb_lt in Hdepth.
  destruct (_get_bonded_hydrogen _ ds) as [hs|e]; simpl; [|reflexivity].
  destruct (_get_triplets _ hs _) as [triplets|e]; simpl; [|reflexivity].
  destruct (length triplets =? 0); [reflexivity|].
  rewrite hbond_mask_frames_vectorized by exact Hdepth. reflexivity.
Qed.

End Strategies.

(** ** The directional searches of [hbond] *)

Lemma where_from_all_false (i : nat) (mask : list bool) :
  Forall (fun b => b = false) mask -> np.where_from i mask = [].
Proof.
  intros H. revert i. induction H as [|b mask Hb _ IH]; intros i; simpl;
    [reflexivity|]. rewrite Hb. apply IH.
Qed.

Lemma take_mask_all_false {A : Type} (xs : list A) (mask : list bool) :
  Forall (fun b => b = false) mask -> np.take_mask xs mask = [].
Proof.
  intros H. revert xs. induction H as [|b mask Hb _ IH]; intros xs;
    destruct xs as [|x xs]; simpl; try reflexivity.
  rewrite Hb. apply IH.
Qed.

Lemma and_full_false (n : nat) (l : list bool) :
  length l = n ->
  exists mask,
    np.and_ (np.full n false) l = Ok mask
    /\ length mask = n /\ Forall (fun b => b = false) mask.
Proof.
  intros Hlen. unfold np.and_, np.full.
  rewrite length_replicate, Hlen, Nat.eqb_refl.
  eexists. split; [reflexivity|]. split.
  - rewrite length_zip_with, length_replicate. lia.
  - apply Forall_forall. intros b Hb.
    apply list_elem_of_lookup in Hb as [i Hi].
    rewrite lookup_zip_with in Hi.
    destruct (replicate n false !! i) as [x|] eqn:Hx; simpl in Hi; [|discriminate].
    apply lookup_replicate in Hx as [-> _].
    destruct (l !! i); simpl in Hi; congruence.
Qed.

Section Passes.
Context `{G : Geometry}.

(** A search whose donor selection and acceptor selection are empty finds
    no candidate. *)
Lemma _hbond_no_selection mem atoms cutoff_dist cutoff_angle
    donor_elements acceptor_elements vectorized :
  _hbond mem atoms
    (np.full (stack_array_length atoms) false)
    (np.full (stack_array_length atoms) false)
    cutoff_dist cutoff_angle donor_elements acceptor_elements vectorized
  = if 0 <? stack_depth atoms
    then Ok ([], np.empty mem (stack_depth atoms) 3)
    else Raise IndexError.
Proof.
  unfold _hbond.
  destruct (and_full_false (stack_array_length atoms)
              (np.isin (element <$> stack_annots atoms) donor_elements))
    as (ds & -> & Hlen & Hds).
  { unfold np.isin, stack_array_length. rewrite !length_fmap. reflexivity. }
  destruct (and_full_false (stack_array_length atoms)
              (np.isin (element <$> stack_annots atoms) acceptor_elements))
    as (acs & -> & _ & Hacs).
  { unfold np.isin, stack_array_length. rewrite !length_fmap. reflexivity. }
  simpl. unfold stack_getitem.
  destruct (0 <? stack_depth atoms); simpl; [|reflexivity].
  unfold _get_bonded_hydrogen, array_length. simpl.
  unfold stack_array_length in Hlen. rewrite Hlen, Nat.eqb_refl. simpl.
  rewrite take_mask_all_false by exact Hds. simpl.
  unfold np.where_. rewrite where_from_all_false by exact Hds.
  reflexivity.
Qed.

(** The triplets a search returns do not depend on what [np.empty]
    finds in memory. *)
Lemma _hbond_triplets_mem mem mem' atoms donor_selection acceptor_selection
    cutoff_dist cutoff_angle donor_elements acceptor_elements vectorized :
  result_map fst
    (_hbond mem atoms donor_selection acceptor_selection
       cutoff_dist cutoff_angle donor_elements acceptor_elements vectorized)
  = result_map fst
      (_hbond mem' atoms donor_selection acceptor_selection
         cutoff_dist cutoff_angle donor_elements acceptor_elements vectorized).
Proof.
  unfold _hbond.
  destruct (np.and_ donor_selection _) as [ds|e]; simpl; [|reflexivity].
  destruct (np.and_ acceptor_selection _) as [acs|e]; simpl; [|reflexivity].
  destruct (stack_getitem atoms 0) as [atoms0|e]; simpl; [|reflexivity].
  destruct (_get_bonded_hydrogen atoms0 ds) as [hs|e]; simpl; [|reflexivity].
  destruct (_get_triplets _ hs _) as [triplets|e]; simpl; [|reflexivity].
  destruct (length triplets =? 0); reflexivity.
Qed.

(** A search that returns needed the first model. *)
Lemma _hbond_Ok_depth mem atoms donor_selection acceptor_selection
    cutoff_dist cutoff_angle donor_elements acceptor_elements vectorized r :
  _hbond mem atoms donor_selection acceptor_selection
    cutoff_dist cutoff_angle donor_elements acceptor_elements vectorized = Ok r ->
  (0 <? stack_depth atoms) = true.
Proof.
  unfold _hbond.
  destruct (np.and_ donor_selection _) as [ds|e]; simpl; [|discriminate].
  destruct (np.and_ acceptor_selection _) as [acs|e]; simpl; [|discriminate].
  unfold stack_getitem.
  destruct (0 <? stack_depth atoms); simpl; [reflexivity|discriminate].
Qed.

(** C5.  Calling [hbond] with (selection1 = A, selection2 = B,
    selection1_type = 'donor') and with (selection1 = B, selection2 = A,
    selection1_type = 'acceptor') yields the same triplets: in both calls
    A is searched for donors and B for acceptors, and the other
    directional search has empty selections.  Either both calls raise, or
    both return, with equal triplet arrays. *)
Theorem hbond_donor_acceptor_symmetry
    (mem mem' : nat -> nat -> nat -> bool) (atoms : Structure)
    (A B : option (list bool)) (cutoff_dist cutoff_angle : Q)
    (donor_elements acceptor_elements : list string) (vectorized : bool) :
  hbond_triplets
    (hbond mem atoms A B "donor" cutoff_dist cutoff_angle
       donor_elements acceptor_elements vectorized)
  = hbond_triplets
      (hbond mem' atoms B A "acceptor" cutoff_dist cutoff_angle
         donor_elements acceptor_elements vectorized).
Proof.
  unfold hbond, build_donor_acceptor_selections, np.array_equal.
  set (stk := match atoms with Single a => stack1 a | Stack s => s end).
  set (single := match atoms with Single _ => true | Stack _ => false end).
  assert (Hsplit :
            match atoms with
            | Single a => (stack1 a, true)
            | Stack s => (s, false)
            end = (stk, single)) by (destruct atoms; reflexivity).
  rewrite Hsplit. clear Hsplit. simpl.
  set (n := stack_array_length stk).
  set (sA := match A with Some s => s | None => np.full n true end).
  set (sB := match B with Some s => s | None => np.full n true end).
  set (F := np.full n false).
  rewrite !_hbond_no_selection. fold n F.
  pose proof (_hbond_triplets_mem (mem 0) (mem' 1) stk sA sB cutoff_dist
                cutoff_angle donor_elements acceptor_elements vectorized)
    as Hmem.
  destruct (decide (sA = F /\ sB = F)) as [[HA HB]|Hne].
  - (* both selections are empty: one search in each call *)
    rewrite HA, HB. rewrite !bool_decide_eq_true_2 by reflexivity. simpl.
    unfold F, n. rewrite _hbond_no_selection.
    destruct (0 <? stack_depth stk); simpl; [|reflexivity].
    destruct single; reflexivity.
  - assert (Hc1 : bool_decide (sA = F) && bool_decide (F = sB) = false).
    { apply andb_false_iff.
      destruct (decide (sA = F)) as [HA|HA];
        [right|left; apply bool_decide_eq_false_2; exact HA].
      apply bool_decide_eq_false_2. intros HB. apply Hne. auto. }
    assert (Hc2 : bool_decide (F = sA) && bool_decide (sB = F) = false).
    { apply andb_false_iff.
      destruct (decide (sA = F)) as [HA|HA];
        [right|left; apply bool_decide_eq_false_2; congruence].
      apply bool_decide_eq_false_2. intros HB. apply Hne. auto. }
    rewrite Hc1, Hc2. simpl.
    destruct (_hbond (mem 0) stk sA sB cutoff_dist cutoff_angle donor_elements
                acceptor_elements vectorized) as [[t1 m1]|e1] eqn:H1;
      destruct (_hbond (mem' 1) stk sA sB cutoff_dist cutoff_angle
                  donor_elements acceptor_elements vectorized)
        as [[t2 m2]|e2] eqn:H2;
      simpl in Hmem; try discriminate.
    + injection Hmem as ->.
      rewrite (_hbond_Ok_depth _ _ _ _ _ _ _ _ _ _ H1). simpl.
      rewrite app_nil_r.
      destruct (0 <? length t2); simpl.
      * destruct (np_unique.unique_rows t2) as [u idx]. simpl.
        destruct single; reflexivity.
      * destruct single; reflexivity.
    + destruct (0 <? stack_depth stk); reflexivity.
Qed.

End Passes.

(** ** The frequency reducer (hbond.py, [hbond_frequency]) *)

Lemma count_true_cons (b : bool) (l : list bool) :
  count_true (b :: l) = (Z.b2z b + count_true l)%Z.
Proof. unfold count_true. destruct b; simpl; lia. Qed.

Lemma count_true_bounds (l : list bool) :
  (0 <= count_true l <= Z.of_nat (length l))%Z.
Proof.
  induction l as [|b l IH]; [unfold count_true; simpl; lia|].
  rewrite count_true_cons. simpl length. destruct b; simpl Z.b2z; lia.
Qed.

Lemma count_true_all_true (l : list bool) :
  Forall (fun b => b = true) l -> count_true l = Z.of_nat (length l).
Proof.
  induction 1 as [|b l Hb _ IH]; [reflexivity|].
  rewrite count_true_cons, IH, Hb. simpl length. simpl Z.b2z. lia.
Qed.

Lemma count_true_all_false (l : list bool) :
  Forall (fun b => b = false) l -> count_true l = 0%Z.
Proof.
  induction 1 as [|b l Hb _ IH]; [reflexivity|].
  rewrite count_true_cons, IH, Hb. reflexivity.
Qed.

(** Adding the rows one after the other adds, in every column, the
    number of true entries of that column. *)
Lemma foldl_add_rows_lookup (T : nat) (rows : list (list bool))
    (acc : list Z) (t : nat) (a : Z) :
  Forall (fun row => length row = T) rows ->
  length acc = T ->
  acc !! t = Some a ->
  foldl (fun acc r => zip_with Z.add acc (Z.b2z <$> r)) acc rows !! t
  = Some (a + count_true (np.column rows t))%Z.
Proof.
  intros Hrows. revert acc a.
  induction Hrows as [|row rows Hrow _ IH]; intros acc a Hacc Ht; simpl.
  - rewrite Ht. f_equal. unfold count_true. simpl. lia.
  - assert (Hlt : t < T) by (rewrite <- Hacc; eapply lookup_lt_Some; eauto).
    destruct (lookup_lt_is_Some_2 row t) as [b Hb]; [lia|].
    unfold np.column. simpl. rewrite Hb. fold (np.column rows t).
    rewrite count_true_cons.
    rewrite (IH (zip_with Z.add acc (Z.b2z <$> row)) (a + Z.b2z b)%Z).
    + f_equal. lia.
    + rewrite length_zip_with, length_fmap. lia.
    + rewrite lookup_zip_with, list_lookup_fmap, Ht, Hb. reflexivity.
Qed.

Lemma foldl_add_rows_length (T : nat) (rows : list (list bool)) (acc : list Z) :
  Forall (fun row => length row = T) rows ->
  length acc = T ->
  length (foldl (fun acc r => zip_with Z.add acc (Z.b2z <$> r)) acc rows) = T.
Proof.
  intros Hrows. revert acc.
  induction Hrows as [|row rows Hrow _ IH]; intros acc Hacc; simpl; [exact Hacc|].
  apply IH. rewrite length_zip_with, length_fmap. lia.
Qed.

Lemma sum_axis0_length (T : nat) (mask : list (list bool)) :
  mask <> [] -> Forall (fun row => length row = T) mask ->
  length (sum_axis0 mask) = T.
Proof.
  intros Hne Hrows. destruct mask as [|row rows]; [congruence|].
  inversion Hrows; subst. simpl.
  apply foldl_add_rows_length; [assumption|]. rewrite length_fmap. reflexivity.
Qed.

Lemma sum_axis0_lookup (T : nat) (mask : list (list bool)) (t : nat) :
  mask <> [] -> Forall (fun row => length row = T) mask -> t < T ->
  sum_axis0 mask !! t = Some (count_true (np.column mask t)).
Proof.
  intros Hne Hrows Ht. destruct mask as [|row rows]; [congruence|].
  inversion Hrows as [|? ? Hrow Hrows']; subst. simpl.
  destruct (lookup_lt_is_Some_2 row t) as [b Hb]; [lia|].
  rewrite (foldl_add_rows_lookup (length row) rows _ t (Z.b2z b)).
  - unfold np.column. simpl. rewrite Hb. fold (np.column rows t).
    rewrite count_true_cons. reflexivity.
  - assumption.
  - rewrite length_fmap. reflexivity.
  - rewrite list_lookup_fmap, Hb. reflexivity.
Qed.

Lemma column_length (T : nat) (mask : list (list bool)) (t : nat) :
  Forall (fun row => length row = T) mask -> t < T ->
  length (np.column mask t) = length mask.
Proof.
  intros Hrows Ht. unfold np.column.
  induction Hrows as [|row rows Hrow _ IH]; [reflexivity|].
  simpl. destruct (lookup_lt_is_Some_2 row t) as [b Hb]; [lia|].
  rewrite Hb. simpl. f_equal. exact IH.
Qed.

(** C6.  For an M×T boolean presence mask with M >= 1, [hbond_frequency]
    returns a vector of length T whose entry [t] is the number of true
    entries of column [t] divided by M; the entry lies in [0, 1], it is 1
    for a column that is true in every model and 0 for a column that is
    false in every model.  The function is a pure function of the mask:
    it has no state to change. *)
Theorem hbond_frequency_spec (mask : list (list bool)) (M T : nat) :
  1 <= M ->
  length mask = M ->
  Forall (fun row => length row = T) mask ->
  length (hbond_frequency mask) = T
  /\ forall t, t < T ->
       exists f,
         hbond_frequency mask !! t = Some f
         /\ (f == inject_Z (count_true (np.column mask t))
                  / inject_Z (Z.of_nat M))%Q
         /\ (0 <= f <= 1)%Q
         /\ (Forall (fun b => b = true) (np.column mask t) -> (f == 1)%Q)
         /\ (Forall (fun b => b = false) (np.column mask t) -> (f == 0)%Q).
Proof.
  intros HM Hlen Hrows.
  assert (Hne : mask <> []) by (intros ->; simpl in Hlen; lia).
  unfold hbond_frequency. split.
  { rewrite length_fmap. apply sum_axis0_length; assumption. }
  intros t Ht.
  rewrite list_lookup_fmap, (sum_axis0_lookup T) by assumption.
  simpl. eexists. split; [reflexivity|].
  rewrite Hlen.
  pose proof (count_true_bounds (np.column mask t)) as Hb.
  rewrite (column_length T) in Hb by assumption. rewrite Hlen in Hb.
  set (c := count_true (np.column mask t)) in *.
  assert (HMpos : (0 < inject_Z (Z.of_nat M))%Q).
  { change 0%Q with (inject_Z 0). rewrite <- Zlt_Qlt. lia. }
  split; [reflexivity|]. split; [split|split].
  - apply Qle_shift_div_l; [exact HMpos|].
    rewrite Qmult_0_l. change 0%Q with (inject_Z 0). rewrite <- Zle_Qle. lia.
  - apply Qle_shift_div_r; [exact HMpos|].
    rewrite Qmult_1_l. rewrite <- Zle_Qle. lia.
  - intros Hall. unfold c.
    rewrite (count_true_all_true _ Hall), (column_length T), Hlen by assumption.
    apply Qmult_inv_r. intros H0. rewrite H0 in HMpos.
    exact (Qlt_irrefl _ HMpos).
  - intros Hnone. unfold c. rewrite (count_true_all_false _ Hnone).
    unfold Qdiv. apply Qmult_0_l.
Qed.

(** A 2×3 mask: the first column is always true, the second never. *)
Lemma hbond_frequency_spec_witness :
  length (hbond_frequency [[true; false; true]; [true; false; false]]) = 3
  /\ forall t, t < 3 ->
       exists f,
         hbond_frequency [[true; false; true]; [true; false; false]] !! t
         = Some f
         /\ (f == inject_Z (count_true
                              (np.column
                                 [[true; false; true]; [true; false; false]] t))
                  / inject_Z (Z.of_nat 2))%Q
         /\ (0 <= f <= 1)%Q
         /\ (Forall (fun b => b = true)
               (np.column [[true; false; true]; [true; false; false]] t) ->
             (f == 1)%Q)
         /\ (Forall (fun b => b = false)
               (np.column [[true; false; true]; [true; false; false]] t) ->
             (f == 0)%Q).
Proof.
  apply (hbond_frequency_spec [[true; false; true]; [true; false; false]] 2 3).
  - lia.
  - reflexivity.
  - repeat constructor.
Defined.

(** ** Evaluations on concrete inputs *)

(** C1.  [hbond] on an input without any hydrogen bond is claimed to
    return an empty T×3 triplet array and an empty M×0 mask.  On two
    models of a single carbon atom, with the default arguments, the code
    returns no triplet and a 2×3 mask holding whatever [np.empty] found in
    memory; and when the donors have hydrogens but no atom is selected as
    acceptor, the code raises [ZeroDivisionError]. *)
Theorem hbond_empty_result_shape `{G : Geometry}
    (mem : nat -> nat -> nat -> bool) (p : point) :
  hbond mem (Stack (carbon_stack p)) None None "both"
    default_cutoff_dist default_cutoff_angle
    default_elements default_elements true
  = Ok (TripletsMask []
          [[mem 0 0 0; mem 0 0 1; mem 0 0 2];
           [mem 0 1 0; mem 0 1 1; mem 0 1 2]])
  /\ hbond (G := line_geometry) mem (Stack nho_stack)
       (Some [true; true; false]) (Some [false; false; false]) "donor"
       default_cutoff_dist default_cutoff_angle
       default_elements default_elements true
     = Raise ZeroDivisionError.
Proof. split; vm_compute; reflexivity. Qed.

(** C3.  Every column of the mask [hbond] returns is claimed to hold a
    true entry.  On the N-H...O ensemble, with the oxygen as selection1 of
    type 'acceptor', the code returns the triplet (0, 1, 2) with a column
    read from the array [np.empty] allocated in the search that found no
    candidate; with memory that reads as [False] the column is all false,
    although the criterion holds in the first model and the same search
    requested through type 'donor' reports it. *)
Theorem hbond_acceptor_mask_column (mem : nat -> nat -> nat -> bool) :
  hbond (G := line_geometry) mem (Stack nho_stack)
    (Some [false; false; true]) (Some [true; true; false]) "acceptor"
    default_cutoff_dist default_cutoff_angle
    default_elements default_elements true
  = Ok (TripletsMask [(0, 1, 2)] [[mem 0 0 0]; [mem 0 1 0]])
  /\ hbond (G := line_geometry) zero_memory (Stack nho_stack)
       (Some [false; false; true]) (Some [true; true; false]) "acceptor"
       default_cutoff_dist default_cutoff_angle
       default_elements default_elements true
     = Ok (TripletsMask [(0, 1, 2)] [[false]; [false]])
  /\ hbond (G := line_geometry) mem (Stack nho_stack)
       (Some [true; true; false]) (Some [false; false; true]) "donor"
       default_cutoff_dist default_cutoff_angle
       default_elements default_elements true
     = Ok (TripletsMask [(0, 1, 2)] [[true]; [false]])
  /\ is_hbond_at (G := line_geometry) (on_line 0) (on_line 1) (on_line 3)
       default_cutoff_dist default_cutoff_angle = true.
Proof. repeat split; vm_compute; reflexivity. Qed.

(** C7.  [get_category] is claimed to fill the columns of every loop
    category in wrap order.  For a loop with the single key [a] whose
    three values stand on one line, the column is allocated with as many
    entries as the category has lines (two), and storing the third value
    raises [IndexError]; the example of the specification, two keys and
    six tokens, is materialised as stated. *)
Theorem process_looped_dense_rows :
  _process_looped (Sh := plain_shlex) ["_c.a"; "1 2 3"] = Raise IndexError
  /\ get_category (Sh := plain_shlex)
       (read dense_loop_document new_PDBxFile).1 "c" None
     = Raise IndexError
  /\ _process_looped (Sh := plain_shlex) ["_c.a"; "_c.b"; "a1 b1 a2 b2 a3 b3"]
     = Ok [("a", [Str "a1"; Str "a2"; Str "a3"]);
           ("b", [Str "b1"; Str "b2"; Str "b3"])].
Proof. repeat split; vm_compute; reflexivity. Qed.

(** C9.  A category that is open when a new data block begins is claimed
    to be recorded under its block before the reset.  After reading a
    document of two data blocks with one category each, the index holds
    the category of the last block only, and [get_category] raises
    [KeyError] for the category of the first block. *)
Theorem read_loses_last_category_of_block `{Sh : Shlex} :
  read two_block_document new_PDBxFile
  = ({| _lines := ["data_A"; "_cat1.x 1"; "data_B"; "_cat2.y 2"];
        _categories :=
          [(("B", "cat2"),
            {| start := 3; stop := 4; loop := false; multiline := false |})] |},
     Ok tt)
  /\ get_category (read two_block_document new_PDBxFile).1 "cat1" (Some "A")
     = Raise KeyError
  /\ get_category (Sh := plain_shlex)
       (read two_block_document new_PDBxFile).1 "cat2" (Some "B")
     = Ok (SingleCategory [("y", "2")]).
Proof. repeat split; vm_compute; reflexivity. Qed.

(** ** Copying a file (file.py, [copy]) *)

Lemma copy_not_bound : resolve_global "copy" = Raise NameError.
Proof. vm_compute. reflexivity. Qed.

(** C10.  For every file object, [copy] raises [NameError]: the name
    [copy] is bound neither in the module nor among the built-ins.  No
    duplicate is returned, and the lines and the category index of the
    object are what they were before the call. *)
Theorem copy_raises_NameError (self : PDBxFile) :
  copy self = (self, Raise NameError)
  /\ _lines (copy self).1 = _lines self
  /\ _categories (copy self).1 = _categories self.
Proof.
  unfold copy. rewrite copy_not_bound. simpl. auto.
Qed.

(** The criterion on one model of three points of the line. *)
Lemma is_hbond_criterion_witness :
  exists row b,
    _is_hbond_stack (G := line_geometry)
      [[on_line 0]] [[on_line 1]] [[on_line 3]]
      default_cutoff_dist default_cutoff_angle !! 0 = Some row
    /\ row = _is_hbond (G := line_geometry) [on_line 0] [on_line 1] [on_line 3]
               default_cutoff_dist default_cutoff_angle
    /\ row !! 0 = Some b
    /\ (b = true <->
        hbond_criterion (G := line_geometry) (on_line 0) (on_line 1) (on_line 3)
          default_cutoff_dist default_cutoff_angle)
    /\ ((angle (Geometry := line_geometry) (on_line 0) (on_line 1) (on_line 3)
         == deg2rad (Geometry := line_geometry) default_cutoff_angle)%Q -> b = false)
    /\ ((distance (Geometry := line_geometry) (on_line 1) (on_line 3) == default_cutoff_dist)%Q ->
        b = Qgt_bool (angle (Geometry := line_geometry) (on_line 0) (on_line 1) (on_line 3))
              (deg2rad (Geometry := line_geometry) default_cutoff_angle)).
Proof.
  apply (is_hbond_criterion (G := line_geometry)
           [[on_line 0]] [[on_line 1]] [[on_line 3]]
           default_cutoff_dist default_cutoff_angle 0 0
           [on_line 0] [on_line 1] [on_line 3]
           (on_line 0) (on_line 1) (on_line 3)); reflexivity.
Defined.

(** ** Editing a category (file.py, [set_category]) *)

Section DictFacts.
Context {K V : Type} `{EqDecision K}.

Lemma PyDict_get_set_ne (d : list (K * V)) (k k' : K) (v : V) :
  k <> k' -> PyDict.get (PyDict.set d k v) k' = PyDict.get d k'.
Proof.
  intros Hne. induction d as [|[k0 v0] d IH]; simpl.
  - destruct (decide (k = k')); [contradiction|reflexivity].
  - destruct (decide (k0 = k)) as [->|Hk0]; simpl.
    + destruct (decide (k = k')); [contradiction|reflexivity].
    + destruct (decide (k0 = k')); [reflexivity|exact IH].
Qed.

Lemma PyDict_get_map_values (f : V -> V) (d : list (K * V)) (k : K) :
  PyDict.get (PyDict.map_values f d) k = f <$> PyDict.get d k.
Proof.
  induction d as [|[k0 v0] d IH]; simpl; [reflexivity|].
  destruct (decide (k0 = k)); [reflexivity|exact IH].
Qed.

Lemma PyDict_get_elem_of (d : list (K * V)) (k : K) (v : V) :
  PyDict.get d k = Some v -> (k, v) ∈ d.
Proof.
  induction d as [|[k0 v0] d IH]; simpl; [discriminate|].
  destruct (decide (k0 = k)) as [->|Hne].
  - intros [= ->]. apply list_elem_of_here.
  - intros H. apply list_elem_of_further, IH, H.
Qed.

End DictFacts.

Lemma last_stop_of_foldl_ge keep categories (acc : Z) :
  (acc <=
   foldl
     (fun last_stop (entry : (string * string) * CategoryInfo) =>
        if keep entry.1 && (last_stop <? stop entry.2)%Z
        then stop entry.2 else last_stop)
     acc categories)%Z.
Proof.
  revert acc. induction categories as [|entry categories IH]; intros acc; simpl;
    [lia|].
  etransitivity; [|apply IH].
  destruct (keep entry.1); simpl; [|lia].
  destruct (acc <? stop entry.2)%Z eqn:E; [apply Z.ltb_lt in E|]; lia.
Qed.

(** [last_stop_of] is at least the stop of every category it selects. *)
Lemma last_stop_of_ge keep categories key info :
  (key, info) ∈ categories -> keep key = true ->
  (stop info <= last_stop_of keep categories)%Z.
Proof.
  unfold last_stop_of. generalize 0%Z as acc.
  induction categories as [|entry categories IH]; intros acc Hin Hkeep.
  - inversion Hin.
  - simpl. apply elem_of_cons in Hin as [<-|Hin].
    + etransitivity; [|apply last_stop_of_foldl_ge].
      simpl. rewrite Hkeep. simpl.
      destruct (acc <? stop info)%Z eqn:E; [lia|apply Z.ltb_ge in E; lia].
    + apply IH; assumption.
Qed.

Lemma slice_index_in_range (len : nat) (i : Z) :
  (0 <= i <= Z.of_nat len)%Z -> pystr.slice_index len i = Z.to_nat i.
Proof.
  intros Hi. unfold pystr.slice_index.
  destruct (i <? 0)%Z eqn:E; [apply Z.ltb_lt in E; lia|]. lia.
Qed.

Lemma length_insert_slice {A : Type} (l new : list A) (a : Z) :
  length (pylist.insert_slice l a new) = length l + length new.
Proof.
  unfold pylist.insert_slice.
  set (n := pystr.slice_index (length l) a).
  rewrite !length_app, length_take, length_drop. lia.
Qed.

Lemma length_del_slice {A : Type} (l : list A) (a b : Z) :
  (0 <= a <= b)%Z -> (b <= Z.of_nat (length l))%Z ->
  Z.of_nat (length (pylist.del_slice l a b)) = (Z.of_nat (length l) - (b - a))%Z.
Proof.
  intros Hab Hb. unfold pylist.del_slice.
  rewrite !slice_index_in_range by lia.
  rewrite length_app, length_take, length_drop. lia.
Qed.

Section SetCategory.
Context `{Sh : Shlex}.

Lemma index_consistent_get self key info :
  index_consistent self ->
  PyDict.get (_categories self) key = Some info ->
  (0 <= start info < stop info)%Z
  /\ (stop info <= Z.of_nat (length (_lines self)))%Z.
Proof.
  intros Hwf Hget. apply PyDict_get_elem_of in Hget.
  unfold index_consistent in Hwf. rewrite Forall_forall in Hwf.
  exact (Hwf _ Hget).
Qed.

(** What the last loop of [set_category] leaves of another category. *)
Lemma get_shift_after category_start len_diff categories key (info : CategoryInfo) :
  PyDict.get categories key = Some info ->
  PyDict.get (shift_after category_start len_diff categories) key
  = Some (if (category_start <? start info)%Z then shifted len_diff info
          else info).
Proof.
  intros Hget. unfold shift_after.
  rewrite PyDict_get_map_values, Hget. reflexivity.
Qed.

(** C8.  After a call of [set_category] that replaces or inserts the
    category (block, category), every other stored category that starts
    after the line of the edit has its start and its stop moved by
    exactly the number of lines the file gained (or lost), and every other
    category that starts before that line keeps its start and its stop.
    The index is taken to be consistent with the stored lines: every
    category spans a non-empty range of them, as after [read]. *)
Theorem set_category_shifts_later_categories
    (self self' : PDBxFile) (category : string) (category_dict : CategoryDict)
    (block : option string) (quote : bool) (b : string)
    (key : string * string) (info : CategoryInfo) :
  index_consistent self ->
  default_block self block = Ok b ->
  set_category category category_dict block quote self = (self', Ok tt) ->
  key <> (b, category) ->
  PyDict.get (_categories self) key = Some info ->
  let delta :=
    (Z.of_nat (length (_lines self')) - Z.of_nat (length (_lines self)))%Z in
  ((edit_start self b category < start info)%Z ->
   PyDict.get (_categories self') key = Some (shifted delta info))
  /\ ((start info < edit_start self b category)%Z ->
      PyDict.get (_categories self') key = Some info).
Proof.
  intros Hwf Hblock Hset Hkey Hget.
  destruct (index_consistent_get _ _ _ Hwf Hget) as [Hrange Hstop].
  unfold set_category in Hset. rewrite Hblock in Hset. simpl in Hset.
  match type of Hset with
  | context [bind ?r _] => destruct r as [is_looped|e]; simpl in Hset
  end; [|discriminate].
  match type of Hset with
  | context [bind ?r _] => destruct r as [new_lines|e]; simpl in Hset
  end; [|discriminate].
  unfold edit_start.
  destruct (PyDict.get (_categories self) (b, category)) as [old|] eqn:Hold.
  - (* the category exists: its lines are replaced *)
    destruct (index_consistent_get _ _ _ Hwf Hold) as [Hold_range Hold_stop].
    injection Hset as <-. simpl.
    rewrite length_insert_slice.
    rewrite Nat2Z.inj_add, length_del_slice by lia.
    rewrite (get_shift_after _ _ _ key info)
      by (rewrite PyDict_get_set_ne by congruence; exact Hget).
    split; intros Hlt.
    + rewrite (proj2 (Z.ltb_lt _ _) Hlt). do 2 f_equal. lia.
    + rewrite (proj2 (Z.ltb_ge _ _)) by lia. reflexivity.
  - destruct (bool_decide (b ∈ get_block_names self)).
    + (* the block exists: the category is added after its last one *)
      injection Hset as <-. simpl.
      rewrite length_insert_slice.
      rewrite (get_shift_after _ _ _ key info)
        by (rewrite PyDict_get_set_ne by congruence; exact Hget).
      split; intros Hlt.
      * rewrite (proj2 (Z.ltb_lt _ _) Hlt). do 2 f_equal. lia.
      * rewrite (proj2 (Z.ltb_ge _ _)) by lia. reflexivity.
    + (* a new block at the end of the file: no category lies after it *)
      injection Hset as <-. simpl.
      rewrite (get_shift_after _ _ _ key info)
        by (rewrite PyDict_get_set_ne by congruence; exact Hget).
      pose proof (last_stop_of_ge (fun _ => true) _ key info
                    (PyDict_get_elem_of _ _ _ Hget) eq_refl) as Hlast.
      split; intros Hlt; [lia|].
      rewrite (proj2 (Z.ltb_ge _ _)) by lia. reflexivity.
Qed.

End SetCategory.

Lemma three_category_file_consistent : index_consistent three_category_file.
Proof. unfold index_consistent. vm_compute. repeat constructor; discriminate. Qed.

(** Inserting a category into block A of the parsed document moves the
    category of block B by the three lines written. *)
Lemma set_category_shifts_later_categories_witness :
  let self' :=
    (set_category (Sh := plain_shlex) "new"
       (SingleDict [("k", "v"); ("long", "w")]) (Some "A") true
       three_category_file).1 in
  let info :=
    {| start := 9; stop := 11; loop := false; multiline := false |} in
  let delta :=
    (Z.of_nat (length (_lines self'))
     - Z.of_nat (length (_lines three_category_file)))%Z in
  ((edit_start three_category_file "A" "new" < start info)%Z ->
   PyDict.get (_categories self') ("B", "cat3") = Some (shifted delta info))
  /\ ((start info < edit_start three_category_file "A" "new")%Z ->
      PyDict.get (_categories self') ("B", "cat3") = Some info).
Proof.
  apply (set_category_shifts_later_categories (Sh := plain_shlex)
           three_category_file _ "new"
           (SingleDict [("k", "v"); ("long", "w")]) (Some "A") true "A"
           ("B", "cat3")
           {| start := 9; stop := 11; loop := false; multiline := false |}).
  - exact three_category_file_consistent.
  - reflexivity.
  - vm_compute. reflexivity.
  - discriminate.
  - vm_compute. reflexivity.
Defined.

(** ** Pruning of the candidates (hbond.py, [_hbond]) *)

Lemma where_from_ge (i : nat) (mask : list bool) (t c : nat) :
  np.where_from i mask !! t = Some c -> i <= c.
Proof.
  revert i t. induction mask as [|b mask IH]; intros i t H; simpl in H;
    [discriminate|].
  destruct b.
  - destruct t as [|t]; simpl in H.
    + injection H as <-. lia.
    + apply IH in H. lia.
  - apply IH in H. lia.
Qed.

(** [xs[mask]] holds, in order, the entries at the indices of
    [np.where(mask)]. *)
Lemma take_mask_lookup_from {A : Type} (xs : list A) (mask : list bool)
    (i t : nat) :
  length xs = length mask ->
  np.take_mask xs mask !! t
  = (c ← np.where_from i mask !! t; xs !! (c - i)).
Proof.
  revert xs i t. induction mask as [|b mask IH]; intros xs i t Hlen;
    destruct xs as [|x xs]; simpl in Hlen; try discriminate; simpl;
    [reflexivity|].
  injection Hlen as Hlen.
  destruct b.
  - destruct t as [|t]; simpl.
    + rewrite Nat.sub_diag. reflexivity.
    + rewrite (IH xs (S i) t Hlen).
      destruct (np.where_from (S i) mask !! t) as [c|] eqn:Hc; simpl;
        [|reflexivity].
      apply where_from_ge in Hc.
      replace (c - i) with (S (c - S i)) by lia. reflexivity.
  - rewrite (IH xs (S i) t Hlen).
    destruct (np.where_from (S i) mask !! t) as [c|] eqn:Hc; simpl;
      [|reflexivity].
    apply where_from_ge in Hc.
    replace (c - i) with (S (c - S i)) by lia. reflexivity.
Qed.

Lemma take_mask_lookup {A : Type} (xs : list A) (mask : list bool) (t : nat) :
  length xs = length mask ->
  np.take_mask xs mask !! t = (c ← np.where_ mask !! t; xs !! c).
Proof.
  intros Hlen. rewrite (take_mask_lookup_from xs mask 0 t Hlen).
  unfold np.where_.
  destruct (np.where_from 0 mask !! t) as [c|]; simpl; [|reflexivity].
  rewrite Nat.sub_0_r. reflexivity.
Qed.

(** The indices of [np.where(mask)] are those of the true entries. *)
Lemma where_from_lookup_true (i : nat) (mask : list bool) (t c : nat) :
  np.where_from i mask !! t = Some c -> mask !! (c - i) = Some true.
Proof.
  revert i t. induction mask as [|b mask IH]; intros i t H; simpl in H;
    [discriminate|].
  destruct b.
  - destruct t as [|t]; simpl in H.
    + injection H as <-. rewrite Nat.sub_diag. reflexivity.
    + pose proof (where_from_ge _ _ _ _ H) as Hge. apply IH in H.
      replace (c - i) with (S (c - S i)) by lia. exact H.
  - pose proof (where_from_ge _ _ _ _ H) as Hge. apply IH in H.
    replace (c - i) with (S (c - S i)) by lia. exact H.
Qed.

Lemma take_mask_length {A : Type} (xs : list A) (mask : list bool) (i : nat) :
  length xs = length mask ->
  length (np.take_mask xs mask) = length (np.where_from i mask).
Proof.
  revert xs i. induction mask as [|b mask IH]; intros xs i Hlen;
    destruct xs as [|x xs]; simpl in Hlen; try discriminate; simpl;
    [reflexivity|].
  injection Hlen as Hlen. destruct b; simpl; rewrite (IH xs (S i) Hlen);
    reflexivity.
Qed.

Lemma take_mask_length_le {A : Type} (xs : list A) (mask : list bool) (t : nat) :
  length xs = length mask ->
  t < length (np.take_mask xs mask) ->
  exists c, np.where_ mask !! t = Some c /\ mask !! c = Some true.
Proof.
  intros Hlen Ht.
  destruct (lookup_lt_is_Some_2 _ _ Ht) as [x Hx].
  rewrite take_mask_lookup in Hx by exact Hlen.
  destruct (np.where_ mask !! t) as [c|] eqn:Hc; simpl in Hx; [|discriminate].
  exists c. split; [reflexivity|].
  unfold np.where_ in Hc. apply where_from_lookup_true in Hc.
  rewrite Nat.sub_0_r in Hc. exact Hc.
Qed.

(** A true entry of [m.any(axis=0)] comes from a row that is true there. *)
Lemma any_axis0_lookup_true (ncols : nat) (m : list (list bool)) (c : nat) :
  np.any_axis0 ncols m !! c = Some true ->
  exists i row, m !! i = Some row /\ row !! c = Some true.
Proof.
  unfold np.any_axis0. rewrite list_lookup_fmap.
  destruct (seq 0 ncols !! c) as [c'|] eqn:Hc; simpl; [|discriminate].
  apply lookup_seq in Hc as [-> _]. simpl.
  intros [= Hex]. apply existsb_exists in Hex as (row & Hin & Hrow).
  apply list_elem_of_In, list_elem_of_lookup in Hin as [i Hi].
  exists i, row. split; [exact Hi|].
  destruct (row !! c) as [b|]; simpl in Hrow; congruence.
Qed.

Section Pruning.
Context `{G : Geometry}.

Lemma _is_hbond_length donor donor_h acceptor cutoff_dist cutoff_angle n :
  length donor = n -> length donor_h = n -> length acceptor = n ->
  length (_is_hbond donor donor_h acceptor cutoff_dist cutoff_angle) = n.
Proof.
  intros Hd Hh Ha. unfold _is_hbond, angle_array, distance_array.
  rewrite length_zip_with, !length_fmap, !length_zip_with. lia.
Qed.

(** The batched evaluation returns one row per model and one entry per
    candidate triplet. *)
Lemma hbond_mask_vectorized_shape atoms triplets cutoff_dist cutoff_angle mask :
  hbond_mask_vectorized atoms triplets cutoff_dist cutoff_angle = Ok mask ->
  length mask = stack_depth atoms
  /\ Forall (fun row => length row = length triplets) mask.
Proof.
  unfold hbond_mask_vectorized, stack_take.
  destruct (forallb _ (D_index <$> triplets)); simpl; [|discriminate].
  destruct (forallb _ (H_index <$> triplets)); simpl; [|discriminate].
  destruct (forallb _ (A_index <$> triplets)); simpl; [|discriminate].
  intros [= <-]. split.
  - unfold _is_hbond_stack, angle_stack, distance_stack.
    rewrite length_zip_with, !length_fmap, !length_zip_with, !length_fmap,
      length_seq. lia.
  - apply Forall_forall. intros row Hrow.
    apply list_elem_of_lookup in Hrow as [m Hm].
    rewrite _is_hbond_stack_lookup, !list_lookup_fmap in Hm.
    destruct (seq 0 (stack_depth atoms) !! m) as [frame|]; simpl in Hm;
      [|discriminate].
    injection Hm as <-.
    apply _is_hbond_length; rewrite !length_fmap; reflexivity.
Qed.

(** Every triplet a directional search returns is counted at least
    once: when the search returns triplets, the mask has one row per model
    and one column per returned triplet, and every column has a true
    entry. *)
Lemma _hbond_columns_counted mem atoms donor_selection acceptor_selection
    cutoff_dist cutoff_angle donor_elements acceptor_elements vectorized
    triplets mask :
  _hbond mem atoms donor_selection acceptor_selection cutoff_dist cutoff_angle
    donor_elements acceptor_elements vectorized = Ok (triplets, mask) ->
  triplets <> [] ->
  length mask = stack_depth atoms
  /\ Forall (fun row => length row = length triplets) mask
  /\ forall t, t < length triplets ->
       exists m row, mask !! m = Some row /\ row !! t = Some true.
Proof.
  intros Hrun Hne.
  assert (Hv : _hbond mem atoms donor_selection acceptor_selection cutoff_dist
                 cutoff_angle donor_elements acceptor_elements true
               = Ok (triplets, mask)).
  { destruct vectorized; [exact Hrun|].
    rewrite _hbond_vectorized_irrelevant. exact Hrun. }
  clear Hrun. unfold _hbond in Hv.
  destruct (np.and_ donor_selection _) as [ds|e]; simpl in Hv; [|discriminate].
  destruct (np.and_ acceptor_selection _) as [acs|e]; simpl in Hv; [|discriminate].
  destruct (stack_getitem atoms 0) as [atoms0|e]; simpl in Hv; [|discriminate].
  destruct (_get_bonded_hydrogen atoms0 ds) as [hs|e]; simpl in Hv; [|discriminate].
  destruct (_get_triplets _ hs _) as [cand|e]; simpl in Hv; [|discriminate].
  destruct (length cand =? 0) eqn:Hcand.
  { injection Hv as <- _. apply Nat.eqb_eq in Hcand.
    destruct cand; [contradiction|discriminate]. }
  destruct (hbond_mask_vectorized atoms cand cutoff_dist cutoff_angle)
    as [hbond_mask|e] eqn:Hmask; simpl in Hv; [|discriminate].
  destruct (hbond_mask_vectorized_shape _ _ _ _ _ Hmask) as [Hrows Hcols].
  injection Hv as <- <-.
  set (is_counted := np.any_axis0 (length cand) hbond_mask).
  assert (Hlen : length cand = length is_counted).
  { unfold is_counted, np.any_axis0. rewrite length_fmap, length_seq.
    reflexivity. }
  split; [|split].
  - unfold np.take_columns_mask. rewrite length_fmap. exact Hrows.
  - unfold np.take_columns_mask. apply Forall_fmap.
    eapply Forall_impl; [exact Hcols|]. intros row Hrow. simpl in *.
    rewrite (take_mask_length row is_counted 0) by congruence.
    rewrite (take_mask_length cand is_counted 0) by exact Hlen.
    reflexivity.
  - intros t Ht.
    destruct (take_mask_length_le cand is_counted t Hlen Ht) as (c & Hc & Htrue).
    destruct (any_axis0_lookup_true _ _ _ Htrue) as (m & row & Hm & Hrow).
    exists m, (np.take_mask row is_counted). split.
    + unfold np.take_columns_mask. rewrite list_lookup_fmap, Hm. reflexivity.
    + rewrite Forall_forall in Hcols.
      rewrite take_mask_lookup
        by (rewrite (Hcols row); [exact Hlen|eapply list_elem_of_lookup_2; eauto]).
      rewrite Hc. exact Hrow.
Qed.

End Pruning.

(** ** Materialising a loop category (file.py, [_process_looped]) *)

Section DictOfKeys.
Context {V : Type}.

Lemma PyDict_get_imap (g : nat -> V) (ks : list string) (j : nat) (key : string) :
  NoDup ks -> ks !! j = Some key ->
  PyDict.get (imap (fun j k => (k, g j)) ks) key = Some (g j).
Proof.
  intros Hnd. revert g j. induction Hnd as [|k ks Hk Hnd IH]; intros g j Hj;
    [discriminate|].
  simpl. destruct j as [|j]; simpl in Hj.
  - injection Hj as ->. destruct (decide (key = key)); [reflexivity|contradiction].
  - destruct (decide (k = key)) as [->|Hne].
    + exfalso. apply Hk. eapply list_elem_of_lookup_2. exact Hj.
    + apply (IH (fun j => g (S j)) j Hj).
Qed.

Lemma PyDict_set_imap (g : nat -> V) (ks : list string) (j : nat)
    (key : string) (v : V) :
  NoDup ks -> ks !! j = Some key ->
  PyDict.set (imap (fun j k => (k, g j)) ks) key v
  = imap (fun j' k => (k, if decide (j' = j) then v else g j')) ks.
Proof.
  intros Hnd. revert g j. induction Hnd as [|k ks Hk Hnd IH]; intros g j Hj;
    [discriminate|].
  simpl. destruct j as [|j]; simpl in Hj.
  - injection Hj as ->. destruct (decide (key = key)); [|contradiction].
    reflexivity.
  - destruct (decide (k = key)) as [->|Hne].
    + exfalso. apply Hk. eapply list_elem_of_lookup_2. exact Hj.
    + f_equal. etransitivity; [exact (IH (fun j => g (S j)) j Hj)|].
      apply imap_ext. intros i x _. simpl.
      destruct (decide (i = j)), (decide (S i = S j)); try reflexivity; lia.
Qed.

Lemma PyDict_set_fresh (d : list (string * V)) (key : string) (v : V) :
  key ∉ PyDict.keys d -> PyDict.set d key v = d ++ [(key, v)].
Proof.
  induction d as [|[k v0] d IH]; intros Hfresh; simpl; [reflexivity|].
  unfold PyDict.keys in Hfresh. simpl in Hfresh.
  apply not_elem_of_cons in Hfresh as [Hne Hfresh].
  destruct (decide (k = key)); [congruence|].
  f_equal. apply IH. exact Hfresh.
Qed.

End DictOfKeys.

(** The two counters after one more token. *)
Lemma wrap_counters (K n : nat) :
  0 < K ->
  (if n mod K + 1 =? K then ((n + 1) / K = n / K + 1 /\ (n + 1) mod K = 0)
   else ((n + 1) / K = n / K /\ (n + 1) mod K = n mod K + 1)).
Proof.
  intros HK.
  pose proof (Nat.div_mod_eq n K) as Hn.
  pose proof (Nat.mod_upper_bound n K ltac:(lia)) as Hlt.
  destruct (n mod K + 1 =? K) eqn:E.
  - apply Nat.eqb_eq in E.
    assert (Hq : (n + 1) / K = n / K + 1).
    { symmetry. apply (Nat.div_unique (n + 1) K (n / K + 1) 0); lia. }
    split; [exact Hq|].
    symmetry. apply (Nat.mod_unique (n + 1) K (n / K + 1) 0); lia.
  - apply Nat.eqb_neq in E.
    split.
    + symmetry. apply (Nat.div_unique (n + 1) K (n / K) (n mod K + 1)); lia.
    + symmetry. apply (Nat.mod_unique (n + 1) K (n / K) (n mod K + 1)); lia.
Qed.

(** A position [r * K + j] with [j < K] is [n] only for the row and the
    column of [n]. *)
Lemma wrap_position (K n r j : nat) :
  j < K -> r * K + j = n <-> r = n / K /\ j = n mod K.
Proof.
  intros Hj. split.
  - intros <-. split.
    + apply (Nat.div_unique (r * K + j) K r j); lia.
    + apply (Nat.mod_unique (r * K + j) K r j); lia.
  - intros [-> ->]. pose proof (Nat.div_mod_eq n K). lia.
Qed.

Lemma omap_ext_elem {A B : Type} (f g : A -> option B) (l : list A) :
  (forall x, x ∈ l -> f x = g x) -> omap f l = omap g l.
Proof.
  induction l as [|x l IH]; intros Hfg; simpl; [reflexivity|].
  rewrite (Hfg x) by apply list_elem_of_here.
  destruct (g x); simpl; [f_equal|];
    apply IH; intros y Hy; apply Hfg, list_elem_of_further, Hy.
Qed.

Section WrapOrder.
Context `{Sh : Shlex}.

(** The dictionary after the key lines: every column full of zeros. *)
Lemma process_key_lines (L : nat) (key_lines ks ks0 : list string) :
  Forall2 is_key_line key_lines ks ->
  NoDup (ks0 ++ ks) ->
  foldl (fun acc line => let* s := acc in process_line L s line)
    (Ok {| category_dict := (fun k => (k, replicate L Zero)) <$> ks0;
           keys := ks0; row := 0; col := 0 |})
    key_lines
  = Ok {| category_dict := (fun k => (k, replicate L Zero)) <$> (ks0 ++ ks);
          keys := ks0 ++ ks; row := 0; col := 0 |}.
Proof.
  intros Hkeys. revert ks0.
  induction Hkeys as [|line key key_lines ks [Hfirst Hkey] _ IH];
    intros ks0 Hnd; simpl.
  - rewrite app_nil_r. reflexivity.
  - unfold process_line at 2. rewrite Hfirst. simpl. rewrite Hkey. simpl.
    rewrite PyDict_set_fresh.
    + replace (ks0 ++ key :: ks) with ((ks0 ++ [key]) ++ ks)
        by (rewrite <- app_assoc; reflexivity).
      rewrite <- (IH (ks0 ++ [key]))
        by (rewrite <- app_assoc; exact Hnd).
      rewrite fmap_app. reflexivity.
    + unfold PyDict.keys. rewrite <- list_fmap_compose. simpl.
      rewrite list_fmap_id.
      apply NoDup_app in Hnd as (_ & Hdisj & _).
      intros Hin. apply (Hdisj key Hin). apply list_elem_of_here.
Qed.

(** The loop over the value lines stores their tokens one after the
    other. *)
Lemma process_value_lines (L : nat) (value_lines : list string)
    (toks : list (list string)) (acc : result LoopState) :
  Forall2 is_value_line value_lines toks ->
  foldl (fun acc line => let* s := acc in process_line L s line) acc value_lines
  = foldl (fun acc value => let* s := acc in store_value s value) acc
      (concat toks).
Proof.
  intros Hvalues. revert acc.
  induction Hvalues as [|line values value_lines toks [[c [Hfirst Hc]] Hsplit] _ IH];
    intros acc; simpl; [reflexivity|].
  rewrite foldl_app, IH. f_equal.
  destruct acc as [s|e]; simpl.
  - unfold process_line. rewrite Hfirst. simpl.
    rewrite bool_decide_eq_false_2 by exact Hc. rewrite Hsplit. reflexivity.
  - symmetry. apply foldl_bind_Raise.
Qed.

(** Storing token [n] leads from the state after [n] tokens to the state
    after [n + 1] tokens, provided its row is allocated. *)
Lemma store_value_step (L : nat) (ks tokens : list string) (n : nat)
    (value : string) :
  NoDup ks -> ks <> [] ->
  tokens !! n = Some value ->
  n / length ks < L ->
  store_value (loop_state_after L ks tokens n) value
  = Ok (loop_state_after L ks tokens (n + 1)).
Proof.
  intros Hnd Hne Hvalue Hfit.
  assert (HK : 0 < length ks) by (destruct ks; [contradiction|simpl; lia]).
  pose proof (Nat.mod_upper_bound n (length ks) ltac:(lia)) as Hcol.
  destruct (lookup_lt_is_Some_2 ks _ Hcol) as [key Hkey].
  unfold store_value, loop_state_after. simpl.
  unfold getitem. rewrite Hkey. simpl.
  rewrite (PyDict_get_imap
             (fun j => cell_after (length ks) tokens n j <$> seq 0 L)
             ks (n mod length ks) key Hnd Hkey).
  simpl. rewrite length_fmap, length_seq.
  rewrite (proj2 (Nat.ltb_lt _ _) Hfit). simpl.
  rewrite (PyDict_set_imap
             (fun j => cell_after (length ks) tokens n j <$> seq 0 L)
             ks (n mod length ks) key _ Hnd Hkey).
  assert (Hdict :
            imap
              (fun j' k =>
                 (k,
                  if decide (j' = n mod length ks)
                  then <[n / length ks := Str value]>
                         (cell_after (length ks) tokens n (n mod length ks)
                            <$> seq 0 L)
                  else cell_after (length ks) tokens n j' <$> seq 0 L))
              ks
            = imap
                (fun j k =>
                   (k, cell_after (length ks) tokens (n + 1) j <$> seq 0 L))
                ks).
  { apply imap_ext. intros j k Hj. simpl. f_equal.
    apply lookup_lt_Some in Hj.
    apply list_eq. intros r.
    destruct (decide (r < L)) as [Hr|Hr].
    2:{ rewrite !(lookup_ge_None_2 _ r); [reflexivity| |].
        - rewrite length_fmap, length_seq. lia.
        - destruct (decide (j = n mod length ks));
            rewrite ?length_insert, length_fmap, length_seq; lia. }
    assert (Hseq : seq 0 L !! r = Some r)
      by (apply lookup_seq; split; [reflexivity|exact Hr]).
    rewrite (list_lookup_fmap _ (seq 0 L)), Hseq. simpl.
    pose proof (wrap_position (length ks) n r j Hj) as Hpos.
    destruct (decide (j = n mod length ks)) as [->|Hj'].
    - destruct (decide (r = n / length ks)) as [->|Hr'].
      + rewrite list_lookup_insert_eq by (rewrite length_fmap, length_seq; lia).
        unfold cell_after.
        rewrite (proj2 Hpos) by auto.
        rewrite (proj2 (Nat.ltb_lt _ _)) by lia. rewrite Hvalue. reflexivity.
      + rewrite list_lookup_insert_ne by congruence.
        rewrite list_lookup_fmap, Hseq. simpl. unfold cell_after.
        destruct (r * length ks + n mod length ks <? n) eqn:E1.
        * apply Nat.ltb_lt in E1.
          rewrite (proj2 (Nat.ltb_lt _ _)) by lia. reflexivity.
        * apply Nat.ltb_ge in E1.
          rewrite (proj2 (Nat.ltb_ge _ _)); [reflexivity|].
          assert (r * length ks + n mod length ks <> n)
            by (intros H; apply Hpos in H as [? _]; contradiction).
          lia.
    - rewrite list_lookup_fmap, Hseq. simpl. unfold cell_after.
      destruct (r * length ks + j <? n) eqn:E1.
      + apply Nat.ltb_lt in E1.
        rewrite (proj2 (Nat.ltb_lt _ _)) by lia. reflexivity.
      + apply Nat.ltb_ge in E1.
        rewrite (proj2 (Nat.ltb_ge _ _)); [reflexivity|].
        assert (r * length ks + j <> n)
          by (intros H; apply Hpos in H as [_ ?]; contradiction).
        lia. }
  rewrite Hdict.
  pose proof (wrap_counters (length ks) n HK) as Hcount.
  destruct (n mod length ks + 1 =? length ks); destruct Hcount as [-> ->];
    reflexivity.
Qed.

(** Storing all the tokens that are left. *)
Lemma store_values_from (L : nat) (ks tokens : list string) (rest : list string)
    (n : nat) :
  NoDup ks -> ks <> [] ->
  drop n tokens = rest ->
  (forall i, i < length tokens -> i / length ks < L) ->
  foldl (fun acc value => let* s := acc in store_value s value)
    (Ok (loop_state_after L ks tokens n)) rest
  = Ok (loop_state_after L ks tokens (n + length rest)).
Proof.
  intros Hnd Hne. revert n.
  induction rest as [|value rest IH]; intros n Hdrop Hfit; simpl.
  - rewrite Nat.add_0_r. reflexivity.
  - assert (Hvalue : tokens !! n = Some value).
    { rewrite <- (Nat.add_0_r n), <- lookup_drop, Hdrop. reflexivity. }
    rewrite (store_value_step L ks tokens n value Hnd Hne Hvalue)
      by (apply Hfit; eapply lookup_lt_Some; exact Hvalue).
    rewrite (IH (n + 1)).
    + f_equal. f_equal. lia.
    + rewrite <- drop_drop, Hdrop. reflexivity.
    + exact Hfit.
Qed.

(** Trimmed to the complete rows, the columns are the table of the
    specification. *)
Lemma trimmed_columns (L : nat) (ks tokens : list string) :
  ks <> [] ->
  (forall i, i < length tokens -> i / length ks < L) ->
  PyDict.map_values (take (length tokens / length ks))
    (category_dict (loop_state_after L ks tokens (length tokens)))
  = wrap_columns ks tokens.
Proof.
  intros Hne Hfit.
  assert (HK : 0 < length ks) by (destruct ks; [contradiction|simpl; lia]).
  set (K := length ks) in *. set (N := length tokens) in *.
  pose proof (Nat.div_mod_eq N K) as HN.
  pose proof (Nat.mod_upper_bound N K ltac:(lia)) as HNmod.
  assert (HR : N / K <= L).
  { destruct (decide (N / K = 0)) as [->|HR0]; [lia|].
    assert (Hlast : (N / K * K - 1) / K < L) by (apply Hfit; nia).
    assert ((N / K * K - 1) / K = N / K - 1); [|lia].
    symmetry. apply (Nat.div_unique _ K (N / K - 1) (K - 1)); nia. }
  unfold PyDict.map_values, wrap_columns, loop_state_after. simpl.
  rewrite fmap_imap. apply imap_ext. intros j key Hj. simpl. f_equal.
  apply lookup_lt_Some in Hj. fold K in Hj. fold K N.
  rewrite <- fmap_take, take_seq, Nat.min_l by exact HR.
  rewrite list_fmap_alt. apply omap_ext_elem.
  intros r Hr. apply list_elem_of_lookup in Hr as [i Hi].
  apply lookup_seq in Hi as [-> Hi]. simpl.
  unfold cell_after.
  assert (Hpos : i * K + j < N) by nia.
  rewrite (proj2 (Nat.ltb_lt _ _) Hpos).
  destruct (lookup_lt_is_Some_2 tokens _ Hpos) as [v ->]. reflexivity.
Qed.

(** For a loop category whose lines are K >= 1 key lines with distinct
    keys followed by value lines, and whose rows fit the columns
    [_process_looped] allocates (one entry per line of the category),
    [_process_looped] returns the table of the specification: token [n]
    is the value of key [n mod K] in row [n / K], every column has as many
    entries as there are complete rows. *)
Theorem _process_looped_wrap_order (key_lines value_lines ks : list string)
    (toks : list (list string)) :
  Forall2 is_key_line key_lines ks ->
  Forall2 is_value_line value_lines toks ->
  NoDup ks -> ks <> [] ->
  (forall i, i < length (concat toks) ->
             i / length ks < length (key_lines ++ value_lines)) ->
  _process_looped (key_lines ++ value_lines) = Ok (wrap_columns ks (concat toks)).
Proof.
  intros Hkeys Hvalues Hnd Hne Hfit.
  assert (HK : length ks <> 0) by (destruct ks; [contradiction|discriminate]).
  unfold _process_looped.
  set (L := length (key_lines ++ value_lines)) in *.
  rewrite foldl_app.
  pose proof (process_key_lines L key_lines ks [] Hkeys Hnd) as Hphase.
  simpl in Hphase. rewrite Hphase. clear Hphase. simpl.
  rewrite (process_value_lines L value_lines toks _ Hvalues).
  assert (Hstart :
            {| category_dict := (fun k => (k, replicate L Zero)) <$> ks;
               keys := ks; row := 0; col := 0 |}
            = loop_state_after L ks (concat toks) 0).
  { unfold loop_state_after.
    rewrite Nat.Div0.div_0_l, Nat.Div0.mod_0_l. f_equal.
    rewrite <- imap_const. apply imap_ext. intros j k _. simpl. f_equal.
    unfold cell_after. simpl.
    clear. induction L as [|L IH]; [reflexivity|].
    rewrite seq_S, fmap_app, <- IH. simpl.
    rewrite replicate_cons_app. reflexivity. }
  rewrite Hstart.
  rewrite (store_values_from L ks (concat toks) (concat toks) 0 Hnd Hne
             eq_refl Hfit).
  simpl. f_equal. apply trimmed_columns; assumption.
Qed.

End WrapOrder.

(** The example of the specification: two keys, six tokens on three
    lines. *)
Lemma _process_looped_wrap_order_witness :
  _process_looped (Sh := plain_shlex)
    (["_c.a"; "_c.b"] ++ ["a1 b1"; "a2 b2"; "a3 b3"])
  = Ok (wrap_columns ["a"; "b"]
          (concat [["a1"; "b1"]; ["a2"; "b2"]; ["a3"; "b3"]])).
Proof.
  apply (_process_looped_wrap_order (Sh := plain_shlex)).
  - repeat constructor.
  - repeat constructor; try (eexists; split; [reflexivity|discriminate]).
  - apply (bool_decide_unpack (NoDup ["a"; "b"])). vm_compute. exact I.
  - discriminate.
  - intros i Hi. change (i < 6) in Hi. change (i / 2 < 5).
    apply Nat.Div0.div_lt_upper_bound. lia.
Defined.

(** ** Further facts on concrete inputs *)

(** The search of the N-H...O ensemble returns one triplet, counted in
    the first model. *)
Lemma _hbond_columns_counted_witness :
  length [[true]; [false]] = stack_depth nho_stack
  /\ Forall (fun row => length row = length [(0, 1, 2)]) [[true]; [false]]
  /\ forall t, t < length [(0, 1, 2)] ->
       exists m row, [[true]; [false]] !! m = Some row /\ row !! t = Some true.
Proof.
  apply (_hbond_columns_counted (G := line_geometry) (zero_memory 0) nho_stack
           [true; true; true] [true; true; true]
           default_cutoff_dist default_cutoff_angle
           default_elements default_elements true
           [(0, 1, 2)] [[true]; [false]]).
  - vm_compute. reflexivity.
  - discriminate.
Defined.

(** A selection type other than 'both', 'acceptor' and 'donor' is
    refused with [ValueError]. *)
Lemma hbond_unknown_selection_type `{G : Geometry}
    (mem : nat -> nat -> nat -> bool) (atoms : Structure)
    (selection1 selection2 : option (list bool)) (selection1_type : string)
    (cutoff_dist cutoff_angle : Q)
    (donor_elements acceptor_elements : list string) (vectorized : bool) :
  selection1_type ∉ ["both"; "acceptor"; "donor"] ->
  hbond mem atoms selection1 selection2 selection1_type
    cutoff_dist cutoff_angle donor_elements acceptor_elements vectorized
  = Raise ValueError.
Proof.
  intros Hty. unfold hbond.
  destruct (String.eqb_spec selection1_type "both") as [->|_];
    [exfalso; apply Hty; repeat constructor|].
  destruct (String.eqb_spec selection1_type "acceptor") as [->|_];
    [exfalso; apply Hty; repeat constructor|].
  destruct (String.eqb_spec selection1_type "donor") as [->|_];
    [exfalso; apply Hty; repeat constructor|].
  destruct atoms; reflexivity.
Qed.

Lemma hbond_unknown_selection_type_witness :
  hbond (G := line_geometry) zero_memory (Stack nho_stack) None None "hydrogen"
    default_cutoff_dist default_cutoff_angle
    default_elements default_elements true
  = Raise ValueError.
Proof.
  apply (hbond_unknown_selection_type (G := line_geometry)).
  apply (bool_decide_unpack ("hydrogen" ∉ ["both"; "acceptor"; "donor"])).
  vm_compute. exact I.
Defined.

(** ** The index [read] builds (file.py, [read]) *)

Lemma Forall_PyDict_set {K V : Type} `{EqDecision K} (P : K * V -> Prop)
    (d : list (K * V)) (k : K) (v : V) :
  Forall P d -> P (k, v) -> Forall P (PyDict.set d k v).
Proof.
  intros Hd Hkv. induction Hd as [|[k0 v0] d H0 Hd IH]; simpl.
  - constructor; [exact Hkv|constructor].
  - destruct (decide (k0 = k)); constructor; assumption.
Qed.

Lemma read_invariant_mono (i j : Z) (s : ReadState) :
  (i <= j)%Z -> read_invariant i s -> read_invariant j s.
Proof.
  intros Hij [Hcats Hopen]. split.
  - eapply Forall_impl; [exact Hcats|]. simpl. intros entry [? ?]. lia.
  - intros Hc. specialize (Hopen Hc). lia.
Qed.

(** Closing the open category at line [i] keeps the recorded ranges
    well formed. *)
Lemma read_invariant_add (i : Z) (s : ReadState) (block : string) :
  read_invariant i s ->
  Forall
    (fun entry : (string * string) * CategoryInfo =>
       (0 <= start entry.2 < stop entry.2)%Z /\ (stop entry.2 <= i)%Z)
    (_add_category (rs_categories s) block (current_category s)
       (rs_start s) i (is_loop s) (has_multiline_values s)).
Proof.
  intros [Hcats Hopen]. unfold _add_category.
  destruct (current_category s) as [name|]; [|exact Hcats].
  apply Forall_PyDict_set; [exact Hcats|]. simpl.
  specialize (Hopen ltac:(discriminate)). lia.
Qed.

Lemma read_line_invariant (lines : list string) (i : nat) (line : string)
    (s : ReadState) :
  read_invariant (Z.of_nat i) s ->
  read_invariant (Z.of_nat (S i)) (read_line lines i line s).1.
Proof.
  intros Hinv.
  assert (Hmono : forall s', read_invariant (Z.of_nat i) s' ->
                             read_invariant (Z.of_nat (S i)) s')
    by (intros s'; apply read_invariant_mono; lia).
  unfold read_line.
  destruct (_is_empty line); [apply Hmono, Hinv|].
  set (s1 := match _data_block_name line with
             | Some _ => _
             | None => s
             end).
  assert (Hs1 : read_invariant (Z.of_nat i) s1).
  { unfold s1. destruct (_data_block_name line); [|exact Hinv].
    destruct Hinv as [Hcats _]. split; [exact Hcats|].
    simpl. intros Hc. contradiction. }
  clearbody s1. clear Hinv s.
  destruct (_get_category_name line) as [category_in_line|e];
    [|apply Hmono, Hs1].
  assert (Hflag : forall s', read_invariant (Z.of_nat (S i)) s' ->
            read_invariant (Z.of_nat (S i))
              (match _is_multi line (is_loop s') with
               | Ok multiline =>
                   if multiline
                   then ({| rs_categories := rs_categories s';
                            data_block := data_block s';
                            current_category := current_category s';
                            rs_start := rs_start s'; rs_stop := rs_stop s';
                            is_loop := is_loop s';
                            has_multiline_values := true |}, Ok tt)
                   else (s', Ok tt)
               | Raise e => (s', Raise e)
               end).1).
  { intros s' Hs'. destruct (_is_multi line (is_loop s')) as [[|]|e];
      simpl; exact Hs'. }
  destruct (_ || _).
  2:{ apply Hflag, Hmono, Hs1. }
  destruct (read_local (data_block s1)) as [block|e]; [|apply Hmono, Hs1].
  pose proof (read_invariant_add _ _ block Hs1) as Hadd.
  match goal with
  | |- context [match ?r with Ok _ => _ | Raise _ => _ end] =>
      destruct r as [next|e]
  end.
  - apply Hflag. split; simpl.
    + eapply Forall_impl; [exact Hadd|]. simpl. intros entry [? ?]. lia.
    + intros _. lia.
  - simpl. split; simpl.
    + eapply Forall_impl; [exact Hadd|]. simpl. intros entry [? ?]. lia.
    + intros Hc. destruct Hs1 as [_ Hopen]. specialize (Hopen Hc). lia.
Qed.

Lemma read_loop_invariant (lines rest : list string) (i : nat) (s : ReadState) :
  read_invariant (Z.of_nat i) s ->
  read_invariant (Z.of_nat (i + length rest)) (read_loop lines i rest s).1.
Proof.
  revert i s. induction rest as [|line rest IH]; intros i s Hinv; simpl.
  - rewrite Nat.add_0_r. exact Hinv.
  - pose proof (read_line_invariant lines i line s Hinv) as Hline.
    destruct (read_line lines i line s) as [s' [[]|e]]; simpl in Hline.
    + replace (i + S (length rest)) with (S i + length rest) by lia.
      apply IH. exact Hline.
    + simpl. eapply read_invariant_mono; [|exact Hline]. lia.
Qed.

(** After [read] of any document into a new object, whether it returned
    or raised, every category of the index spans a non-empty range of the
    stored lines. *)
Theorem read_index_consistent (str_data : string) :
  index_consistent (read str_data new_PDBxFile).1.
Proof.
  unfold read, index_consistent.
  set (lines := if bool_decide _ then _ else _).
  match goal with
  | |- context [read_loop lines 0 lines ?s0] =>
      pose proof (read_loop_invariant lines lines 0 s0) as Hloop
  end.
  simpl in Hloop.
  assert (Hinv0 : read_invariant 0
            {| rs_categories := []; data_block := None;
               current_category := None; rs_start := -1; rs_stop := -1;
               is_loop := false; has_multiline_values := false |}).
  { split; [constructor|]. simpl. intros Hc. contradiction. }
  specialize (Hloop Hinv0).
  destruct (read_loop lines 0 lines _) as [s [[]|e]]; simpl in *.
  - destruct (read_local (data_block s)) as [block|e]; simpl.
    + exact (read_invariant_add _ _ block Hloop).
    + destruct Hloop as [Hcats _]. exact Hcats.
  - destruct Hloop as [Hcats _]. exact Hcats.
Qed.

(** ** The candidate triplets (hbond.py, [_get_triplets]) *)

Lemma list_bind_assoc {A B C : Type} (f : A -> list B) (g : B -> list C)
    (l : list A) :
  (l ≫= f) ≫= g = l ≫= (fun x => f x ≫= g).
Proof.
  induction l as [|x l IH]; [reflexivity|].
  rewrite !bind_cons, bind_app, IH. reflexivity.
Qed.

Lemma list_bind_fmap {A B C : Type} (f : A -> B) (g : B -> list C) (l : list A) :
  (f <$> l) ≫= g = l ≫= (fun x => g (f x)).
Proof.
  induction l as [|x l IH]; [reflexivity|].
  rewrite fmap_cons, !bind_cons, IH. reflexivity.
Qed.

Lemma list_bind_ext_all {A B : Type} (f g : A -> list B) (l : list A) :
  (forall x, f x = g x) -> l ≫= f = l ≫= g.
Proof.
  intros Hfg. induction l as [|x l IH]; [reflexivity|].
  rewrite !bind_cons, Hfg, IH. reflexivity.
Qed.

(** Every donor repeated once per hydrogen, beside the hydrogens: the
    pairs (donor, hydrogen). *)
Lemma doublets_bind (donor_i : list nat) (donor_hs_i : list (list nat)) :
  length donor_i = length donor_hs_i ->
  zip (np.repeat_counts donor_i (length <$> donor_hs_i)) (concat donor_hs_i)
  = zip donor_i donor_hs_i ≫= (fun dhs => (fun h => (dhs.1, h)) <$> dhs.2).
Proof.
  revert donor_hs_i. unfold np.repeat_counts.
  induction donor_i as [|d donor_i IH]; intros [|hs donor_hs_i] Hlen;
    simpl in Hlen; try discriminate; [reflexivity|].
  injection Hlen as Hlen. simpl.
  rewrite zip_with_app by (rewrite length_replicate; reflexivity).
  f_equal; [apply zip_with_replicate_l; reflexivity|].
  exact (IH donor_hs_i Hlen).
Qed.

(** Every doublet repeated once per acceptor, beside the acceptors tiled
    once per doublet: the triplets of each doublet with each acceptor. *)
Lemma repeat_tile_bind {A B C : Type} (f : A -> B -> C) (xs : list A)
    (ys : list B) :
  zip_with f (np.repeat_each xs (length ys)) (np.tile ys (length xs))
  = xs ≫= (fun x => f x <$> ys).
Proof.
  unfold np.repeat_each, np.tile.
  induction xs as [|x xs IH]; [reflexivity|].
  simpl.
  rewrite zip_with_app by (rewrite length_replicate; reflexivity).
  f_equal; [apply zip_with_replicate_l; reflexivity|exact IH].
Qed.

Lemma length_repeat_each {A : Type} (xs : list A) (n : nat) :
  length (np.repeat_each xs n) = length xs * n.
Proof.
  unfold np.repeat_each. induction xs as [|x xs IH]; [reflexivity|].
  simpl. rewrite length_app, length_replicate. f_equal. exact IH.
Qed.

(** The array operations of [_get_triplets] ([np.repeat], [np.tile],
    [np.hstack] and the boolean index) build the nested loops. *)
Lemma _get_triplets_eq (donor_i : list nat) (donor_hs_i : list (list nat))
    (acceptor_i : list nat) :
  length donor_i = length donor_hs_i ->
  _get_triplets donor_i donor_hs_i acceptor_i
  = if bool_decide (concat donor_hs_i <> [] /\ acceptor_i = [])
    then Raise ZeroDivisionError
    else Ok (cross_triplets donor_i donor_hs_i acceptor_i).
Proof.
  intros Hlen. unfold _get_triplets, cross_triplets.
  rewrite (doublets_bind donor_i donor_hs_i Hlen).
  set (doublets := zip donor_i donor_hs_i
                   ≫= (fun dhs => (fun h => (dhs.1, h)) <$> dhs.2)).
  assert (Hdoublets : length doublets = length (concat donor_hs_i)).
  { unfold doublets. rewrite <- (doublets_bind donor_i donor_hs_i Hlen).
    rewrite length_zip_with. unfold np.repeat_counts.
    assert (length (concat (zip_with (fun x c => replicate c x) donor_i
                              (length <$> donor_hs_i)))
            = length (concat donor_hs_i)); [|lia].
    clear doublets. revert donor_hs_i Hlen.
    induction donor_i as [|d donor_i IH]; intros [|hs donor_hs_i] Hlen;
      simpl in Hlen; try discriminate; [reflexivity|].
    injection Hlen as Hlen. simpl.
    rewrite !length_app, length_replicate. f_equal.
    exact (IH donor_hs_i Hlen). }
  assert (Hcross :
            zip donor_i donor_hs_i
            ≫= (fun dhs => dhs.2 ≫= (fun h =>
                  (fun a => (dhs.1, h, a)) <$> acceptor_i))
            = doublets ≫= (fun dh => (fun a => (dh.1, dh.2, a)) <$> acceptor_i)).
  { unfold doublets. rewrite list_bind_assoc.
    apply list_bind_ext_all. intros dhs.
    rewrite list_bind_fmap. reflexivity. }
  rewrite Hcross.
  destruct (length doublets =? 0) eqn:Hzero.
  - apply Nat.eqb_eq in Hzero.
    rewrite bool_decide_eq_false_2.
    + destruct doublets; [reflexivity|discriminate].
    + intros [Hne _]. apply Hne.
      apply length_zero_iff_nil. lia.
  - apply Nat.eqb_neq in Hzero.
    destruct acceptor_i as [|a acceptor_i].
    + simpl. rewrite bool_decide_eq_true_2; [reflexivity|].
      split; [|reflexivity]. intros Hnil. rewrite Hnil in Hdoublets.
      simpl in Hdoublets. lia.
    + rewrite bool_decide_eq_false_2 by (intros [_ Hnil]; discriminate).
      set (acc := a :: acceptor_i).
      assert (Hacc : (length acc =? 0) = false) by reflexivity.
      rewrite Hacc, length_repeat_each.
      rewrite Nat.div_mul by (unfold acc; simpl; lia).
      rewrite (repeat_tile_bind (fun dh a => (dh.1, dh.2, a))). reflexivity.
Qed.

(** [_get_triplets] returns the candidates of the nested loops when the
    donors come with one list of hydrogens each.  It raises
    [ZeroDivisionError] exactly when some donor has a hydrogen and there
    is no acceptor. *)
Theorem _get_triplets_cross (donor_i : list nat) (donor_hs_i : list (list nat))
    (acceptor_i : list nat) :
  length donor_i = length donor_hs_i ->
  _get_triplets donor_i donor_hs_i acceptor_i
  = if bool_decide (concat donor_hs_i <> [] /\ acceptor_i = [])
    then Raise ZeroDivisionError
    else Ok (cross_triplets donor_i donor_hs_i acceptor_i).
Proof. exact (_get_triplets_eq donor_i donor_hs_i acceptor_i). Qed.

(** One donor with one hydrogen and one acceptor. *)
Lemma _get_triplets_cross_witness :
  _get_triplets [0] [[1]] [2]
  = if bool_decide (concat [[1]] <> [] /\ [2] = [])
    then Raise ZeroDivisionError
    else Ok (cross_triplets [0] [[1]] [2]).
Proof. apply (_get_triplets_cross [0] [[1]] [2]). reflexivity. Defined.

(** ** The hydrogens of a donor (hbond.py, [_get_bonded_hydrogen]) *)

Lemma elem_of_where_from (i : nat) (mask : list bool) (c : nat) :
  c ∈ np.where_from i mask <-> i <= c /\ mask !! (c - i) = Some true.
Proof.
  revert i. induction mask as [|b mask IH]; intros i; simpl.
  - split; [intros H; inversion H|intros [_ H]; discriminate].
  - assert (Hrest : c ∈ np.where_from (S i) mask
                    <-> S i <= c /\ (b :: mask) !! (c - i) = Some true).
    { rewrite IH. split; intros [Hle H]; (split; [exact Hle|]).
      - replace (c - i) with (S (c - S i)) by lia. exact H.
      - replace (c - i) with (S (c - S i)) in H by lia. exact H. }
    destruct b.
    + rewrite elem_of_cons, Hrest. split.
      * intros [->|[Hle H]]; [|split; [lia|exact H]].
        split; [lia|]. rewrite Nat.sub_diag. reflexivity.
      * intros [Hle H]. destruct (decide (c = i)) as [->|Hne]; [left; reflexivity|].
        right. split; [lia|exact H].
    + rewrite Hrest. split; intros [Hle H]; (split; [lia|exact H]) || idtac.
      destruct (decide (c = i)) as [->|Hne].
      * rewrite Nat.sub_diag in H. discriminate.
      * split; [lia|exact H].
Qed.

Lemma elem_of_where (mask : list bool) (c : nat) :
  c ∈ np.where_ mask <-> mask !! c = Some true.
Proof.
  unfold np.where_. rewrite elem_of_where_from, Nat.sub_0_r.
  split; [intros [_ H]; exact H|intros H; split; [lia|exact H]].
Qed.

(** Writing the values computed at the true positions into an array
    filled with [d0]. *)
Lemma put_mask_where {A : Type} (d0 : A) (f : nat -> A) (mask : list bool)
    (i j : nat) :
  np.put_mask (replicate (length mask) d0) mask (f <$> np.where_from i mask) !! j
  = (b ← mask !! j; Some (if b : bool then f (i + j) else d0)).
Proof.
  revert i j. induction mask as [|b mask IH]; intros i j; simpl; [reflexivity|].
  destruct b; simpl.
  - destruct j as [|j]; simpl.
    + rewrite Nat.add_0_r. reflexivity.
    + etransitivity; [exact (IH (S i) j)|].
      replace (S i + j) with (i + S j) by lia. reflexivity.
  - destruct j as [|j]; simpl; [reflexivity|].
    etransitivity; [exact (IH (S i) j)|].
    replace (S i + j) with (i + S j) by lia. reflexivity.
Qed.

Lemma Qle_bool_three_halves (z : Z) :
  Qle_bool (inject_Z z) (3 # 2) = true <-> (z <= 1)%Z.
Proof.
  rewrite Qle_bool_iff. unfold Qle, inject_Z. simpl. lia.
Qed.

(** Truncated to an integer, a non-negative distance is 0 or 1 exactly
    when it is below 2. *)
Lemma float_to_int_below_two (q : Q) :
  (0 <= q)%Q -> (0 <= np.float_to_int q <= 1)%Z <-> (q < 2)%Q.
Proof.
  intros Hq. unfold np.float_to_int.
  destruct q as [num den]. unfold Qle, Qlt in *. simpl in *.
  assert (Hnum : (0 <= num)%Z) by lia.
  rewrite Z.quot_div_nonneg by lia.
  pose proof (Z.div_mod num (Z.pos den) ltac:(lia)) as Hdiv.
  pose proof (Z.mod_pos_bound num (Z.pos den) ltac:(lia)) as Hmod.
  pose proof (Z.div_pos num (Z.pos den) Hnum ltac:(lia)) as Hpos.
  split; intros H; [|split]; nia.
Qed.


Section BondedHydrogen.
Context `{G : Geometry}.

(** The mask of the hydrogens of one donor, entry by entry. *)
Lemma donor_h_mask_lookup (atoms : AtomArray) (d : nat) (ad aj : Annot) (j : nat) :
  array_annots atoms !! j = Some aj ->
  let annots := array_annots atoms in
  let hydrogens_mask := (fun a => String.eqb (element a) "H") <$> annots in
  let candidate_mask :=
    zip_with andb hydrogens_mask
      ((fun a => Z.eqb (res_id a) (res_id ad)) <$> annots) in
  let selected := zip_with andb candidate_mask hydrogens_mask in
  let candidate_distance :=
    (fun j => distance (array_coord atoms d) (array_coord atoms j))
      <$> np.where_ selected in
  let distances :=
    np.put_mask (np.full (array_length atoms) (-1)%Z) selected
      (np.float_to_int <$> candidate_distance) in
  zip_with andb
    (zip_with andb candidate_mask
       ((fun d => Qle_bool (inject_Z d) (3 # 2)) <$> distances))
    ((fun d => (0 <=? d)%Z) <$> distances) !! j = Some true
  <-> element aj = "H" /\ res_id aj = res_id ad
      /\ (0 <= np.float_to_int
                 (distance (array_coord atoms d) (array_coord atoms j)) <= 1)%Z.
Proof.
  intros Haj annots hydrogens_mask candidate_mask selected candidate_distance
    distances.
  assert (Hhyd : hydrogens_mask !! j = Some (String.eqb (element aj) "H")).
  { unfold hydrogens_mask, annots. rewrite list_lookup_fmap, Haj. reflexivity. }
  assert (Hcand : candidate_mask !! j
                  = Some (String.eqb (element aj) "H"
                          && Z.eqb (res_id aj) (res_id ad))).
  { unfold candidate_mask. rewrite lookup_zip_with, Hhyd. simpl.
    unfold annots. rewrite list_lookup_fmap, Haj. reflexivity. }
  assert (Hsel : selected !! j
                 = Some (String.eqb (element aj) "H"
                         && Z.eqb (res_id aj) (res_id ad)
                         && String.eqb (element aj) "H")).
  { unfold selected. rewrite lookup_zip_with, Hcand. simpl.
    rewrite Hhyd. reflexivity. }
  assert (Hlen : array_length atoms = length selected).
  { unfold selected, candidate_mask, hydrogens_mask, annots, array_length.
    rewrite !length_zip_with, !length_fmap. lia. }
  assert (Hdist : distances !! j
                  = Some (if String.eqb (element aj) "H"
                             && Z.eqb (res_id aj) (res_id ad)
                             && String.eqb (element aj) "H"
                          then np.float_to_int
                                 (distance (array_coord atoms d)
                                    (array_coord atoms j))
                          else (-1)%Z)).
  { unfold distances, candidate_distance, np.full, np.where_.
    rewrite Hlen, <- list_fmap_compose.
    rewrite (put_mask_where (-1)%Z
               (np.float_to_int
                ∘ (fun j => distance (array_coord atoms d) (array_coord atoms j)))
               selected 0 j).
    rewrite Hsel. reflexivity. }
  rewrite !lookup_zip_with, Hcand, !list_lookup_fmap, Hdist. simpl.
  destruct (String.eqb_spec (element aj) "H") as [HH|HH]; simpl.
  2:{ split; [discriminate|]. intros [Habs _]. contradiction. }
  destruct (Z.eqb_spec (res_id aj) (res_id ad)) as [Hres|Hres]; simpl.
  2:{ split; [discriminate|]. intros (_ & Habs & _). contradiction. }
  set (z := np.float_to_int _).
  destruct (Qle_bool (inject_Z z) (3 # 2)) eqn:Hle; simpl.
  - apply Qle_bool_three_halves in Hle.
    destruct (Z.leb_spec 0 z); split; try discriminate; intros; try lia; auto.
  - split; [discriminate|]. intros (_ & _ & Hz).
    assert (Htrue : Qle_bool (inject_Z z) (3 # 2) = true)
      by (apply Qle_bool_three_halves; lia).
    congruence.
Qed.

(** The lists of [_get_bonded_hydrogen], donor by donor. *)
Lemma _get_bonded_hydrogen_members (atoms : AtomArray) (donor_mask : list bool) :
  length donor_mask = array_length atoms ->
  exists donor_hs,
    _get_bonded_hydrogen atoms donor_mask = Ok donor_hs
    /\ length donor_hs = length (np.where_ donor_mask)
    /\ (forall k d hs,
          np.where_ donor_mask !! k = Some d -> donor_hs !! k = Some hs ->
          forall j, j ∈ hs <-> bonded_hydrogen atoms d j).
Proof.
  intros Hlen. unfold _get_bonded_hydrogen.
  rewrite Hlen, Nat.eqb_refl. simpl.
  eexists. split; [reflexivity|].
  assert (Himap : length (imap (fun i a => (i, a)) (array_annots atoms))
                  = length donor_mask).
  { rewrite length_imap. symmetry. exact Hlen. }
  split.
  - rewrite length_fmap.
    rewrite (take_mask_length _ donor_mask 0) by exact Himap. reflexivity.
  - intros k d hs Hd Hhs j.
    rewrite list_lookup_fmap, take_mask_lookup in Hhs by exact Himap.
    rewrite Hd in Hhs. simpl in Hhs.
    rewrite list_lookup_imap in Hhs.
    destruct (array_annots atoms !! d) as [ad|] eqn:Had; simpl in Hhs;
      [|discriminate].
    injection Hhs as <-. simpl.
    rewrite elem_of_where. unfold bonded_hydrogen.
    destruct (array_annots atoms !! j) as [aj|] eqn:Haj.
    + rewrite (donor_h_mask_lookup atoms d ad aj j Haj).
      split.
      * intros (HH & Hres & Hz). exists ad, aj. auto.
      * intros (ad' & aj' & Had' & Haj' & HH & Hres & Hz).
        assert (ad' = ad) by congruence. assert (aj' = aj) by congruence.
        subst. auto.
    + split.
      * intros Hlook. apply lookup_lt_Some in Hlook.
        apply lookup_ge_None in Haj.
        rewrite !length_zip_with, !length_fmap in Hlook. lia.
      * intros (ad' & aj' & _ & Haj' & _). congruence.
Qed.

(** For a donor mask of the length of the model, [_get_bonded_hydrogen]
    returns one list per donor, in the order of the donors; the list of
    donor [d] holds exactly the atoms that count as hydrogens bonded to
    [d].  The distance is truncated before it is compared with the cutoff
    1.5, so a hydrogen at a distance below 2 is accepted. *)
Theorem _get_bonded_hydrogen_spec (atoms : AtomArray) (donor_mask : list bool) :
  length donor_mask = array_length atoms ->
  exists donor_hs,
    _get_bonded_hydrogen atoms donor_mask = Ok donor_hs
    /\ length donor_hs = length (np.where_ donor_mask)
    /\ (forall k d hs,
          np.where_ donor_mask !! k = Some d -> donor_hs !! k = Some hs ->
          forall j, j ∈ hs <-> bonded_hydrogen atoms d j)
    /\ (forall q : Q, (0 <= q)%Q ->
          (0 <= np.float_to_int q <= 1)%Z <-> (q < 2)%Q).
Proof.
  intros Hlen.
  destruct (_get_bonded_hydrogen_members atoms donor_mask Hlen)
    as (donor_hs & Hrun & Hlength & Hmem).
  exists donor_hs.
  split; [exact Hrun|]. split; [exact Hlength|]. split; [exact Hmem|].
  intros q Hq. apply float_to_int_below_two. exact Hq.
Qed.

End BondedHydrogen.


Lemma _get_bonded_hydrogen_spec_witness :
  exists donor_hs,
    _get_bonded_hydrogen (G := line_geometry)
      {| array_annots := stack_annots nho_stack;
         array_coord := stack_coord nho_stack 0 |} [true; false; true]
    = Ok donor_hs
    /\ length donor_hs = length (np.where_ [true; false; true])
    /\ (forall k d hs,
          np.where_ [true; false; true] !! k = Some d ->
          donor_hs !! k = Some hs ->
          forall j, j ∈ hs
            <-> bonded_hydrogen (G := line_geometry)
                  {| array_annots := stack_annots nho_stack;
                     array_coord := stack_coord nho_stack 0 |} d j)
    /\ (forall q : Q, (0 <= q)%Q ->
          (0 <= np.float_to_int q <= 1)%Z <-> (q < 2)%Q).
Proof.
  apply (_get_bonded_hydrogen_spec (G := line_geometry)
           {| array_annots := stack_annots nho_stack;
              array_coord := stack_coord nho_stack 0 |} [true; false; true]).
  reflexivity.
Defined.


(** ** One directional search (hbond.py, [_hbond]) *)

Lemma elem_of_take_mask {A : Type} (xs : list A) (mask : list bool) (x : A) :
  length xs = length mask ->
  x ∈ np.take_mask xs mask
  <-> exists i, xs !! i = Some x /\ mask !! i = Some true.
Proof.
  intros Hlen. rewrite list_elem_of_lookup. split.
  - intros [t Ht]. rewrite take_mask_lookup in Ht by exact Hlen.
    destruct (np.where_ mask !! t) as [c|] eqn:Hc; simpl in Ht; [|discriminate].
    exists c. split; [exact Ht|].
    apply elem_of_where. eapply list_elem_of_lookup_2. exact Hc.
  - intros (i & Hx & Hi). apply elem_of_where in Hi.
    apply list_elem_of_lookup in Hi as [t Ht].
    exists t. rewrite take_mask_lookup by exact Hlen.
    rewrite Ht. exact Hx.
Qed.

Lemma any_axis0_lookup (ncols : nat) (m : list (list bool)) (c : nat) :
  c < ncols ->
  np.any_axis0 ncols m !! c = Some true
  <-> exists i row, m !! i = Some row /\ row !! c = Some true.
Proof.
  intros Hc. split; [apply any_axis0_lookup_true|].
  intros (i & row & Hi & Hrow).
  unfold np.any_axis0. rewrite list_lookup_fmap, lookup_seq_lt by exact Hc.
  simpl. f_equal. apply existsb_exists. exists row. split.
  - apply list_elem_of_In. eapply list_elem_of_lookup_2. exact Hi.
  - rewrite Hrow. reflexivity.
Qed.

(** [selection & np.isin(atoms.element, elements)] for a selection of the
    length of the model. *)
Lemma and_isin_lookup (annots : list Annot) (selection : list bool)
    (elements : list string) :
  length selection = length annots ->
  exists filtered,
    np.and_ selection (np.isin (element <$> annots) elements) = Ok filtered
    /\ length filtered = length annots
    /\ forall i, filtered !! i = Some true
         <-> selection !! i = Some true
             /\ exists a, annots !! i = Some a /\ element a ∈ elements.
Proof.
  intros Hlen. unfold np.and_, np.isin.
  rewrite !length_fmap, Hlen, Nat.eqb_refl.
  eexists. split; [reflexivity|]. split.
  { rewrite length_zip_with, !length_fmap. lia. }
  intros i. rewrite lookup_zip_with, !list_lookup_fmap.
  destruct (selection !! i) as [b|]; simpl.
  2:{ split; [discriminate|]. intros [Habs _]. discriminate. }
  destruct (annots !! i) as [a|]; simpl.
  2:{ split; [discriminate|]. intros (_ & a & Habs & _). discriminate. }
  split.
  - intros [= Hand]. apply andb_true_iff in Hand as [-> Hex].
    split; [reflexivity|]. exists a. split; [reflexivity|].
    apply existsb_exists in Hex as (x & Hin & Heq).
    apply String.eqb_eq in Heq. subst x. apply list_elem_of_In. exact Hin.
  - intros ([= ->] & a' & [= <-] & Hin). simpl. f_equal.
    apply existsb_exists. exists (element a). split.
    + apply list_elem_of_In. exact Hin.
    + apply String.eqb_refl.
Qed.

(** Membership in the candidates of the nested loops. *)
Lemma elem_of_cross_triplets (donor_i : list nat) (donor_hs_i : list (list nat))
    (acceptor_i : list nat) (t : triplet) :
  t ∈ cross_triplets donor_i donor_hs_i acceptor_i
  <-> (exists k hs, donor_i !! k = Some (D_index t)
                    /\ donor_hs_i !! k = Some hs /\ H_index t ∈ hs)
      /\ A_index t ∈ acceptor_i
      /\ D_index t <> A_index t.
Proof.
  unfold cross_triplets.
  rewrite list_elem_of_filter, list_elem_of_bind.
  destruct t as [[d h] a]. unfold D_index, H_index, A_index. simpl.
  split.
  - intros (Hne & [d' hs] & Hin & Hzip).
    apply list_elem_of_bind in Hin as (h' & Hin & Hh). simpl in *.
    apply list_elem_of_fmap in Hin as (a' & [= -> -> ->] & Ha).
    apply list_elem_of_lookup in Hzip as [k Hk].
    apply lookup_zip_with_Some in Hk as (x & y & [= -> ->] & Hx & Hy).
    repeat split; eauto.
  - intros ((k & hs & Hk & Hhs & Hh) & Ha & Hne).
    split; [exact Hne|]. exists (d, hs). split.
    + apply list_elem_of_bind. exists h. split; [|exact Hh].
      apply list_elem_of_fmap. exists a. auto.
    + apply list_elem_of_lookup. exists k.
      apply lookup_zip_with_Some. eauto.
Qed.

Lemma elem_of_concat {A : Type} (x : A) (ls : list (list A)) :
  x ∈ concat ls <-> exists l, x ∈ l /\ l ∈ ls.
Proof.
  induction ls as [|l ls IH]; simpl.
  - split; [intros H; inversion H|]. intros (l & _ & H). inversion H.
  - rewrite elem_of_app, IH. split.
    + intros [H|(l' & Hx & Hl)].
      * exists l. split; [exact H|left].
      * exists l'. split; [exact Hx|right; exact Hl].
    + intros (l' & Hx & Hl). apply elem_of_cons in Hl as [->|Hl].
      * left. exact Hx.
      * right. exists l'. auto.
Qed.

Section Search.
Context `{G : Geometry}.

(** The entries of the batched test. *)
Lemma hbond_mask_vectorized_lookup atoms cand cutoff_dist cutoff_angle
    hbond_mask (m c : nat) (t : triplet) :
  hbond_mask_vectorized atoms cand cutoff_dist cutoff_angle = Ok hbond_mask ->
  m < stack_depth atoms ->
  cand !! c = Some t ->
  exists row,
    hbond_mask !! m = Some row
    /\ row !! c
       = Some (is_hbond_at (stack_coord atoms m (D_index t))
                 (stack_coord atoms m (H_index t))
                 (stack_coord atoms m (A_index t)) cutoff_dist cutoff_angle).
Proof.
  unfold hbond_mask_vectorized, stack_take.
  destruct (forallb _ (D_index <$> cand)); simpl; [|discriminate].
  destruct (forallb _ (H_index <$> cand)); simpl; [|discriminate].
  destruct (forallb _ (A_index <$> cand)); simpl; [|discriminate].
  intros [= <-] Hm Hc.
  eexists. split.
  - rewrite _is_hbond_stack_lookup, !list_lookup_fmap.
    rewrite lookup_seq_lt by exact Hm. simpl. reflexivity.
  - rewrite _is_hbond_lookup, !list_lookup_fmap, Hc. reflexivity.
Qed.

(** The first steps of a search on selections of the length of the
    model: the filtered selections, the hydrogens of the donors, and the
    candidates they give. *)
Lemma _hbond_candidates atoms donor_selection acceptor_selection
    donor_elements acceptor_elements :
  length donor_selection = stack_array_length atoms ->
  length acceptor_selection = stack_array_length atoms ->
  exists ds acs hs,
    np.and_ donor_selection
      (np.isin (element <$> stack_annots atoms) donor_elements) = Ok ds
    /\ np.and_ acceptor_selection
         (np.isin (element <$> stack_annots atoms) acceptor_elements) = Ok acs
    /\ _get_bonded_hydrogen (first_model atoms) ds = Ok hs
    /\ length (np.where_ ds) = length hs
    /\ (forall t, t ∈ cross_triplets (np.where_ ds) hs (np.where_ acs)
          <-> candidate_triplet atoms donor_selection acceptor_selection
                donor_elements acceptor_elements t)
    /\ (concat hs <> []
        <-> exists d h, selected_atom atoms donor_selection donor_elements d
                        /\ bonded_hydrogen (first_model atoms) d h)
    /\ (np.where_ acs = []
        <-> forall a,
              ~ selected_atom atoms acceptor_selection acceptor_elements a).
Proof.
  intros Hds Has.
  destruct (and_isin_lookup (stack_annots atoms) donor_selection donor_elements
              Hds) as (ds & Hds_eq & Hds_len & Hds_mem).
  destruct (and_isin_lookup (stack_annots atoms) acceptor_selection
              acceptor_elements Has) as (acs & Hacs_eq & _ & Hacs_mem).
  destruct (_get_bonded_hydrogen_members (first_model atoms) ds Hds_len)
    as (hs & Hhs_eq & Hhs_len & Hhs_mem).
  exists ds, acs, hs.
  split; [exact Hds_eq|]. split; [exact Hacs_eq|]. split; [exact Hhs_eq|].
  split; [symmetry; exact Hhs_len|].
  assert (Hdonor : forall d h,
            (exists k hs_k, np.where_ ds !! k = Some d /\ hs !! k = Some hs_k
                            /\ h ∈ hs_k)
            <-> selected_atom atoms donor_selection donor_elements d
                /\ bonded_hydrogen (first_model atoms) d h).
  { intros d h. unfold selected_atom. rewrite <- (Hds_mem d). split.
    - intros (k & hs_k & Hk & Hhs & Hh). split.
      + apply elem_of_where. eapply list_elem_of_lookup_2. exact Hk.
      + apply (Hhs_mem k d hs_k Hk Hhs). exact Hh.
    - intros [Hd Hb].
      apply elem_of_where, list_elem_of_lookup in Hd as [k Hk].
      destruct (lookup_lt_is_Some_2 hs k) as [hs_k Hhs].
      { rewrite Hhs_len. eapply lookup_lt_Some. exact Hk. }
      exists k, hs_k. split; [|split]; try assumption.
      apply (Hhs_mem k d hs_k Hk Hhs). exact Hb. }
  split; [|split].
  - intros t. rewrite elem_of_cross_triplets, Hdonor.
    unfold candidate_triplet.
    assert (Hacc : A_index t ∈ np.where_ acs
                   <-> selected_atom atoms acceptor_selection
                         acceptor_elements (A_index t)).
    { unfold selected_atom. rewrite <- (Hacs_mem (A_index t)).
      apply elem_of_where. }
    rewrite Hacc. tauto.
  - split.
    + intros Hne. destruct (concat hs) as [|h rest] eqn:Hconcat;
        [contradiction|].
      assert (Hin : h ∈ concat hs) by (rewrite Hconcat; left).
      apply elem_of_concat in Hin as (hs_k & Hh & Hin).
      apply list_elem_of_lookup in Hin as [k Hhs].
      destruct (lookup_lt_is_Some_2 (np.where_ ds) k) as [d Hk].
      { rewrite <- Hhs_len. eapply lookup_lt_Some. exact Hhs. }
      exists d, h. apply Hdonor. eauto.
    + intros (d & h & Hdh). apply Hdonor in Hdh as (k & hs_k & _ & Hhs & Hh).
      intros Hnil.
      assert (Hin : h ∈ concat hs).
      { apply elem_of_concat. exists hs_k. split; [exact Hh|].
        eapply list_elem_of_lookup_2. exact Hhs. }
      rewrite Hnil in Hin. inversion Hin.
  - unfold selected_atom. split.
    + intros Hnil a Ha. apply Hacs_mem, elem_of_where in Ha.
      rewrite Hnil in Ha. inversion Ha.
    + intros Hnone. destruct (np.where_ acs) as [|a rest] eqn:Hwhere;
        [reflexivity|].
      exfalso. apply (Hnone a). apply Hacs_mem, elem_of_where.
      rewrite Hwhere. left.
Qed.

(** What a search that returns has computed: the candidates and, when
    there are some, the matrix of the test on them. *)
Lemma _hbond_inv mem atoms donor_selection acceptor_selection
    cutoff_dist cutoff_angle donor_elements acceptor_elements vectorized
    triplets mask :
  length donor_selection = stack_array_length atoms ->
  length acceptor_selection = stack_array_length atoms ->
  _hbond mem atoms donor_selection acceptor_selection cutoff_dist cutoff_angle
    donor_elements acceptor_elements vectorized = Ok (triplets, mask) ->
  exists cand,
    (forall t, t ∈ cand
       <-> candidate_triplet atoms donor_selection acceptor_selection
             donor_elements acceptor_elements t)
    /\ 0 < stack_depth atoms
    /\ ((cand = [] /\ triplets = [])
        \/ exists hbond_mask,
             hbond_mask_vectorized atoms cand cutoff_dist cutoff_angle
             = Ok hbond_mask
             /\ triplets
                = np.take_mask cand (np.any_axis0 (length cand) hbond_mask)).
Proof.
  intros Hds Has Hrun.
  assert (Hv : _hbond mem atoms donor_selection acceptor_selection cutoff_dist
                 cutoff_angle donor_elements acceptor_elements true
               = Ok (triplets, mask)).
  { destruct vectorized; [exact Hrun|].
    rewrite _hbond_vectorized_irrelevant. exact Hrun. }
  clear Hrun. unfold _hbond in Hv.
  destruct (_hbond_candidates atoms donor_selection acceptor_selection
              donor_elements acceptor_elements Hds Has)
    as (ds & acs & hs & Hds_eq & Hacs_eq & Hhs & Hlen & Hcand & _).
  rewrite Hds_eq, Hacs_eq in Hv. simpl in Hv.
  unfold stack_getitem in Hv.
  destruct (0 <? stack_depth atoms) eqn:Hdepth; simpl in Hv; [|discriminate].
  apply Nat.ltb_lt in Hdepth.
  change {| array_annots := stack_annots atoms;
            array_coord := stack_coord atoms 0 |}
    with (first_model atoms) in Hv.
  rewrite Hhs in Hv. simpl in Hv.
  rewrite (_get_triplets_eq (np.where_ ds) hs (np.where_ acs) Hlen) in Hv.
  destruct (bool_decide _) in Hv; simpl in Hv; [discriminate|].
  set (cand := cross_triplets (np.where_ ds) hs (np.where_ acs)) in *.
  exists cand. split; [exact Hcand|]. split; [exact Hdepth|].
  destruct (length cand =? 0) eqn:Hzero.
  - left. injection Hv as <- _. apply Nat.eqb_eq in Hzero.
    destruct cand; [auto|discriminate].
  - right.
    destruct (hbond_mask_vectorized atoms cand cutoff_dist cutoff_angle)
      as [hbond_mask|e]; simpl in Hv; [|discriminate].
    injection Hv as <- _. exists hbond_mask. auto.
Qed.

(** Membership in the triplets of one directional search. *)
Lemma _hbond_triplets_iff mem atoms donor_selection
    acceptor_selection cutoff_dist cutoff_angle donor_elements
    acceptor_elements vectorized triplets mask :
  length donor_selection = stack_array_length atoms ->
  length acceptor_selection = stack_array_length atoms ->
  _hbond mem atoms donor_selection acceptor_selection cutoff_dist cutoff_angle
    donor_elements acceptor_elements vectorized = Ok (triplets, mask) ->
  forall t,
    t ∈ triplets
    <-> candidate_triplet atoms donor_selection acceptor_selection
          donor_elements acceptor_elements t
        /\ exists m, m < stack_depth atoms
                     /\ bond_in_model atoms cutoff_dist cutoff_angle m t.
Proof.
  intros Hds Has Hrun t.
  destruct (_hbond_inv _ _ _ _ _ _ _ _ _ _ _ Hds Has Hrun)
    as (cand & Hcand & Hdepth & Hcases).
  rewrite <- Hcand.
  destruct Hcases as [[Hnil ->]|(hbond_mask & Hmask & ->)].
  { rewrite Hnil. split; [intros H; inversion H|].
    intros [H _]. inversion H. }
  destruct (hbond_mask_vectorized_shape _ _ _ _ _ Hmask) as [Hrows Hcols].
  rewrite elem_of_take_mask
    by (unfold np.any_axis0; rewrite length_fmap, length_seq; reflexivity).
  split.
  - intros (c & Hc & Hcounted). split.
    { eapply list_elem_of_lookup_2. exact Hc. }
    apply any_axis0_lookup in Hcounted
      as (m & row & Hm & Hrow); [|eapply lookup_lt_Some; exact Hc].
    assert (Hlt : m < stack_depth atoms).
    { rewrite <- Hrows. eapply lookup_lt_Some. exact Hm. }
    exists m. split; [exact Hlt|].
    destruct (hbond_mask_vectorized_lookup _ _ _ _ _ m c t Hmask Hlt Hc)
      as (row' & Hm' & Hrow').
    rewrite Hm in Hm'. injection Hm' as <-. rewrite Hrow in Hrow'.
    injection Hrow' as Htest. apply is_hbond_at_iff. symmetry. exact Htest.
  - intros (Hin & m & Hlt & Hbond).
    apply list_elem_of_lookup in Hin as [c Hc].
    exists c. split; [exact Hc|].
    apply any_axis0_lookup; [eapply lookup_lt_Some; exact Hc|].
    destruct (hbond_mask_vectorized_lookup _ _ _ _ _ m c t Hmask Hlt Hc)
      as (row & Hm & Hrow).
    exists m, row. split; [exact Hm|].
    rewrite Hrow. f_equal. apply is_hbond_at_iff. exact Hbond.
Qed.

(** The triplets of one directional search are exactly the candidates
    whose criterion holds in at least one model. *)
Theorem _hbond_triplets_characterised mem atoms donor_selection
    acceptor_selection cutoff_dist cutoff_angle donor_elements
    acceptor_elements vectorized triplets mask :
  length donor_selection = stack_array_length atoms ->
  length acceptor_selection = stack_array_length atoms ->
  _hbond mem atoms donor_selection acceptor_selection cutoff_dist cutoff_angle
    donor_elements acceptor_elements vectorized = Ok (triplets, mask) ->
  forall t,
    t ∈ triplets
    <-> candidate_triplet atoms donor_selection acceptor_selection
          donor_elements acceptor_elements t
        /\ exists m, m < stack_depth atoms
                     /\ bond_in_model atoms cutoff_dist cutoff_angle m t.
Proof. exact (_hbond_triplets_iff mem atoms donor_selection acceptor_selection
               cutoff_dist cutoff_angle donor_elements acceptor_elements
               vectorized triplets mask). Qed.

(** When a directional search returns triplets, the entry of the mask at
    model [m] and triplet [t] is the test of [_is_hbond] on the
    coordinates of that triplet in that model. *)
Theorem _hbond_mask_entries mem atoms donor_selection
    acceptor_selection cutoff_dist cutoff_angle donor_elements
    acceptor_elements vectorized triplets mask (m i : nat) (t : triplet) :
  _hbond mem atoms donor_selection acceptor_selection cutoff_dist cutoff_angle
    donor_elements acceptor_elements vectorized = Ok (triplets, mask) ->
  m < stack_depth atoms ->
  triplets !! i = Some t ->
  exists row b,
    mask !! m = Some row /\ row !! i = Some b
    /\ (b = true <-> bond_in_model atoms cutoff_dist cutoff_angle m t).
Proof.
  intros Hrun Hm Ht.
  assert (Hv : _hbond mem atoms donor_selection acceptor_selection cutoff_dist
                 cutoff_angle donor_elements acceptor_elements true
               = Ok (triplets, mask)).
  { destruct vectorized; [exact Hrun|].
    rewrite _hbond_vectorized_irrelevant. exact Hrun. }
  clear Hrun. unfold _hbond in Hv.
  destruct (np.and_ donor_selection _) as [ds|e]; simpl in Hv; [|discriminate].
  destruct (np.and_ acceptor_selection _) as [acs|e]; simpl in Hv; [|discriminate].
  destruct (stack_getitem atoms 0) as [atoms0|e]; simpl in Hv; [|discriminate].
  destruct (_get_bonded_hydrogen atoms0 ds) as [hs|e]; simpl in Hv; [|discriminate].
  destruct (_get_triplets _ hs _) as [cand|e]; simpl in Hv; [|discriminate].
  destruct (length cand =? 0) eqn:Hcand.
  { injection Hv as <- _. apply Nat.eqb_eq in Hcand.
    destruct cand; [discriminate|discriminate]. }
  destruct (hbond_mask_vectorized atoms cand cutoff_dist cutoff_angle)
    as [hbond_mask|e] eqn:Hmask; simpl in Hv; [|discriminate].
  destruct (hbond_mask_vectorized_shape _ _ _ _ _ Hmask) as [Hrows Hcols].
  injection Hv as <- <-.
  set (is_counted := np.any_axis0 (length cand) hbond_mask) in *.
  assert (Hlen : length cand = length is_counted).
  { unfold is_counted, np.any_axis0. rewrite length_fmap, length_seq.
    reflexivity. }
  rewrite take_mask_lookup in Ht by exact Hlen.
  destruct (np.where_ is_counted !! i) as [c|] eqn:Hc; simpl in Ht;
    [|discriminate].
  destruct (hbond_mask_vectorized_lookup _ _ _ _ _ m c t Hmask Hm Ht)
    as (row & Hrow & Hentry).
  eexists (np.take_mask row is_counted), _. split; [|split].
  - unfold np.take_columns_mask. rewrite list_lookup_fmap, Hrow. reflexivity.
  - rewrite Forall_forall in Hcols.
    rewrite take_mask_lookup
      by (rewrite (Hcols row); [exact Hlen|eapply list_elem_of_lookup_2; eauto]).
    rewrite Hc. simpl. exact Hentry.
  - apply is_hbond_at_iff.
Qed.

End Search.


(** The N-H...O ensemble: the bond is present in the first model only. *)
Lemma _hbond_triplets_characterised_witness :
  (0, 1, 2) ∈ [(0, 1, 2)]
  <-> candidate_triplet (G := line_geometry) nho_stack
        [true; true; true] [true; true; true]
        default_elements default_elements (0, 1, 2)
      /\ exists m, m < stack_depth nho_stack
                   /\ bond_in_model (G := line_geometry) nho_stack
                        default_cutoff_dist default_cutoff_angle m (0, 1, 2).
Proof.
  apply (_hbond_triplets_characterised (G := line_geometry) (zero_memory 0)
           nho_stack [true; true; true] [true; true; true]
           default_cutoff_dist default_cutoff_angle
           default_elements default_elements true
           [(0, 1, 2)] [[true]; [false]]).
  - reflexivity.
  - reflexivity.
  - vm_compute. reflexivity.
Defined.

Lemma _hbond_mask_entries_witness :
  exists row b,
    [[true]; [false]] !! 1 = Some row /\ row !! 0 = Some b
    /\ (b = true
        <-> bond_in_model (G := line_geometry) nho_stack
              default_cutoff_dist default_cutoff_angle 1 (0, 1, 2)).
Proof.
  apply (_hbond_mask_entries (G := line_geometry) (zero_memory 0)
           nho_stack [true; true; true] [true; true; true]
           default_cutoff_dist default_cutoff_angle
           default_elements default_elements true
           [(0, 1, 2)] [[true]; [false]] 1 0 (0, 1, 2)).
  - vm_compute. reflexivity.
  - simpl. lia.
  - reflexivity.
Defined.

Section SearchRuns.
Context `{G : Geometry}.

(** The candidates index atoms of the model, so gathering their
    coordinates does not fail. *)
Lemma hbond_mask_vectorized_Ok atoms cand cutoff_dist cutoff_angle :
  (forall t, t ∈ cand ->
     D_index t < stack_array_length atoms
     /\ H_index t < stack_array_length atoms
     /\ A_index t < stack_array_length atoms) ->
  exists hbond_mask,
    hbond_mask_vectorized atoms cand cutoff_dist cutoff_angle = Ok hbond_mask.
Proof.
  intros Hrange. unfold hbond_mask_vectorized.
  assert (Hall : forall f : triplet -> nat,
            (forall t, t ∈ cand -> f t < stack_array_length atoms) ->
            forallb (fun i => i <? stack_array_length atoms) (f <$> cand)
            = true).
  { intros f Hf. apply forallb_forall. intros i Hi.
    apply list_elem_of_In, list_elem_of_fmap in Hi as (t & -> & Ht).
    apply Nat.ltb_lt. apply Hf. exact Ht. }
  destruct (stack_take_Ok atoms (D_index <$> cand)) as [-> _].
  { apply Hall. intros t Ht. apply (Hrange t Ht). }
  destruct (stack_take_Ok atoms (H_index <$> cand)) as [-> _].
  { apply Hall. intros t Ht. apply (Hrange t Ht). }
  destruct (stack_take_Ok atoms (A_index <$> cand)) as [-> _].
  { apply Hall. intros t Ht. apply (Hrange t Ht). }
  simpl. eexists. reflexivity.
Qed.

Lemma candidate_triplet_range atoms donor_selection acceptor_selection
    donor_elements acceptor_elements t :
  candidate_triplet atoms donor_selection acceptor_selection
    donor_elements acceptor_elements t ->
  D_index t < stack_array_length atoms
  /\ H_index t < stack_array_length atoms
  /\ A_index t < stack_array_length atoms.
Proof.
  intros ((_ & ad & Had & _) & (_ & ah & _ & Hah & _) & (_ & aa & Haa & _) & _).
  unfold stack_array_length. simpl in Hah.
  split; [|split]; eapply lookup_lt_Some; eassumption.
Qed.

(** On an ensemble with at least one model and for selections of the
    length of the model, a directional search fails in one case only:
    some selected donor has a bonded hydrogen and no acceptor is
    selected; it then raises [ZeroDivisionError].  In every other case it
    returns; in particular no index is ever out of range. *)
Theorem _hbond_fails_without_acceptor mem atoms donor_selection
    acceptor_selection cutoff_dist cutoff_angle donor_elements
    acceptor_elements vectorized :
  length donor_selection = stack_array_length atoms ->
  length acceptor_selection = stack_array_length atoms ->
  0 < stack_depth atoms ->
  ((exists d h, selected_atom atoms donor_selection donor_elements d
                /\ bonded_hydrogen (first_model atoms) d h)
   /\ (forall a, ~ selected_atom atoms acceptor_selection acceptor_elements a)
   /\ _hbond mem atoms donor_selection acceptor_selection cutoff_dist
        cutoff_angle donor_elements acceptor_elements vectorized
      = Raise ZeroDivisionError)
  \/ (~ ((exists d h, selected_atom atoms donor_selection donor_elements d
                      /\ bonded_hydrogen (first_model atoms) d h)
         /\ (forall a,
               ~ selected_atom atoms acceptor_selection acceptor_elements a))
      /\ exists triplets mask,
           _hbond mem atoms donor_selection acceptor_selection cutoff_dist
             cutoff_angle donor_elements acceptor_elements vectorized
           = Ok (triplets, mask)).
Proof.
  intros Hds Has Hdepth.
  assert (Hv : _hbond mem atoms donor_selection acceptor_selection cutoff_dist
                 cutoff_angle donor_elements acceptor_elements vectorized
               = _hbond mem atoms donor_selection acceptor_selection
                   cutoff_dist cutoff_angle donor_elements acceptor_elements
                   true).
  { destruct vectorized; [reflexivity|].
    symmetry. apply _hbond_vectorized_irrelevant. }
  rewrite Hv. clear Hv. unfold _hbond.
  destruct (_hbond_candidates atoms donor_selection acceptor_selection
              donor_elements acceptor_elements Hds Has)
    as (ds & acs & hs & -> & -> & Hhs & Hlen & Hcand & Hsome & Hnone).
  simpl. unfold stack_getitem.
  apply Nat.ltb_lt in Hdepth. rewrite Hdepth. simpl.
  change {| array_annots := stack_annots atoms;
            array_coord := stack_coord atoms 0 |}
    with (first_model atoms).
  rewrite Hhs. simpl.
  rewrite (_get_triplets_eq (np.where_ ds) hs (np.where_ acs) Hlen).
  rewrite <- Hsome, <- Hnone.
  destruct (bool_decide_reflect (concat hs <> [] /\ np.where_ acs = []))
    as [Hfail|Hfine]; simpl.
  { left. destruct Hfail. auto. }
  right. split; [exact Hfine|].
  set (cand := cross_triplets (np.where_ ds) hs (np.where_ acs)) in *.
  destruct (length cand =? 0); [eauto|].
  destruct (hbond_mask_vectorized_Ok atoms cand cutoff_dist cutoff_angle)
    as [hbond_mask ->].
  { intros t Ht. apply Hcand in Ht.
    eapply candidate_triplet_range. exact Ht. }
  simpl. eauto.
Qed.

End SearchRuns.

(** A donor with its hydrogen and no acceptor selected. *)
Lemma _hbond_fails_without_acceptor_witness :
  ((exists d h, selected_atom (G := line_geometry) nho_stack
                  [true; true; false] default_elements d
                /\ bonded_hydrogen (first_model nho_stack) d h)
   /\ (forall a, ~ selected_atom (G := line_geometry) nho_stack
                     [false; false; false] default_elements a)
   /\ _hbond (G := line_geometry) (zero_memory 0) nho_stack
        [true; true; false] [false; false; false]
        default_cutoff_dist default_cutoff_angle
        default_elements default_elements true
      = Raise ZeroDivisionError)
  \/ (~ ((exists d h, selected_atom (G := line_geometry) nho_stack
                        [true; true; false] default_elements d
                      /\ bonded_hydrogen (first_model nho_stack) d h)
         /\ (forall a, ~ selected_atom (G := line_geometry) nho_stack
                           [false; false; false] default_elements a))
      /\ exists triplets mask,
           _hbond (G := line_geometry) (zero_memory 0) nho_stack
             [true; true; false] [false; false; false]
             default_cutoff_dist default_cutoff_angle
             default_elements default_elements true
           = Ok (triplets, mask)).
Proof.
  apply (_hbond_fails_without_acceptor (G := line_geometry) (zero_memory 0)
           nho_stack [true; true; false] [false; false; false]
           default_cutoff_dist default_cutoff_angle
           default_elements default_elements true).
  - reflexivity.
  - reflexivity.
  - simpl. lia.
Defined.


(** ** Reading what was written (file.py, [read] and [write]) *)

Lemma list_ascii_of_string_app (s1 s2 : string) :
  list_ascii_of_string (s1 ++ s2)
  = list_ascii_of_string s1 ++ list_ascii_of_string s2.
Proof.
  induction s1 as [|c s1 IH]; simpl; [reflexivity|]. f_equal. exact IH.
Qed.

(** Splitting at a separator the text does not hold before it. *)
Lemma split_chars_line (sep : ascii) (l cs cur : list ascii) :
  sep ∉ l ->
  pystr.split_chars sep (l ++ sep :: cs) cur
  = string_of_list_ascii (rev cur ++ l) :: pystr.split_chars sep cs [].
Proof.
  revert cur. induction l as [|c l IH]; intros cur Hsep; simpl.
  - rewrite Ascii.eqb_refl, app_nil_r. reflexivity.
  - apply not_elem_of_cons in Hsep as [Hne Hsep].
    destruct (Ascii.eqb_spec c sep) as [->|_]; [contradiction|].
    rewrite (IH (c :: cur) Hsep). simpl. rewrite <- app_assoc. reflexivity.
Qed.

Lemma split_write (lines : list string) :
  Forall one_line lines ->
  pystr.split
    (foldr (fun line rest => (line ++ newline ++ rest)%string) EmptyString lines)
    (ascii_of_nat 10)
  = lines ++ [EmptyString].
Proof.
  unfold pystr.split. induction 1 as [|line lines [Hline _] _ IH]; simpl;
    [reflexivity|].
  rewrite list_ascii_of_string_app. simpl.
  rewrite (split_chars_line _ _ _ [] Hline). simpl.
  rewrite string_of_list_ascii_of_string. f_equal. exact IH.
Qed.

(** Text without a carriage return comes back from a file as it was
    written, whichever the line separator of the platform. *)
Lemma text_mode_round_trip (linesep text : list ascii) :
  linesep = [line_feed] \/ linesep = [carriage_return; line_feed] ->
  carriage_return ∉ text ->
  text_mode_read (text_mode_write linesep text) = text.
Proof.
  intros Hsep. unfold text_mode_write.
  induction text as [|c text IH]; intros Hcr; [reflexivity|].
  apply not_elem_of_cons in Hcr as [Hc Hcr].
  change (text_mode_read
            ((if Ascii.eqb c line_feed then linesep else [c])
             ++ (text ≫= fun c => if Ascii.eqb c line_feed then linesep
                                  else [c]))
          = c :: text).
  destruct (Ascii.eqb_spec c line_feed) as [->|Hlf].
  - destruct Hsep as [->| ->]; simpl; rewrite (IH Hcr); reflexivity.
  - simpl. destruct (Ascii.eqb_spec c carriage_return) as [->|_];
      [contradiction|].
    f_equal. exact (IH Hcr).
Qed.

(** [write] puts a carriage return into the text only if a stored line
    holds one. *)
Lemma write_no_carriage_return (lines : list string) :
  Forall one_line lines ->
  carriage_return
  ∉ list_ascii_of_string
      (foldr (fun line rest => (line ++ newline ++ rest)%string) EmptyString
         lines).
Proof.
  induction 1 as [|line lines [_ Hline] _ IH]; simpl.
  - intros H. inversion H.
  - rewrite list_ascii_of_string_app. simpl.
    rewrite elem_of_app, elem_of_cons. intros [H|[H|H]].
    + contradiction.
    + discriminate.
    + contradiction.
Qed.

(** Reading the file [write] has written gives back the stored lines,
    provided no stored line holds a line break (a line feed or a
    carriage return); this holds for both line separators text mode may
    write, and [read] stores the lines whether or not it then raises.  A
    stored line that holds a carriage return is read back as two
    lines. *)
Theorem write_read_lines (linesep : list ascii) (self other : PDBxFile) :
  linesep = [line_feed] \/ linesep = [carriage_return; line_feed] ->
  Forall one_line (_lines self) ->
  _lines (read (read_back linesep self) other).1 = _lines self
  /\ _lines
       (read
          (read_back linesep
             {| _lines := [String "p" (String carriage_return "q")];
                _categories := [] |}) other).1
     = ["p"; "q"].
Proof.
  intros Hsep Hlines. split.
  - unfold read_back, write.
    rewrite (text_mode_round_trip _ _ Hsep (write_no_carriage_return _ Hlines)).
    rewrite string_of_list_ascii_of_string.
    unfold read.
    rewrite (split_write _ Hlines).
    rewrite bool_decide_eq_true_2 by apply last_snoc.
    rewrite removelast_last.
    destruct (read_loop _ 0 _ _) as [s [[]|e]]; simpl; [|reflexivity].
    destruct (read_local (data_block s)); reflexivity.
  - destruct Hsep as [->| ->]; vm_compute; reflexivity.
Qed.

Lemma write_read_lines_witness :
  _lines
    (read (read_back [carriage_return; line_feed] three_category_file)
       new_PDBxFile).1
  = _lines three_category_file
  /\ _lines
       (read
          (read_back [carriage_return; line_feed]
             {| _lines := [String "p" (String carriage_return "q")];
                _categories := [] |}) new_PDBxFile).1
     = ["p"; "q"].
Proof.
  apply (write_read_lines [carriage_return; line_feed] three_category_file
           new_PDBxFile).
  - right. reflexivity.
  - apply (bool_decide_unpack
             (Forall (fun s => (line_feed ∉ list_ascii_of_string s)
                               /\ (carriage_return ∉ list_ascii_of_string s))
                (_lines three_category_file))).
    vm_compute. exact I.
Defined.


(** ** Documents without a data block (file.py, [read]) *)

Lemma getitem_not_empty (line : string) :
  _is_empty line = false -> exists c, pystr.getitem line 0 = Ok c.
Proof.
  unfold _is_empty, pystr.getitem. destruct line as [|c line]; simpl.
  - discriminate.
  - intros _. exists c. reflexivity.
Qed.

(** As long as no line names a data block, the local variable
    [data_block] stays unbound, and an iteration either completes or
    raises [UnboundLocalError]. *)
Lemma read_line_unbound (lines : list string) (i : nat) (line : string)
    (s : ReadState) :
  _data_block_name line = None ->
  data_block s = None ->
  data_block (read_line lines i line s).1 = None
  /\ ((read_line lines i line s).2 = Ok tt
      \/ (read_line lines i line s).2 = Raise UnboundLocalError).
Proof.
  intros Hline Hs. unfold read_line.
  destruct (_is_empty line) eqn:Hempty; [auto|].
  rewrite Hline.
  destruct (getitem_not_empty line Hempty) as [c Hc].
  unfold _get_category_name, _is_multi. rewrite Hc. simpl.
  destruct (negb (bool_decide (c = "_"%char))); simpl.
  - destruct (_is_loop_start line || _); simpl.
    + rewrite Hs. simpl. auto.
    + destruct (is_loop s); destruct (bool_decide _); simpl; auto.
  - destruct (_is_loop_start line || _); simpl.
    + rewrite Hs. simpl. auto.
    + destruct (is_loop s); destruct (bool_decide _); simpl; auto.
Qed.

Lemma read_loop_unbound (lines rest : list string) (i : nat) (s : ReadState) :
  Forall (fun line => _data_block_name line = None) rest ->
  data_block s = None ->
  data_block (read_loop lines i rest s).1 = None
  /\ ((read_loop lines i rest s).2 = Ok tt
      \/ (read_loop lines i rest s).2 = Raise UnboundLocalError).
Proof.
  intros Hrest. revert i s.
  induction Hrest as [|line rest Hline _ IH]; intros i s Hs; simpl; [auto|].
  destruct (read_line_unbound lines i line s Hline Hs) as [Hblock Hres].
  destruct (read_line lines i line s) as [s' [[]|e]]; simpl in *.
  - apply IH. exact Hblock.
  - destruct Hres as [Hres|Hres]; [discriminate|]. auto.
Qed.

Lemma Forall_removelast {A : Type} (P : A -> Prop) (l : list A) :
  Forall P l -> Forall P (removelast l).
Proof.
  induction 1 as [|x l Hx Hl IH]; simpl; [constructor|].
  destruct l; [constructor|]. constructor; assumption.
Qed.

(** [read] of a document none of whose lines starts with [data_] raises
    [UnboundLocalError]: the local variable [data_block] is bound only
    by such a line, and it is read when the first category starts and
    after the last line.  This includes the empty document. *)
Theorem read_without_data_block (str_data : string) (self : PDBxFile) :
  Forall (fun line => pystr.startswith line "data_" = false)
    (pystr.split str_data (ascii_of_nat 10)) ->
  (read str_data self).2 = Raise UnboundLocalError.
Proof.
  intros Hlines. unfold read.
  set (lines := if bool_decide _ then _ else _).
  assert (Hall : Forall (fun line => _data_block_name line = None) lines).
  { assert (Hsplit : Forall (fun line => _data_block_name line = None)
                       (pystr.split str_data (ascii_of_nat 10))).
    { eapply Forall_impl; [exact Hlines|]. simpl. intros line Hline.
      unfold _data_block_name. rewrite Hline. reflexivity. }
    unfold lines. destruct (bool_decide _); [|exact Hsplit].
    apply Forall_removelast. exact Hsplit. }
  match goal with
  | |- context [read_loop lines 0 lines ?s0] =>
      destruct (read_loop_unbound lines lines 0 s0 Hall eq_refl)
        as [Hblock Hres]
  end.
  destruct (read_loop lines 0 lines _) as [s [[]|e]]; simpl in *.
  - rewrite Hblock. reflexivity.
  - destruct Hres as [Hres|Hres]; [discriminate|]. exact Hres.
Qed.

Lemma read_without_data_block_witness :
  (read (document ["_cat.x 1"; "_cat.y 2"]) new_PDBxFile).2
  = Raise UnboundLocalError.
Proof.
  apply (read_without_data_block (document ["_cat.x 1"; "_cat.y 2"])
           new_PDBxFile).
  vm_compute. repeat constructor.
Defined.

(** ** The names of the data blocks (file.py, [get_block_names]) *)

Lemma block_names_foldl (keys : list (string * string)) (acc : list string) :
  let blocks :=
    foldl
      (fun blocks (category_tuple : string * string) =>
         let block := category_tuple.1 in
         if bool_decide (block ∈ blocks) then blocks else blocks ++ [block])
      acc keys in
  (NoDup acc -> NoDup blocks)
  /\ (forall b, b ∈ blocks <-> b ∈ acc \/ b ∈ fst <$> keys)
  /\ (forall k, k < length acc -> blocks !! k = acc !! k).
Proof.
  revert acc. induction keys as [|[b0 c0] keys IH]; intros acc; simpl.
  - split; [auto|]. split; [|auto].
    intros b. split; [auto|]. intros [H|H]; [exact H|inversion H].
  - destruct (bool_decide_reflect (b0 ∈ acc)) as [Hin|Hnotin].
    + destruct (IH acc) as (Hnodup & Hmem & Hpre).
      split; [exact Hnodup|]. split; [|exact Hpre].
      intros b. rewrite Hmem, elem_of_cons. split.
      * intros [H|H]; auto.
      * intros [H|[->|H]]; auto.
    + destruct (IH (acc ++ [b0])) as (Hnodup & Hmem & Hpre).
      split; [|split].
      * intros Hacc. apply Hnodup. apply NoDup_app. split; [exact Hacc|].
        split; [|apply NoDup_singleton].
        intros x Hx Hx'. apply list_elem_of_singleton in Hx'. subst x.
        contradiction.
      * intros b. rewrite Hmem, elem_of_app, list_elem_of_singleton, elem_of_cons.
        tauto.
      * intros k Hk. rewrite Hpre by (rewrite length_app; simpl; lia).
        apply lookup_app_l. exact Hk.
Qed.

(** The first name is the block of the first category of the index. *)
Lemma get_block_names_first (self : PDBxFile) :
  get_block_names self !! 0
  = (fun entry : (string * string) * CategoryInfo => entry.1.1)
      <$> _categories self !! 0.
Proof.
  unfold get_block_names, PyDict.keys.
  destruct (_categories self) as [|[[b c] info] rest]; simpl; [reflexivity|].
  destruct (block_names_foldl (fst <$> rest) [b]) as (_ & _ & Hpre).
  apply (Hpre 0). simpl. lia.
Qed.

Lemma get_block_names_elem (self : PDBxFile) (b : string) :
  b ∈ get_block_names self
  <-> exists category info, ((b, category), info) ∈ _categories self.
Proof.
  unfold get_block_names.
  destruct (block_names_foldl (PyDict.keys (_categories self)) [])
    as (_ & Hmem & _).
  rewrite Hmem. unfold PyDict.keys. split.
  - intros [H|H]; [inversion H|].
    apply list_elem_of_fmap in H as (k & -> & Hk).
    apply list_elem_of_fmap in Hk as ([[b c] info] & -> & Hin).
    exists c, info. exact Hin.
  - intros (c & info & Hin). right.
    apply list_elem_of_fmap. exists (b, c). split; [reflexivity|].
    apply list_elem_of_fmap. exists ((b, c), info). auto.
Qed.

(** [get_block_names] lists every data block that has a category in the
    index exactly once, and nothing else; the first name, which is the
    default block of [get_category] and [set_category], is the block of
    the first category of the index. *)
Theorem get_block_names_spec (self : PDBxFile) :
  NoDup (get_block_names self)
  /\ (forall b,
        b ∈ get_block_names self
        <-> exists category info, ((b, category), info) ∈ _categories self)
  /\ get_block_names self !! 0
     = (fun entry : (string * string) * CategoryInfo => entry.1.1)
         <$> _categories self !! 0.
Proof.
  split; [|split].
  - unfold get_block_names.
    destruct (block_names_foldl (PyDict.keys (_categories self)) [])
      as (Hnodup & _ & _).
    apply Hnodup, NoDup_nil_2.
  - apply get_block_names_elem.
  - apply get_block_names_first.
Qed.


(** ** Writing a category and reading it back (file.py, [set_category]
    and [get_category]) *)

Lemma PyDict_get_set_eq {K V : Type} `{EqDecision K} (d : list (K * V))
    (k : K) (v : V) :
  PyDict.get (PyDict.set d k v) k = Some v.
Proof.
  induction d as [|[k0 v0] d IH]; simpl.
  - destruct (decide (k = k)); [reflexivity|contradiction].
  - destruct (decide (k0 = k)) as [->|Hne]; simpl.
    + destruct (decide (k = k)); [reflexivity|contradiction].
    + destruct (decide (k0 = k)); [contradiction|exact IH].
Qed.

Lemma last_stop_of_bounds keep categories (n : Z) :
  Forall (fun entry : (string * string) * CategoryInfo => (stop entry.2 <= n)%Z)
    categories ->
  (0 <= n)%Z ->
  (0 <= last_stop_of keep categories <= n)%Z.
Proof.
  intros Hall Hn. unfold last_stop_of.
  assert (Hgen : forall acc : Z, (0 <= acc <= n)%Z ->
            (0 <= foldl
                    (fun last_stop (entry : (string * string) * CategoryInfo) =>
                       if keep entry.1 && (last_stop <? stop entry.2)%Z
                       then stop entry.2 else last_stop)
                    acc categories <= n)%Z).
  { induction Hall as [|entry categories Hentry _ IH]; intros acc Hacc; simpl;
      [exact Hacc|].
    apply IH.
    destruct (keep entry.1 && (acc <? stop entry.2)%Z) eqn:E; [|exact Hacc].
    apply andb_true_iff in E as [_ E]. apply Z.ltb_lt in E. lia. }
  apply Hgen. lia.
Qed.

(** The lines inserted by [l[a:a] = pre + new] stand at [a + len(pre)]. *)
Lemma slice_insert_slice {A : Type} (l pre new : list A) (a : Z) :
  (0 <= a <= Z.of_nat (length l))%Z ->
  pylist.slice (pylist.insert_slice l a (pre ++ new))
    (a + Z.of_nat (length pre))
    (a + Z.of_nat (length pre) + Z.of_nat (length new))
  = new.
Proof.
  intros Ha. unfold pylist.slice.
  rewrite length_insert_slice, length_app.
  rewrite !slice_index_in_range by lia.
  unfold pylist.insert_slice. rewrite slice_index_in_range by lia.
  replace (Z.to_nat (a + Z.of_nat (length pre)))
    with (length (take (Z.to_nat a) l ++ pre))
    by (rewrite length_app, length_take; lia).
  rewrite <- app_assoc.
  rewrite (app_assoc (take (Z.to_nat a) l) pre).
  rewrite drop_app_length.
  replace (Z.to_nat (a + Z.of_nat (length pre) + Z.of_nat (length new))
           - length (take (Z.to_nat a) l ++ pre))
    with (length new)
    by (rewrite length_app, length_take; lia).
  apply take_app_length.
Qed.

Section StoredLines.
Context `{Sh : Shlex}.

(** What a call of [set_category] that returns has done: the index
    holds the category, and its range holds the lines written. *)
Lemma set_category_inv (self self' : PDBxFile) (category : string)
    (category_dict : CategoryDict) (block : option string) (quote : bool) :
  index_consistent self ->
  set_category category category_dict block quote self = (self', Ok tt) ->
  exists b new_lines info,
    default_block self block = Ok b
    /\ new_lines_of category category_dict quote = Ok new_lines
    /\ PyDict.get (_categories self') (b, category) = Some info
    /\ loop info = is_loop_dict category_dict
    /\ multiline info = false
    /\ (0 <= start info)%Z
    /\ stop info = (start info + Z.of_nat (length new_lines))%Z
    /\ (stop info <= Z.of_nat (length (_lines self')))%Z
    /\ pylist.slice (_lines self') (start info) (stop info) = new_lines
    /\ exists category_start len_diff info0,
         _categories self'
         = shift_after category_start len_diff
             (PyDict.set (_categories self) (b, category) info0).
Proof.
  intros Hwf Hset. unfold set_category in Hset.
  match type of Hset with
  | context [match ?c with Ok _ => _ | Raise _ => _ end] =>
      destruct c as [[[b is_looped] new_lines]|e] eqn:Hcomputed
  end; [|discriminate].
  assert (Hfacts : default_block self block = Ok b
                   /\ is_looped = is_loop_dict category_dict
                   /\ new_lines_of category category_dict quote = Ok new_lines).
  { destruct (default_block self block) as [b0|e]; simpl in Hcomputed;
      [|discriminate].
    unfold new_lines_of.
    destruct category_dict as [d|d];
      (destruct (getitem d 0); simpl in Hcomputed; [|discriminate]).
    - destruct quote; simpl in *; injection Hcomputed as <- <- <-; auto.
    - destruct quote; simpl in *;
        (destruct (render_looped category _) as [body|e]; simpl in *;
         [|discriminate]);
        injection Hcomputed as <- <- <-; auto. }
  destruct Hfacts as (Hblock & -> & Hlines). clear Hcomputed.
  exists b, new_lines.
  assert (Hstops : Forall
            (fun entry : (string * string) * CategoryInfo =>
               (stop entry.2 <= Z.of_nat (length (_lines self)))%Z)
            (_categories self)).
  { eapply Forall_impl; [exact Hwf|]. simpl. intros entry [_ H]. exact H. }
  destruct (PyDict.get (_categories self) (b, category)) as [old|] eqn:Hold.
  - destruct (index_consistent_get _ _ _ Hwf Hold) as [Hold_range Hold_stop].
    injection Hset as <-. simpl.
    eexists. split; [exact Hblock|]. split; [exact Hlines|].
    split.
    { rewrite (get_shift_after _ _ _ (b, category) _ (PyDict_get_set_eq _ _ _)).
      simpl. rewrite Z.ltb_irrefl. reflexivity. }
    simpl. split; [reflexivity|]. split; [reflexivity|].
    split; [lia|]. split; [reflexivity|].
    pose proof (length_del_slice (_lines self) (start old) (stop old)
                  ltac:(lia) Hold_stop) as Hdel.
    split.
    { rewrite length_insert_slice. lia. }
    pose proof (slice_insert_slice
                  (pylist.del_slice (_lines self) (start old) (stop old))
                  [] new_lines (start old) ltac:(lia)) as Hslice.
    split; [|eexists _, _, _; reflexivity].
    simpl in Hslice. rewrite Z.add_0_r in Hslice. exact Hslice.
  - destruct (bool_decide (b ∈ get_block_names self)).
    + pose proof (last_stop_of_bounds (fun key => bool_decide (b = key.1))
                    _ _ Hstops ltac:(lia)) as Hlast.
      injection Hset as <-. simpl.
      eexists. split; [exact Hblock|]. split; [exact Hlines|].
      split.
      { rewrite (get_shift_after _ _ _ (b, category) _ (PyDict_get_set_eq _ _ _)).
        simpl. rewrite Z.ltb_irrefl. reflexivity. }
      simpl. split; [reflexivity|]. split; [reflexivity|].
      split; [lia|]. split; [reflexivity|].
      split.
      { rewrite length_insert_slice. lia. }
      pose proof (slice_insert_slice (_lines self) [] new_lines _ Hlast)
        as Hslice.
      split; [|eexists _, _, _; reflexivity].
    simpl in Hslice. rewrite Z.add_0_r in Hslice. exact Hslice.
    + pose proof (last_stop_of_bounds (fun _ => true)
                    _ _ Hstops ltac:(lia)) as Hlast.
      injection Hset as <-. simpl.
      eexists. split; [exact Hblock|]. split; [exact Hlines|].
      split.
      { rewrite (get_shift_after _ _ _ (b, category) _ (PyDict_get_set_eq _ _ _)).
        simpl. rewrite Z.ltb_irrefl. reflexivity. }
      simpl. split; [reflexivity|]. split; [reflexivity|].
      split; [lia|]. split; [lia|].
      split.
      { rewrite length_insert_slice. simpl. lia. }
      pose proof (slice_insert_slice (_lines self)
                    [("data_" ++ b)%string; "#"] new_lines _ Hlast) as Hslice.
      split; [|eexists _, _, _; reflexivity].
      simpl in Hslice.
      replace (last_stop_of (fun _ => true) (_categories self)
               + Z.of_nat (S (S (length new_lines))))%Z
        with (last_stop_of (fun _ => true) (_categories self) + Z.of_nat 2
              + Z.of_nat (length new_lines))%Z by lia.
      exact Hslice.
Qed.


End StoredLines.




Lemma split_chars_no_sep (sep : ascii) (l cur : list ascii) :
  sep ∉ l ->
  pystr.split_chars sep l cur = [string_of_list_ascii (rev cur ++ l)].
Proof.
  revert cur. induction l as [|c l IH]; intros cur Hsep; simpl.
  - rewrite app_nil_r. reflexivity.
  - apply not_elem_of_cons in Hsep as [Hne Hsep].
    destruct (Ascii.eqb_spec c sep) as [->|_]; [contradiction|].
    rewrite (IH (c :: cur) Hsep). simpl. rewrite <- app_assoc. reflexivity.
Qed.

(** [str.strip()] removes more than blanks and tabs: the separators 28
    to 31, the next-line control and the no-break space go as well, at
    both ends and only there. *)
Lemma strip_whitespace_examples :
  pystr.strip (String "v" (String (ascii_of_nat 31) EmptyString)) = "v"
  /\ pystr.strip
       (String (ascii_of_nat 160)
          (String "a" (String (ascii_of_nat 28)
             (String "b" (String (ascii_of_nat 133) EmptyString)))))
     = String "a" (String (ascii_of_nat 28) "b")
  /\ pystr.strip " _c.k  v  " = "_c.k  v".
Proof. repeat split; vm_compute; reflexivity. Qed.

(** The key of a line [_category.key value], as
    [parts[0].split(".")[1]] finds it. *)
Lemma split_key (category key : string) :
  no_dot category -> no_dot key ->
  pystr.split ("_" ++ category ++ "." ++ key) "."%char
  = [("_" ++ category)%string; key].
Proof.
  unfold no_dot, pystr.split. intros Hcategory Hkey.
  rewrite !list_ascii_of_string_app. simpl.
  rewrite (split_chars_line _ _ _ ["_"%char] Hcategory). simpl.
  rewrite string_of_list_ascii_of_string.
  rewrite (split_chars_no_sep _ _ [] Hkey). simpl.
  rewrite string_of_list_ascii_of_string. reflexivity.
Qed.

(** [PyDict.set] and the last loop of [set_category] keep the block of
    the first entry of a dictionary that has one. *)
Lemma first_block_shift_after category_start len_diff categories key info :
  categories <> [] ->
  (fun entry : (string * string) * CategoryInfo => entry.1.1)
    <$> shift_after category_start len_diff (PyDict.set categories key info) !! 0
  = (fun entry : (string * string) * CategoryInfo => entry.1.1)
      <$> categories !! 0.
Proof.
  intros Hne. destruct categories as [|[k0 v0] categories]; [contradiction|].
  unfold shift_after, PyDict.map_values. simpl.
  destruct (decide (k0 = key)) as [->|_]; reflexivity.
Qed.

Section RoundTrip.
Context `{Sh : Shlex}.

(** The default block is the same after [set_category]. *)
Lemma default_block_set_category (self self' : PDBxFile) (category : string)
    (category_dict : CategoryDict) (block : option string) (quote : bool)
    (b : string) :
  index_consistent self ->
  set_category category category_dict block quote self = (self', Ok tt) ->
  default_block self block = Ok b ->
  default_block self' block = Ok b.
Proof.
  intros Hwf Hset Hblock.
  destruct block as [b0|]; [exact Hblock|].
  destruct (set_category_inv _ _ _ _ _ _ Hwf Hset)
    as (b' & new_lines & info & _ & _ & _ & _ & _ & _ & _ & _ & _
        & cs & ld & info0 & Hcats).
  unfold default_block, getitem in *.
  rewrite get_block_names_first in *.
  assert (Hne : _categories self <> []).
  { intros Hnil. rewrite Hnil in Hblock. discriminate. }
  rewrite Hcats, (first_block_shift_after _ _ _ _ _ Hne). exact Hblock.
Qed.

(** The lines of a single-valued category pass the filter of
    [get_category]; the closing comment line does not. *)
Lemma filter_render_single (category : string) (d : list (string * string)) :
  List.filter
    (fun line => negb (_is_empty line) && negb (_is_loop_start line))
    (render_single category d ++ ["#"])
  = render_single category d.
Proof.
  unfold render_single.
  set (req_len := _ + 3). clearbody req_len.
  induction d as [|[k v] d IH]; simpl; [reflexivity|].
  f_equal. exact IH.
Qed.

(** [_process_singlevalued] on lines that [shlex.split] cuts into the
    key token and the value. *)
Lemma _process_singlevalued_lines (category : string)
    (lines : list string) (d acc : list (string * string)) :
  no_dot category ->
  Forall no_dot (PyDict.keys d) ->
  NoDup (PyDict.keys (acc ++ d)) ->
  Forall2
    (fun line (kv : string * string) =>
       shlex_split line = Ok [("_" ++ category ++ "." ++ kv.1)%string; kv.2])
    lines d ->
  foldl
    (fun acc line =>
       let* category_dict := acc in
       let* parts := shlex_split line in
       let* part0 := getitem parts 0 in
       let* key := getitem (pystr.split part0 "."%char) 1 in
       let* value := getitem parts 1 in
       Ok (PyDict.set category_dict key value))
    (Ok acc) lines
  = Ok (acc ++ d).
Proof.
  intros Hcategory Hkeys Hnodup Hlines. revert acc Hkeys Hnodup.
  induction Hlines as [|line [k v] lines d Hline _ IH]; intros acc Hkeys Hnodup;
    simpl.
  - rewrite app_nil_r. reflexivity.
  - rewrite Hline. simpl. unfold getitem at 1. simpl.
    unfold PyDict.keys in Hkeys. simpl in Hkeys.
    apply Forall_cons in Hkeys as [Hk Hkeys].
    rewrite (split_key category k Hcategory Hk). simpl.
    unfold getitem. simpl.
    rewrite PyDict_set_fresh.
    + replace (acc ++ (k, v) :: d) with ((acc ++ [(k, v)]) ++ d)
        by (rewrite <- app_assoc; reflexivity).
      apply IH; [exact Hkeys|].
      rewrite <- app_assoc. exact Hnodup.
    + unfold PyDict.keys in *. rewrite fmap_app in Hnodup. simpl in Hnodup.
      apply NoDup_app in Hnodup as (_ & Hdisjoint & _).
      intros Hin. apply (Hdisjoint k Hin). left.
Qed.

(** A single-valued category written by [set_category] is read back by
    [get_category] as the dictionary that was given, provided the keys
    are distinct, neither the category name nor a key holds a dot, and
    [shlex.split] cuts every written line into the key token and the
    value that was given (with [quote], it undoes [shlex.quote]). *)
Theorem set_category_get_category_single (self self' : PDBxFile)
    (category : string) (d : list (string * string)) (block : option string)
    (quote : bool) :
  index_consistent self ->
  NoDup (PyDict.keys d) ->
  no_dot category ->
  Forall no_dot (PyDict.keys d) ->
  Forall2
    (fun line (kv : string * string) =>
       shlex_split (pystr.strip line)
       = Ok [("_" ++ category ++ "." ++ kv.1)%string; kv.2])
    (render_single category
       (if quote then PyDict.map_values shlex_quote d else d)) d ->
  set_category category (SingleDict d) block quote self = (self', Ok tt) ->
  get_category self' category block = Ok (SingleCategory d).
Proof.
  intros Hwf Hnodup Hcategory Hkeys Hparse Hset.
  destruct (set_category_inv _ _ _ _ _ _ Hwf Hset)
    as (b & new_lines & info & Hblock & Hlines & Hget & Hloop & Hmulti
        & _ & _ & _ & Hslice & _).
  unfold get_category.
  rewrite (default_block_set_category _ _ _ _ _ _ _ Hwf Hset Hblock). simpl.
  rewrite Hget. simpl. rewrite Hloop, Hmulti, Hslice. simpl.
  unfold new_lines_of in Hlines. simpl in Hlines. injection Hlines as <-.
  rewrite filter_render_single.
  unfold _process_singlevalued.
  rewrite (_process_singlevalued_lines category _ d []); try assumption.
  - reflexivity.
  - apply Forall2_fmap_l. exact Hparse.
Qed.

End RoundTrip.

Lemma set_category_get_category_single_witness :
  get_category (Sh := plain_shlex)
    (set_category (Sh := plain_shlex) "new"
       (SingleDict [("k", "v"); ("long", "w")]) None true
       three_category_file).1 "new" None
  = Ok (SingleCategory [("k", "v"); ("long", "w")]).
Proof.
  apply (set_category_get_category_single (Sh := plain_shlex)
           three_category_file _ "new" [("k", "v"); ("long", "w")] None true).
  - exact three_category_file_consistent.
  - apply (bool_decide_unpack (NoDup ["k"; "long"])). vm_compute. exact I.
  - apply (bool_decide_unpack
             ("."%char ∉ list_ascii_of_string "new")). vm_compute. exact I.
  - apply (bool_decide_unpack
             (Forall (fun s => "."%char ∉ list_ascii_of_string s)
                ["k"; "long"])). vm_compute. exact I.
  - repeat constructor.
  - vm_compute. reflexivity.
Defined.


(** ** Multiline values (file.py, [get_category]) *)

Lemma string_app_assoc (s1 s2 s3 : string) :
  ((s1 ++ s2) ++ s3 = s1 ++ (s2 ++ s3))%string.
Proof.
  induction s1 as [|c s1 IH]; [reflexivity|].
  change (String c ((s1 ++ s2) ++ s3) = String c (s1 ++ (s2 ++ s3)))%string.
  f_equal. exact IH.
Qed.

(** Inside a semicolon block every line is appended to the entry open
    before the block, up to the line [";"], which closes the quotation. *)
Lemma merge_multiline_inside (is_loop : bool) (body rest lines : list string)
    (l : string) :
  Forall (fun line => line <> ";") body ->
  merge_multiline is_loop (body ++ ";" :: rest) (lines ++ [l]) true
  = merge_multiline is_loop rest
      (lines ++ [(l ++ join_lines body ++ "'")%string]) false.
Proof.
  intros Hbody. revert l.
  induction Hbody as [|line body Hline _ IH]; intros l; simpl.
  - unfold add_to_last. rewrite last_snoc, removelast_last. reflexivity.
  - destruct (String.eqb_spec line ";") as [Habs|_]; [contradiction|].
    unfold add_to_last at 1. rewrite last_snoc, removelast_last. simpl.
    rewrite IH. rewrite !string_app_assoc. reflexivity.
Qed.

(** A value given as a semicolon block is folded into the line before
    it: the text after the opening semicolon and the following lines, up
    to the line [";"], are joined without separators, put between single
    quotes and appended to the previous entry after one blank.  Without a
    previous entry the addition raises [TypeError]. *)
Theorem merge_multiline_semicolon_block (is_loop : bool) (text : string)
    (body rest lines : list string) :
  Forall (fun line => line <> ";") body ->
  merge_multiline is_loop ((";" ++ text)%string :: body ++ ";" :: rest) lines
    false
  = match last lines with
    | Some l =>
        merge_multiline is_loop rest
          (removelast lines
           ++ [(l ++ " '" ++ text ++ join_lines body ++ "'")%string]) false
    | None => Raise TypeError
    end.
Proof.
  intros Hbody. simpl.
  unfold add_to_last.
  destruct (last lines) as [l|] eqn:Hlast; simpl; [|reflexivity].
  rewrite merge_multiline_inside by exact Hbody.
  unfold pystr.slice_from. simpl. rewrite Nat.sub_0_r.
  assert (Hsub : forall s : string, substring 0 (String.length s) s = s).
  { induction s as [|c s IH]; simpl; [reflexivity|]. f_equal. exact IH. }
  rewrite Hsub, !string_app_assoc. reflexivity.
Qed.

Lemma merge_multiline_semicolon_block_witness :
  merge_multiline false
    ((";" ++ "first ")%string :: ["second"] ++ ";" :: ["_c.b 2"]) ["_c.a"]
    false
  = match last ["_c.a"] with
    | Some l =>
        merge_multiline false ["_c.b 2"]
          (removelast ["_c.a"]
           ++ [(l ++ " '" ++ "first " ++ join_lines ["second"] ++ "'")%string])
          false
    | None => Raise TypeError
    end.
Proof.
  apply (merge_multiline_semicolon_block false "first "
           ["second"] ["_c.b 2"] ["_c.a"]).
  repeat constructor; discriminate.
Defined.

(** ** The two strategies at the level of [hbond] *)

Section StrategiesCompared.
Context `{G : Geometry}.

(** With the same content of the arrays [np.empty] allocates, [hbond]
    computes the same under both strategies. *)
Lemma hbond_vectorized_irrelevant mem atoms selection1 selection2
    selection1_type cutoff_dist cutoff_angle donor_elements acceptor_elements :
  hbond mem atoms selection1 selection2 selection1_type
    cutoff_dist cutoff_angle donor_elements acceptor_elements true
  = hbond mem atoms selection1 selection2 selection1_type
      cutoff_dist cutoff_angle donor_elements acceptor_elements false.
Proof.
  unfold hbond, build_donor_acceptor_selections.
  destruct atoms as [a|s];
    (destruct (String.eqb selection1_type "both");
     [|destruct (String.eqb selection1_type "acceptor");
       [|destruct (String.eqb selection1_type "donor")]]);
    simpl; try reflexivity;
    rewrite _hbond_vectorized_irrelevant;
    (match goal with
     | |- context [bind ?r _] => destruct r as [[t1 m1]|e]
     end);
    simpl; try reflexivity;
    (match goal with
     | |- context [negb ?c] => destruct c
     end);
    simpl; try reflexivity;
    rewrite _hbond_vectorized_irrelevant; reflexivity.
Qed.

(** The triplets [hbond] returns, and the error it raises, do not depend
    on what [np.empty] finds in memory. *)
Lemma hbond_triplets_mem mem mem' atoms selection1 selection2
    selection1_type cutoff_dist cutoff_angle donor_elements acceptor_elements
    vectorized :
  result_map result_triplets
    (hbond mem atoms selection1 selection2 selection1_type
       cutoff_dist cutoff_angle donor_elements acceptor_elements vectorized)
  = result_map result_triplets
      (hbond mem' atoms selection1 selection2 selection1_type
         cutoff_dist cutoff_angle donor_elements acceptor_elements vectorized).
Proof.
  unfold hbond.
  set (stk := match atoms with Single a => stack1 a | Stack s => s end).
  set (single := match atoms with Single _ => true | Stack _ => false end).
  assert (Hsplit :
            match atoms with
            | Single a => (stack1 a, true)
            | Stack s => (s, false)
            end = (stk, single)) by (destruct atoms; reflexivity).
  rewrite Hsplit. clear Hsplit. cbv beta iota zeta.
  match goal with
  | |- context [bind ?c _] => destruct c as [selection2_type|e]
  end; [|reflexivity].
  assert (Hbind : forall (A B : Type) (a : A) (k : A -> result B),
            bind (Ok a) k = k a) by reflexivity.
  rewrite !Hbind. clear Hbind.
  destruct (build_donor_acceptor_selections (stack_array_length stk)
              selection1 selection1_type) as [d1 a1].
  destruct (build_donor_acceptor_selections (stack_array_length stk)
              selection2 selection2_type) as [d2 a2].
  pose proof (_hbond_triplets_mem (mem 0) (mem' 0) stk d1 a2 cutoff_dist
                cutoff_angle donor_elements acceptor_elements vectorized)
    as Hpass1.
  destruct (_hbond (mem 0) stk d1 a2 cutoff_dist cutoff_angle donor_elements
              acceptor_elements vectorized) as [[t1 m1]|e1];
    destruct (_hbond (mem' 0) stk d1 a2 cutoff_dist cutoff_angle
                donor_elements acceptor_elements vectorized)
      as [[t1' m1']|e1'];
    simpl in Hpass1; try discriminate.
  2:{ injection Hpass1 as ->. reflexivity. }
  injection Hpass1 as <-. simpl.
  destruct (negb _).
  2:{ simpl. destruct single; reflexivity. }
  pose proof (_hbond_triplets_mem (mem 1) (mem' 1) stk d2 a1 cutoff_dist
                cutoff_angle donor_elements acceptor_elements vectorized)
    as Hpass2.
  destruct (_hbond (mem 1) stk d2 a1 cutoff_dist cutoff_angle donor_elements
              acceptor_elements vectorized) as [[t2 m2]|e2];
    destruct (_hbond (mem' 1) stk d2 a1 cutoff_dist cutoff_angle
                donor_elements acceptor_elements vectorized)
      as [[t2' m2']|e2'];
    simpl in Hpass2; try discriminate.
  2:{ injection Hpass2 as ->. reflexivity. }
  injection Hpass2 as <-. simpl.
  destruct (0 <? length (t1 ++ t2)); simpl.
  - destruct (np_unique.unique_rows (t1 ++ t2)) as [u idx]. simpl.
    destruct single; reflexivity.
  - destruct single; reflexivity.
Qed.

(** C2.  The vectorized strategy and the per-model loop are claimed to
    give identical masks, and [hbond] to return equal results with
    [vectorized=True] and with [vectorized=False].  The first part holds:
    for every list of candidate triplets and every ensemble of at least
    one model the two strategies give the same boolean matrix (or raise
    the same error), and one directional search computes the same under
    both.  The second part holds for the triplets, and for the whole
    result as long as the arrays [np.empty] allocates read the same in
    both calls ([mem] for both).  It fails for the mask: a search that
    finds no candidate returns the uninitialised array, whose content is
    not determined by the input ([mem] in one call, [mem'] in the other).
    On two models of one carbon atom each call returns its own array as
    the mask, and on the N-H...O ensemble with the oxygen as selection1
    of type 'acceptor' the column of the triplet (0, 1, 2) is read from
    it; the two results differ as soon as the two memories do. *)
Theorem hbond_vectorized_equivalence
    (mem mem' : nat -> nat -> nat -> bool) (atoms : Structure)
    (selection1 selection2 : option (list bool)) (selection1_type : string)
    (cutoff_dist cutoff_angle : Q)
    (donor_elements acceptor_elements : list string) :
  (forall (ensemble : AtomArrayStack) (triplets : list triplet),
     0 < stack_depth ensemble ->
     hbond_mask_vectorized ensemble triplets cutoff_dist cutoff_angle
     = hbond_mask_frames ensemble triplets cutoff_dist cutoff_angle)
  /\ (forall (mem1 : nat -> nat -> bool) (ensemble : AtomArrayStack)
             (donor_selection acceptor_selection : list bool),
        _hbond mem1 ensemble donor_selection acceptor_selection
          cutoff_dist cutoff_angle donor_elements acceptor_elements true
        = _hbond mem1 ensemble donor_selection acceptor_selection
            cutoff_dist cutoff_angle donor_elements acceptor_elements false)
  /\ hbond mem atoms selection1 selection2 selection1_type
       cutoff_dist cutoff_angle donor_elements acceptor_elements true
     = hbond mem atoms selection1 selection2 selection1_type
         cutoff_dist cutoff_angle donor_elements acceptor_elements false
  /\ result_map result_triplets
       (hbond mem atoms selection1 selection2 selection1_type
          cutoff_dist cutoff_angle donor_elements acceptor_elements true)
     = result_map result_triplets
         (hbond mem' atoms selection1 selection2 selection1_type
            cutoff_dist cutoff_angle donor_elements acceptor_elements false)
  /\ (forall p : point,
        hbond mem (Stack (carbon_stack p)) None None "both"
          default_cutoff_dist default_cutoff_angle
          default_elements default_elements true
        = Ok (TripletsMask []
                [[mem 0 0 0; mem 0 0 1; mem 0 0 2];
                 [mem 0 1 0; mem 0 1 1; mem 0 1 2]])
        /\ hbond mem' (Stack (carbon_stack p)) None None "both"
             default_cutoff_dist default_cutoff_angle
             default_elements default_elements false
           = Ok (TripletsMask []
                   [[mem' 0 0 0; mem' 0 0 1; mem' 0 0 2];
                    [mem' 0 1 0; mem' 0 1 1; mem' 0 1 2]]))
  /\ (hbond (G := line_geometry) mem (Stack nho_stack)
        (Some [false; false; true]) (Some [true; true; false]) "acceptor"
        default_cutoff_dist default_cutoff_angle
        default_elements default_elements true
      = Ok (TripletsMask [(0, 1, 2)] [[mem 0 0 0]; [mem 0 1 0]])
      /\ hbond (G := line_geometry) mem' (Stack nho_stack)
           (Some [false; false; true]) (Some [true; true; false]) "acceptor"
           default_cutoff_dist default_cutoff_angle
           default_elements default_elements false
         = Ok (TripletsMask [(0, 1, 2)] [[mem' 0 0 0]; [mem' 0 1 0]]))
  /\ (mem 0 0 0 <> mem' 0 0 0 ->
      (forall p : point,
         hbond mem (Stack (carbon_stack p)) None None "both"
           default_cutoff_dist default_cutoff_angle
           default_elements default_elements true
         <> hbond mem' (Stack (carbon_stack p)) None None "both"
              default_cutoff_dist default_cutoff_angle
              default_elements default_elements false)
      /\ hbond (G := line_geometry) mem (Stack nho_stack)
           (Some [false; false; true]) (Some [true; true; false]) "acceptor"
           default_cutoff_dist default_cutoff_angle
           default_elements default_elements true
         <> hbond (G := line_geometry) mem' (Stack nho_stack)
              (Some [false; false; true]) (Some [true; true; false])
              "acceptor" default_cutoff_dist default_cutoff_angle
              default_elements default_elements false).
Proof.
  assert (Hcarbon : forall (m : nat -> nat -> nat -> bool) (v : bool)
                      (p : point),
            hbond m (Stack (carbon_stack p)) None None "both"
              default_cutoff_dist default_cutoff_angle
              default_elements default_elements v
            = Ok (TripletsMask []
                    [[m 0 0 0; m 0 0 1; m 0 0 2];
                     [m 0 1 0; m 0 1 1; m 0 1 2]])).
  { intros m v p. destruct v; vm_compute; reflexivity. }
  assert (Hnho : forall (m : nat -> nat -> nat -> bool) (v : bool),
            hbond (G := line_geometry) m (Stack nho_stack)
              (Some [false; false; true]) (Some [true; true; false])
              "acceptor" default_cutoff_dist default_cutoff_angle
              default_elements default_elements v
            = Ok (TripletsMask [(0, 1, 2)] [[m 0 0 0]; [m 0 1 0]])).
  { intros m v. destruct v; vm_compute; reflexivity. }
  split; [|split; [|split; [|split; [|split; [|split]]]]].
  - intros ensemble triplets Hdepth. symmetry.
    apply hbond_mask_frames_vectorized. exact Hdepth.
  - intros. apply _hbond_vectorized_irrelevant.
  - apply hbond_vectorized_irrelevant.
  - rewrite hbond_vectorized_irrelevant. apply hbond_triplets_mem.
  - intros p. split; apply Hcarbon.
  - split; apply Hnho.
  - intros Hdiff. split.
    + intros p. rewrite !Hcarbon. intros [= Heq _]. contradiction.
    + rewrite !Hnho. intros [= Heq _]. contradiction.
Qed.

End StrategiesCompared.

(** Memory that reads as [False] in one call and as [True] in the
    other. *)
Lemma hbond_vectorized_equivalence_witness :
  hbond_mask_vectorized nho_stack [(0, 1, 2)]
    default_cutoff_dist default_cutoff_angle
  = hbond_mask_frames nho_stack [(0, 1, 2)]
      default_cutoff_dist default_cutoff_angle
  /\ hbond (G := line_geometry) zero_memory (Stack (carbon_stack (on_line 0)))
       None None "both" default_cutoff_dist default_cutoff_angle
       default_elements default_elements true
     <> hbond (G := line_geometry) one_memory
          (Stack (carbon_stack (on_line 0))) None None "both"
          default_cutoff_dist default_cutoff_angle
          default_elements default_elements false.
Proof.
  destruct (hbond_vectorized_equivalence (G := line_geometry)
              zero_memory one_memory (Stack nho_stack) None None "both"
              default_cutoff_dist default_cutoff_angle
              default_elements default_elements)
    as (Hmask & _ & _ & _ & _ & _ & Hdiff).
  split.
  - apply Hmask. unfold nho_stack. simpl. lia.
  - destruct (Hdiff ltac:(discriminate)) as [Hcarbon _].
    apply (Hcarbon (on_line 0)).
Defined.


(** ** The triplets of [hbond] (hbond.py, [hbond]) *)

Lemma row_compare_eq (a b : triplet) :
  np_unique.row_compare a b = Eq <-> a = b.
Proof.
  destruct a as [[d h] a], b as [[d' h'] a'].
  unfold np_unique.row_compare, D_index, H_index, A_index. simpl.
  destruct (Nat.compare_spec d d') as [->|Hlt|Hgt].
  - destruct (Nat.compare_spec h h') as [->|Hlt|Hgt].
    + rewrite Nat.compare_eq_iff. split; [intros ->; reflexivity|].
      intros [= ->]. reflexivity.
    + split; [discriminate|]. intros [= ->]. lia.
    + split; [discriminate|]. intros [= ->]. lia.
  - split; [discriminate|]. intros [= -> _ _]. lia.
  - split; [discriminate|]. intros [= -> _ _]. lia.
Qed.

Lemma elem_of_insert_row (x y : triplet * nat) (l : list (triplet * nat)) :
  y ∈ np_unique.insert_row x l <-> y = x \/ y ∈ l.
Proof.
  induction l as [|z l IH]; simpl.
  - rewrite list_elem_of_singleton. split; [auto|].
    intros [H|H]; [exact H|inversion H].
  - destruct (np_unique.row_compare x.1 z.1);
      rewrite ?elem_of_cons; tauto.
Qed.

Lemma elem_of_sort_rows (y : triplet * nat) (l : list (triplet * nat)) :
  y ∈ np_unique.sort_rows l <-> y ∈ l.
Proof.
  unfold np_unique.sort_rows. induction l as [|x l IH]; simpl; [reflexivity|].
  rewrite elem_of_insert_row, IH, elem_of_cons. reflexivity.
Qed.

(** Dropping the repeats of a row keeps the rows that occur. *)
Lemma elem_of_drop_repeats (prev t : triplet) (l : list (triplet * nat)) :
  t = prev \/ t ∈ fst <$> np_unique.drop_repeats prev l
  <-> t = prev \/ t ∈ fst <$> l.
Proof.
  revert prev. induction l as [|y l IH]; intros prev; simpl; [reflexivity|].
  rewrite elem_of_cons.
  destruct (np_unique.row_compare prev y.1) eqn:Hcmp.
  - apply row_compare_eq in Hcmp. rewrite IH, <- Hcmp. tauto.
  - simpl. rewrite elem_of_cons.
    specialize (IH y.1). tauto.
  - simpl. rewrite elem_of_cons.
    specialize (IH y.1). tauto.
Qed.

(** [np.unique(rows, axis=0)] returns the rows that occur. *)
Lemma elem_of_unique_rows (t : triplet) (rows : list triplet) :
  t ∈ (np_unique.unique_rows rows).1 <-> t ∈ rows.
Proof.
  unfold np_unique.unique_rows. cbn [fst].
  set (sorted := np_unique.sort_rows (imap (fun i r => (r, i)) rows)).
  assert (Hsorted : t ∈ fst <$> sorted <-> t ∈ rows).
  { unfold sorted. rewrite !list_elem_of_fmap. split.
    - intros ([r i] & -> & Hin). rewrite elem_of_sort_rows in Hin.
      apply list_elem_of_lookup in Hin as [k Hk].
      rewrite list_lookup_imap in Hk.
      destruct (rows !! k) as [r'|] eqn:Hr; simpl in Hk; [|discriminate].
      injection Hk as <- _. simpl. eapply list_elem_of_lookup_2. exact Hr.
    - intros Hin. apply list_elem_of_lookup in Hin as [k Hk].
      exists (t, k). split; [reflexivity|].
      apply elem_of_sort_rows, list_elem_of_lookup. exists k.
      rewrite list_lookup_imap, Hk. reflexivity. }
  rewrite <- Hsorted. unfold np_unique.first_of_runs.
  destruct sorted as [|x l]; [reflexivity|].
  simpl. rewrite !elem_of_cons. apply elem_of_drop_repeats.
Qed.

Lemma build_selections_length (n : nat) (selection : option (list bool))
    (selection_type : string) :
  selection_fits n selection ->
  length (build_donor_acceptor_selections n selection selection_type).1 = n
  /\ length (build_donor_acceptor_selections n selection selection_type).2 = n.
Proof.
  unfold selection_fits, selection_mask, build_donor_acceptor_selections.
  intros Hfit.
  split; simpl;
    match goal with
    | |- context [if ?c then _ else _] => destruct c
    end; try exact Hfit; apply length_replicate.
Qed.

Section Union.
Context `{G : Geometry}.

(** No candidate has its donor in an empty selection. *)
Lemma candidate_triplet_no_donor atoms acceptor_selection donor_elements
    acceptor_elements n t :
  ~ candidate_triplet atoms (np.full n false) acceptor_selection
      donor_elements acceptor_elements t.
Proof.
  intros ((Hsel & _) & _). unfold np.full in Hsel.
  apply lookup_replicate in Hsel as [Habs _]. discriminate.
Qed.

(** The triplets of [hbond] are those of its two directional searches. *)
Lemma hbond_triplets_iff mem atoms selection1 selection2 selection1_type
    cutoff_dist cutoff_angle donor_elements acceptor_elements vectorized r
    selection2_type :
  selection_fits (stack_array_length (as_stack atoms)) selection1 ->
  selection_fits (stack_array_length (as_stack atoms)) selection2 ->
  selection2_type
  = (if String.eqb selection1_type "both" then "both"
     else if String.eqb selection1_type "acceptor" then "donor"
     else "acceptor") ->
  hbond mem atoms selection1 selection2 selection1_type cutoff_dist
    cutoff_angle donor_elements acceptor_elements vectorized = Ok r ->
  forall t,
    t ∈ result_triplets r
    <-> (candidate_triplet (as_stack atoms)
           (build_donor_acceptor_selections
              (stack_array_length (as_stack atoms)) selection1
              selection1_type).1
           (build_donor_acceptor_selections
              (stack_array_length (as_stack atoms)) selection2
              selection2_type).2
           donor_elements acceptor_elements t
         \/ candidate_triplet (as_stack atoms)
              (build_donor_acceptor_selections
                 (stack_array_length (as_stack atoms)) selection2
                 selection2_type).1
              (build_donor_acceptor_selections
                 (stack_array_length (as_stack atoms)) selection1
                 selection1_type).2
              donor_elements acceptor_elements t)
        /\ exists m, m < stack_depth (as_stack atoms)
                     /\ bond_in_model (as_stack atoms) cutoff_dist
                          cutoff_angle m t.
Proof.
  intros Hfit1 Hfit2 Htype2 Hrun t.
  unfold hbond in Hrun.
  set (single := match atoms with Single _ => true | Stack _ => false end).
  assert (Hsplit :
            match atoms with
            | Single a => (stack1 a, true)
            | Stack s => (s, false)
            end = (as_stack atoms, single))
    by (destruct atoms; reflexivity).
  rewrite Hsplit in Hrun. clear Hsplit. cbv beta iota zeta in Hrun.
  clearbody single.
  set (stk := as_stack atoms) in *. clearbody stk.
  set (n := stack_array_length stk) in *.
  destruct (build_selections_length n selection1 selection1_type Hfit1)
    as [Hd1 Ha1].
  destruct (build_selections_length n selection2 selection2_type Hfit2)
    as [Hd2 Ha2].
  assert (Htype : (if String.eqb selection1_type "both" then Ok selection1_type
                   else if String.eqb selection1_type "acceptor" then Ok "donor"
                   else if String.eqb selection1_type "donor"
                   then Ok "acceptor" else Raise ValueError)
                  = Ok selection2_type).
  { rewrite Htype2.
    destruct (String.eqb_spec selection1_type "both") as [->|_];
      [reflexivity|].
    destruct (String.eqb selection1_type "acceptor"); [reflexivity|].
    destruct (String.eqb selection1_type "donor"); [reflexivity|].
    discriminate Hrun. }
  rewrite Htype in Hrun. clear Htype.
  assert (Hbind : forall (A B : Type) (a : A) (k : A -> result B),
            bind (Ok a) k = k a) by reflexivity.
  rewrite Hbind in Hrun. clear Hbind.
  remember (build_donor_acceptor_selections n selection1 selection1_type)
    as b1 eqn:Hb1.
  remember (build_donor_acceptor_selections n selection2 selection2_type)
    as b2 eqn:Hb2.
  clear Hb1 Hb2.
  destruct b1 as [d1 a1], b2 as [d2 a2]. simpl in Hd1, Ha1, Hd2, Ha2.
  cbv beta iota zeta in Hrun. simpl fst. simpl snd.
  destruct (_hbond (mem 0) stk d1 a2 cutoff_dist cutoff_angle donor_elements
              acceptor_elements vectorized) as [[t1 m1]|e] eqn:Hpass1;
    simpl in Hrun; [|discriminate].
  pose proof (_hbond_triplets_iff _ _ _ _ _ _ _ _ _ _ _ Hd1 Ha2 Hpass1) as H1.
  destruct (np.array_equal d1 d2 && np.array_equal a1 a2) eqn:Hequal;
    simpl in Hrun.
  - apply andb_true_iff in Hequal as [Hd Ha].
    unfold np.array_equal in Hd, Ha.
    apply bool_decide_eq_true in Hd, Ha. subst d2 a2.
    assert (Hres : result_triplets r = t1).
    { destruct single; injection Hrun as <-; reflexivity. }
    rewrite Hres, H1. tauto.
  - destruct (_hbond (mem 1) stk d2 a1 cutoff_dist cutoff_angle donor_elements
                acceptor_elements vectorized) as [[t2 m2]|e] eqn:Hpass2;
      simpl in Hrun; [|discriminate].
    pose proof (_hbond_triplets_iff _ _ _ _ _ _ _ _ _ _ _ Hd2 Ha1 Hpass2)
      as H2.
    assert (Hres : t ∈ result_triplets r <-> t ∈ t1 ++ t2).
    { destruct (0 <? length (t1 ++ t2)) eqn:Hlen.
      - pose proof (elem_of_unique_rows t (t1 ++ t2)) as Hu.
        destruct single; injection Hrun as <-; exact Hu.
      - destruct single; injection Hrun as <-; reflexivity. }
    rewrite Hres, elem_of_app, H1, H2. tauto.
Qed.

(** [hbond] returns exactly the triplets (donor, hydrogen, acceptor) whose
    criterion holds in at least one model, the donor being taken from one
    selection and the acceptor from the other: with ['both'] in either
    direction, with ['donor'] the donor from [selection1] and the
    acceptor from [selection2], with ['acceptor'] the other way round.  A
    selection that is not given selects every atom. *)
Theorem hbond_triplets_characterised mem atoms selection1 selection2
    selection1_type cutoff_dist cutoff_angle donor_elements acceptor_elements
    vectorized r :
  selection_fits (stack_array_length (as_stack atoms)) selection1 ->
  selection_fits (stack_array_length (as_stack atoms)) selection2 ->
  hbond mem atoms selection1 selection2 selection1_type cutoff_dist
    cutoff_angle donor_elements acceptor_elements vectorized = Ok r ->
  forall t,
    t ∈ result_triplets r
    <-> ((selection1_type <> "acceptor"
          /\ candidate_triplet (as_stack atoms)
               (selection_mask (stack_array_length (as_stack atoms)) selection1)
               (selection_mask (stack_array_length (as_stack atoms)) selection2)
               donor_elements acceptor_elements t)
         \/ (selection1_type <> "donor"
             /\ candidate_triplet (as_stack atoms)
                  (selection_mask (stack_array_length (as_stack atoms))
                     selection2)
                  (selection_mask (stack_array_length (as_stack atoms))
                     selection1)
                  donor_elements acceptor_elements t))
        /\ exists m, m < stack_depth (as_stack atoms)
                     /\ bond_in_model (as_stack atoms) cutoff_dist
                          cutoff_angle m t.
Proof.
  intros Hfit1 Hfit2 Hrun t.
  rewrite (hbond_triplets_iff _ _ _ _ _ _ _ _ _ _ _ _ Hfit1 Hfit2 eq_refl Hrun).
  assert (Hknown : selection1_type = "both" \/ selection1_type = "acceptor"
                   \/ selection1_type = "donor").
  { unfold hbond in Hrun.
    destruct (String.eqb_spec selection1_type "both"); [auto|].
    destruct (String.eqb_spec selection1_type "acceptor"); [auto|].
    destruct (String.eqb_spec selection1_type "donor"); [auto|].
    destruct atoms; simpl in Hrun; discriminate. }
  unfold build_donor_acceptor_selections.
  fold (selection_mask (stack_array_length (as_stack atoms)) selection1).
  fold (selection_mask (stack_array_length (as_stack atoms)) selection2).
  destruct Hknown as [-> | [-> | ->]]; simpl.
  - split.
    + intros [[H|H] Hbond]; (split; [|exact Hbond]);
        [left|right]; (split; [discriminate|exact H]).
    + intros [[[_ H]|[_ H]] Hbond]; (split; [|exact Hbond]); auto.
  - split.
    + intros [[H|H] Hbond].
      * exfalso. eapply candidate_triplet_no_donor. exact H.
      * split; [|exact Hbond]. right. split; [discriminate|exact H].
    + intros [[[Habs _]|[_ H]] Hbond]; [contradiction|].
      split; [|exact Hbond]. right. exact H.
  - split.
    + intros [[H|H] Hbond].
      * split; [|exact Hbond]. left. split; [discriminate|exact H].
      * exfalso. eapply candidate_triplet_no_donor. exact H.
    + intros [[[_ H]|[Habs _]] Hbond]; [|contradiction].
      split; [|exact Hbond]. left. exact H.
Qed.

End Union.


(** The N-H...O ensemble with the nitrogen and its hydrogen as
    selection1 of type 'donor' and the oxygen as selection2. *)
Lemma hbond_triplets_characterised_witness :
  (0, 1, 2) ∈ result_triplets (TripletsMask [(0, 1, 2)] [[true]; [false]])
  <-> (("donor" <> "acceptor"
        /\ candidate_triplet (G := line_geometry) (as_stack (Stack nho_stack))
             (selection_mask
                (stack_array_length (as_stack (Stack nho_stack)))
                (Some [true; true; false]))
             (selection_mask
                (stack_array_length (as_stack (Stack nho_stack)))
                (Some [false; false; true]))
             default_elements default_elements (0, 1, 2))
       \/ ("donor" <> "donor"
           /\ candidate_triplet (G := line_geometry)
                (as_stack (Stack nho_stack))
                (selection_mask
                   (stack_array_length (as_stack (Stack nho_stack)))
                   (Some [false; false; true]))
                (selection_mask
                   (stack_array_length (as_stack (Stack nho_stack)))
                   (Some [true; true; false]))
                default_elements default_elements (0, 1, 2)))
      /\ exists m, m < stack_depth (as_stack (Stack nho_stack))
                   /\ bond_in_model (G := line_geometry)
                        (as_stack (Stack nho_stack))
                        default_cutoff_dist default_cutoff_angle m (0, 1, 2).
Proof.
  apply (hbond_triplets_characterised (G := line_geometry) zero_memory
           (Stack nho_stack) (Some [true; true; false])
           (Some [false; false; true]) "donor"
           default_cutoff_dist default_cutoff_angle
           default_elements default_elements true
           (TripletsMask [(0, 1, 2)] [[true]; [false]])).
  - reflexivity.
  - reflexivity.
  - vm_compute. reflexivity.
Defined.
